(** * The XTB calculator of pysisyphus (pysisyphus/calculators/XTB.py)

    A shallow embedding of the adapter class [XTB] and of the Python
    built-ins it relies on, followed by the properties of its control-file
    rendering, command assembly, input staging and output parsers.

    Conventions of the embedding.
    - A Python [str] is a [string]; a character is its code point, here in
      the range 0..255.
    - A Python [float] is a binary64 [float]; an [int] is a [Z].
    - A [dict] whose iteration order the code observes is an association
      list in insertion order; any other [dict] is a [gmap].
    - Methods that read or change the adapter, the file system or the log
      are computations in the monad [M] (state plus exceptions).
    - What the repository imports from elsewhere is a field of a class:
      [PyFormat] for the text conversions of Python and numpy,
      [Collaborators] for the base class [Calculator], the constants, the
      loaders and the serializers. *)

From Stdlib Require Import ZArith List String Ascii Bool Lia.
From Stdlib Require Import Permutation Sorted DecimalString Floats.
From Stdlib Require OrderedTypeEx.
From stdpp Require Import gmap strings.
Import ListNotations.

Local Open Scope string_scope.
Local Open Scope list_scope.
Local Open Scope Z_scope.

#[local] Arguments String.append : simpl nomatch.

(** ** Python string built-ins *)

(** [str.isspace] on one character: the code points 9..13, 28..32, 133
    and 160 are the whitespace of the first 256. *)
Definition isspace (c : ascii) : bool :=
  let n := nat_of_ascii c in
  ((9 <=? n) && (n <=? 13) || (28 <=? n) && (n <=? 32)
   || (n =? 133) || (n =? 160))%nat.

Definition is_empty (s : string) : bool :=
  match s with EmptyString => true | String _ _ => false end.

(** Reversal of a string, with an accumulator. *)
Fixpoint rev_onto (s acc : string) : string :=
  match s with
  | EmptyString => acc
  | String c s' => rev_onto s' (String c acc)
  end.

(** The token accumulated so far (kept reversed in [tok]), as a list of
    at most one token. *)
Definition flush (tok : string) : list string :=
  if is_empty tok then [] else [rev_onto tok ""].

(** [str.split()] without argument: the maximal runs of characters that
    are not whitespace. *)
Fixpoint split_go (tok s : string) : list string :=
  match s with
  | EmptyString => flush tok
  | String c s' =>
      if isspace c then flush tok ++ split_go "" s'
      else split_go (String c tok) s'
  end.

Definition split (s : string) : list string := split_go "" s.

Fixpoint lstrip (s : string) : string :=
  match s with
  | EmptyString => ""
  | String c s' => if isspace c then lstrip s' else s
  end.

Fixpoint rstrip (s : string) : string :=
  match s with
  | EmptyString => ""
  | String c s' =>
      let r := rstrip s' in
      if is_empty r && isspace c then "" else String c r
  end.

(** [str.strip()] without argument. *)
Definition strip (s : string) : string := rstrip (lstrip s).

(** [prefix.startswith]: the rest of [s] after the prefix [p]. *)
Fixpoint strip_prefix (p s : string) : option string :=
  match p, s with
  | EmptyString, _ => Some s
  | String a p', String b s' =>
      if Ascii.eqb a b then strip_prefix p' s' else None
  | String _ _, EmptyString => None
  end.

Definition startswith (s p : string) : bool :=
  match strip_prefix p s with Some _ => true | None => false end.

(** [bool(re.search(p, text))] for a pattern [p] made of ordinary
    characters only: [p] occurs in [text]. *)
Fixpoint contains (p text : string) : bool :=
  startswith text p
  || match text with
     | EmptyString => false
     | String _ text' => contains p text'
     end.

Definition NL : ascii := ascii_of_nat 10.

(** [text.split('\n')]: the lines of a text; never the empty list. *)
Fixpoint split_lines (s : string) : list string :=
  match s with
  | EmptyString => [""]
  | String c s' =>
      if Ascii.eqb c NL then "" :: split_lines s'
      else match split_lines s' with
           | l :: ls => String c l :: ls
           | [] => [String c ""]
           end
  end.

(** ['\n'.join(lines)]. *)
Fixpoint join_lines (ls : list string) : string :=
  match ls with
  | [] => ""
  | [l] => l
  | l :: ls' => l +:+ String NL (join_lines ls')
  end.

(** [str(n)] and [f"{n}"] for an [int]. *)
Definition str_of_int (n : Z) : string := NilZero.string_of_int (Z.to_int n).

Fixpoint zeros (n : nat) : string :=
  match n with O => "" | S n' => String "0" (zeros n') end.

(** [f"{n:03d}"]: zeros between the sign and the digits up to a total
    width of three. *)
Definition fmt_03d (n : Z) : string :=
  let sign := if n <? 0 then "-" else "" in
  let digits := str_of_int (Z.abs n) in
  sign +:+ zeros (3 - String.length sign - String.length digits) +:+ digits.

(** ** textwrap.dedent *)

Definition is_sp_tab (c : ascii) : bool :=
  Ascii.eqb c " " || Ascii.eqb c (ascii_of_nat 9).

Fixpoint all_chars (p : ascii -> bool) (s : string) : bool :=
  match s with
  | EmptyString => true
  | String c s' => p c && all_chars p s'
  end.

(** A line made of spaces and tabs only is replaced by the empty line. *)
Definition normalize_line (l : string) : string :=
  if negb (is_empty l) && all_chars is_sp_tab l then "" else l.

Fixpoint leading_ws (l : string) : string :=
  match l with
  | EmptyString => ""
  | String c l' => if is_sp_tab c then String c (leading_ws l') else ""
  end.

(** What the pattern for leading whitespace finds on one line: the run of
    spaces and tabs that a character other than space, tab and newline
    follows. *)
Definition indent_of (l : string) : option string :=
  if all_chars is_sp_tab l then None else Some (leading_ws l).

(** [margin[:i]] at the first index [i] where [margin] and [indent]
    differ; [margin] itself when the shorter one runs out first. *)
Fixpoint cut_at_mismatch (margin indent : string) : string :=
  match margin, indent with
  | String x m', String y i' =>
      if Ascii.eqb x y then String x (cut_at_mismatch m' i') else ""
  | _, _ => margin
  end.

Definition update_margin (margin : option string) (indent : string)
  : option string :=
  match margin with
  | None => Some indent
  | Some m =>
      if startswith indent m then Some m
      else if startswith m indent then Some indent
      else Some (cut_at_mismatch m indent)
  end.

Fixpoint indents_of (ls : list string) : list string :=
  match ls with
  | [] => []
  | l :: ls' =>
      match indent_of l with
      | Some i => i :: indents_of ls'
      | None => indents_of ls'
      end
  end.

Definition remove_margin (m l : string) : string :=
  match strip_prefix m l with Some r => r | None => l end.

(** [textwrap.dedent] as Python 3.7 to 3.13 define it. *)
Definition dedent (text : string) : string :=
  let ls := List.map normalize_line (split_lines text) in
  match fold_left update_margin (indents_of ls) None with
  | Some (String c m) => join_lines (List.map (remove_margin (String c m)) ls)
  | _ => join_lines ls
  end.

(** ** dict items and sorted *)

(** A [dict] in insertion order. Its keys are distinct ([dict_wf]). *)
Definition dict (V : Type) : Type := list (string * V).

Definition dict_wf {V} (d : dict V) : Prop := List.NoDup (List.map fst d).

Fixpoint dict_get {V} (k : string) (d : dict V) : option V :=
  match d with
  | [] => None
  | (k', v) :: d' => if String.eqb k k' then Some v else dict_get k d'
  end.

(** [d[k] = v]: the value is replaced in place, a new key goes last. *)
Fixpoint dict_set {V} (k : string) (v : V) (d : dict V) : dict V :=
  match d with
  | [] => [(k, v)]
  | (k', v') :: d' =>
      if String.eqb k k' then (k, v) :: d' else (k', v') :: dict_set k v d'
  end.

(** [d.update(other)]. *)
Definition dict_update {V} (d other : dict V) : dict V :=
  fold_left (fun acc kv => dict_set (fst kv) (snd kv) acc) other d.

Fixpoint insert_by_key {V} (x : string * V) (l : list (string * V))
  : list (string * V) :=
  match l with
  | [] => [x]
  | y :: l' =>
      if String.leb (fst x) (fst y) then x :: l else y :: insert_by_key x l'
  end.

(** [sorted(d.items(), key=lambda x: x[0])]: the stable sort by key. *)
Fixpoint sorted_by_key {V} (l : list (string * V)) : list (string * V) :=
  match l with
  | [] => []
  | x :: l' => insert_by_key x (sorted_by_key l')
  end.

(** ** Formatting done by Python and numpy *)

(** Conversions between a binary64 and its text, and the [repr] of a list
    of strings. *)
Class PyFormat := {
  (** [str(x)] and [f"{x}"] for a float [x] *)
  float_str : float -> string;
  (** [float(s)]; [None] where Python raises [ValueError] *)
  float_of_str : string -> option float;
  (** numpy's conversion of one [str] element to [dtype=float] *)
  np_float_of_str : string -> option float;
  (** ["% .14e" % x], the format [np.savetxt] is given *)
  fmt_e14 : float -> string;
  (** [f"{l}"] for a list [l] of strings *)
  list_repr : list string -> string;
}.

(** ** The control file *)

(** A value of a control-file entry. *)
Inductive xval : Type :=
| XBool (b : bool)
| XInt (n : Z)
| XFloat (x : float)
| XStr (s : string).

Definition options : Type := dict (dict xval).

Section Xcontrol.
Context `{PyFormat}.

(** The text [val] that [f"    {key}={val}\n"] formats. *)
Definition xval_text (v : xval) : string :=
  match v with
  | XBool b => if b then "true" else "false"
  | XInt n => str_of_int n
  | XFloat x => float_str x
  | XStr s => s
  end.

Definition entry_line (kv : string * xval) : string :=
  "    " +:+ fst kv +:+ "=" +:+ xval_text (snd kv) +:+ String NL "".

Fixpoint entries_text (es : list (string * xval)) : string :=
  match es with
  | [] => ""
  | kv :: es' => entry_line kv +:+ entries_text es'
  end.

Definition section_text (se : string * dict xval) : string :=
  "$" +:+ fst se +:+ String NL ""
  +:+ entries_text (sorted_by_key (snd se))
  +:+ "$end" +:+ String NL "".

Fixpoint sections_text (ss : list (string * dict xval)) : string :=
  match ss with
  | [] => ""
  | se :: ss' => section_text se +:+ sections_text ss'
  end.

(** The string [inp] at the end of the two loops. *)
Definition xcontrol_inp (o : options) : string :=
  sections_text (sorted_by_key o).

Definition format_xcontrol (o : options) : string :=
  dedent (strip (xcontrol_inp o)).
End Xcontrol.

(** ** Values, results and exceptions *)

(** An [int] or a [float] option value. *)
Inductive number : Type :=
| NInt (n : Z)
| NFloat (x : float).

(** [bool(v)]: zero of either kind is false, anything else (a NaN too)
    is true. *)
Definition number_truthy (v : number) : bool :=
  match v with
  | NInt n => negb (n =? 0)
  | NFloat x => negb (PrimFloat.eqb x 0%float)
  end.

Definition number_str `{PyFormat} (v : number) : string :=
  match v with
  | NInt n => str_of_int n
  | NFloat x => float_str x
  end.

(** The Hamiltonian level: an [int] or a [str] by the docstring; a
    [bool] or a [float] passes the membership test of [__init__] as
    well, since that test compares with [==]. *)
Inductive gfn_val : Type :=
| GfnInt (n : Z)
| GfnStr (s : string)
| GfnBool (b : bool)
| GfnFloat (x : float).

(** [str(gfn)], as the f-string formats it. *)
Definition gfn_str `{PyFormat} (g : gfn_val) : string :=
  match g with
  | GfnInt n => str_of_int n
  | GfnStr s => s
  | GfnBool b => if b then "True" else "False"
  | GfnFloat x => float_str x
  end.

Inductive exn_kind : Type :=
| AssertionError | ValueError | TypeError | KeyError | AttributeError
| FileNotFoundError | UnicodeEncodeError | RuntimeError.

(** A raised exception: its class and its message. The message of an
    exception that Python or numpy raises is abridged. *)
Record exn : Type := Exn { exn_class : exn_kind; exn_msg : string }.

(** What [geom_loader] gives back: the atoms, the flat coordinates and the
    [energy] attribute of a geometry. *)
Record Geometry : Type := {
  geom_atoms : list string;
  geom_coords : list float;
  geom_energy : option float;
}.

(** [geom_loader] returns one geometry for an xyz file and a sequence of
    them for a trajectory. *)
Inductive loaded : Type :=
| OneGeom (g : Geometry)
| ManyGeoms (gs : list Geometry).

(** [OptResult = namedtuple("OptResult", "opt_geom opt_log")]. *)
Record OptResult : Type := { opt_geom : loaded; opt_log : option loaded }.

(** A value stored in a results [dict]. *)
Inductive value : Type :=
| VFloat (x : float)
| VArray (xs : list float)
| VMatrix (rows : list (list float))
| VPath (p : string).

(** What a parser, and so [Calculator.run], returns. *)
Inductive retval : Type :=
| RNone
| RFloat (x : float)
| RDict (d : gmap string value)
| ROpt (r : OptResult)
| RLoaded (l : loaded).

(** ** The adapter, its world and the monad of its methods *)

(** The attributes of an [XTB] instance. [charge], [mult], [pal] and [mem]
    are set by [Calculator.__init__] from the keyword arguments. *)
Record XTB : Type := {
  charge : Z;
  mult : Z;
  pal : Z;
  mem : Z;
  gbsa : string;
  alpb : string;
  gfn : gfn_val;
  acc : number;
  iterations : Z;
  etemp : option number;
  retry_etemp : option number;
  restart : bool;
  xtb_options : options;
  topo : option string;
  topo_update : option Z;
  quiet : bool;
  topo_used : Z;
  uhf : Z;
  inp_fn : string;
  out_fn : string;
  to_keep : list string;
  base_cmd : string;
}.

(** What lies outside the instance: the files by path, and what the base
    class keeps ([calc_number], the [xtbrestart] of its set plans,
    [os.environ]). *)
Record World : Type := {
  files : gmap string string;
  calc_number : Z;
  xtbrestart : option string;
  environ : gmap string string;
}.

(** The keyword arguments of one call of [Calculator.run]. *)
Record run_request : Type := {
  rq_inp : string;
  rq_calc : string;
  rq_add_args : option (list string);
  rq_cmd : option (list string);
  rq_env : gmap string string;
  rq_keep : option bool;
  rq_keep_log : option bool;
}.

(** What a method did to the outside, in order: a file written by the
    module itself, a file copied, the point charges saved to a file by
    [save_orca_pc_file], a call of [Calculator.run]. *)
Inductive event : Type :=
| EvWrite (path content : string)
| EvCopy (src dst : string)
| EvSavePc (point_charges : list (list float)) (fn : string)
| EvRun (rq : run_request).

Record State : Type := {
  self : XTB;
  world : World;
  log : list string;
  events : list event;
}.

Inductive outcome (A : Type) : Type :=
| Ok (a : A)
| Raise (e : exn).
Arguments Ok {A} a.
Arguments Raise {A} e.

Definition M (A : Type) : Type := State -> outcome A * State.

#[global] Instance M_ret : MRet M := fun A a st => (Ok a, st).

#[global] Instance M_bind : MBind M := fun A B k m st =>
  match m st with
  | (Ok a, st') => k a st'
  | (Raise e, st') => (Raise e, st')
  end.

Definition raise {A} (k : exn_kind) (msg : string) : M A :=
  fun st => (Raise (Exn k msg), st).

Definition get_self : M XTB := fun st => (Ok (self st), st).
Definition get_world : M World := fun st => (Ok (world st), st).

Definition put_self (x : XTB) : M unit :=
  fun st => (Ok tt, {| self := x; world := world st; log := log st;
                      events := events st |}).

Definition put_world (w : World) : M unit :=
  fun st => (Ok tt, {| self := self st; world := w; log := log st;
                      events := events st |}).

(** [self.log(msg)]. *)
Definition log_msg (msg : string) : M unit :=
  fun st => (Ok tt, {| self := self st; world := world st;
                      log := log st ++ [msg]; events := events st |}).

Definition emit (e : event) : M unit :=
  fun st => (Ok tt, {| self := self st; world := world st; log := log st;
                      events := events st ++ [e] |}).

(** [assert cond, msg]. *)
Definition assert (cond : bool) (msg : string) : M unit :=
  if cond then mret tt else raise AssertionError msg.

Definition set_files (fs : gmap string string) (w : World) : World :=
  {| files := fs; calc_number := calc_number w; xtbrestart := xtbrestart w;
     environ := environ w |}.

(** [path / name]. *)
Definition path_join (path name : string) : string := path +:+ "/" +:+ name.

(** [open(p).read()]. *)
Definition read_file (p : string) : M string :=
  w ← get_world;
  match files w !! p with
  | Some text => mret text
  | None => raise FileNotFoundError p
  end.

(** [open(p, "w").write(text)]. *)
Definition write_file (p text : string) : M unit :=
  w ← get_world;
  put_world (set_files (<[p := text]> (files w)) w);;
  emit (EvWrite p text).

(** [shutil.copy(src, dst)]. *)
Definition copy_file (src dst : string) : M unit :=
  w ← get_world;
  match files w !! src with
  | Some text =>
      put_world (set_files (<[dst := text]> (files w)) w);;
      emit (EvCopy src dst)
  | None => raise FileNotFoundError src
  end.

(** [p.exists()]. *)
Definition path_exists (p : string) : M bool :=
  w ← get_world;
  mret (bool_decide (is_Some (files w !! p))).

(** ** numpy arrays *)

(** The rows of [xs.reshape(r, c)] when [xs] has [r * c] elements. *)
Fixpoint rows_of (r c : nat) (xs : list float) : list (list float) :=
  match r with
  | O => []
  | S r' => firstn c xs :: rows_of r' c (skipn c xs)
  end.

(** [xs.reshape(r, c)]; [None] where numpy raises [ValueError]. *)
Definition reshape2 (r c : nat) (xs : list float)
  : option (list (list float)) :=
  if (length xs =? r * c)%nat then Some (rows_of r c xs) else None.

(** [xs.reshape(-1, 3)]. *)
Definition reshape3 (xs : list float) : option (list (list float)) :=
  if (length xs mod 3 =? 0)%nat then Some (rows_of (length xs / 3) 3 xs)
  else None.

(** [xs * k] for a scalar [k]. *)
Definition scale (k : float) (xs : list float) : list float :=
  List.map (fun x => PrimFloat.mul x k) xs.

(** [np.concatenate((a, b), axis=1)] for two arrays with as many rows. *)
Fixpoint concat_columns (a b : list (list float)) : list (list float) :=
  match a, b with
  | ra :: a', rb :: b' => (ra ++ rb) :: concat_columns a' b'
  | _, _ => []
  end.

(** [np.array(tokens, dtype=float)]: every token is converted, the first
    failure raises. *)
Fixpoint np_array `{PyFormat} (tokens : list string) : option (list float) :=
  match tokens with
  | [] => Some []
  | t :: ts =>
      match np_float_of_str t, np_array ts with
      | Some x, Some xs => Some (x :: xs)
      | _, _ => None
      end
  end.

(** ** The collaborators *)

Class Collaborators := {
  (** pysisyphus.constants *)
  BOHR2ANG : float;
  BOHRPERFS2AU : float;
  (** pysisyphus.xyzloader: the text of a geometry; it may refuse its
      arguments, as it does for atoms and rows that differ in number *)
  make_xyz_str : list string -> list (list float) -> outcome string;
  (** pysisyphus.calculators.ORCA: writes the point charges to a file *)
  save_orca_pc_file : list (list float) -> string -> Z -> World -> World;
  (** pysisyphus.helpers *)
  geom_loader : string -> World -> outcome loaded;
  (** pysisyphus.calculators.parser: the energy and the forces read from
      the file [gradient] of a directory *)
  parse_turbo_gradient : string -> World -> outcome (float * list float);
  (** [Calculator.get_cmd] *)
  get_cmd : string;
  (** [Calculator.prepare_path]: the working directory of the next run *)
  prepare_path : World -> string * World;
  (** [Calculator.make_fn]: a persistent file name *)
  make_fn : string -> World -> string;
  (** The part of [Calculator.run] before the parser: stage the input,
      spawn the program, wait; the directory it ran in *)
  run_process : run_request -> World -> outcome string * World;
}.

(** The outcome of a collaborator that touches nothing. *)
Definition lift_outcome {A} (r : outcome A) : M A := fun st => (r, st).

(** A read-only collaborator as a computation. *)
Definition lift_read {A} (f : World -> outcome A) : M A :=
  fun st => (f (world st), st).

(** A collaborator that changes the world. *)
Definition lift_world {A} (f : World -> A * World) : M A :=
  fun st =>
    let '(a, w) := f (world st) in
    (Ok a, {| self := self st; world := w; log := log st;
              events := events st |}).

Definition lift_try {A} (f : World -> outcome A * World) : M A :=
  fun st =>
    let '(r, w) := f (world st) in
    (r, {| self := self st; world := w; log := log st;
           events := events st |}).

(** ** Construction *)

(** The arguments of [XTB(...)]; [kw_charge], [kw_mult], [kw_pal] and
    [kw_mem] are among the [**kwargs] handed to [Calculator.__init__]. *)
Record kwargs : Type := {
  kw_gbsa : string;
  kw_alpb : string;
  kw_gfn : gfn_val;
  kw_acc : number;
  kw_iterations : Z;
  kw_etemp : option number;
  kw_retry_etemp : option number;
  kw_restart : bool;
  kw_xtb_options : options;
  kw_topo : option string;
  kw_topo_update : option Z;
  kw_quiet : bool;
  kw_charge : Z;
  kw_mult : Z;
  kw_pal : Z;
  kw_mem : Z;
}.

(** The defaults of the signature, with a neutral singlet on one core. *)
Definition default_kwargs : kwargs := {|
  kw_gbsa := ""; kw_alpb := ""; kw_gfn := GfnInt 2; kw_acc := NFloat 1%float;
  kw_iterations := 250; kw_etemp := None; kw_retry_etemp := None;
  kw_restart := false; kw_xtb_options := []; kw_topo := None;
  kw_topo_update := None; kw_quiet := false;
  kw_charge := 0; kw_mult := 1; kw_pal := 1; kw_mem := 1000;
|}.

(** [self.gfn in (0, 1, 2, "ff")]: equal to one of the four. [True]
    equals 1 and [False] equals 0; a float equals an integer of the same
    value. *)
Definition valid_gfn (g : gfn_val) : bool :=
  match g with
  | GfnInt n => (n =? 0) || (n =? 1) || (n =? 2)
  | GfnStr s => String.eqb s "ff"
  | GfnBool _ => true
  | GfnFloat x =>
      PrimFloat.eqb x 0%float || PrimFloat.eqb x 1%float
      || PrimFloat.eqb x 2%float
  end.

Definition etemp_msg : string :=
  "Using 'etemp' and 'retry_etemp' simultaneously is not possible!".

Definition to_keep_of (restart quiet : bool) : list string :=
  let base := ["out:xtb.out"; "gradient"; "xtbopt.xyz"; "g98.out"; "xtb.trj";
               "charges:charges"; "xcontrol"] in
  let kept := if restart then base ++ ["xtbrestart"] else base in
  if quiet then [] else kept.

Section Init.
Context `{Collaborators}.

(** [XTB.__init__]. The message of the second assertion joins the
    tuple [valid_gfns], which holds integers: building it raises
    [TypeError]. *)
Definition init (kw : kwargs) : outcome XTB :=
  let etemp_ok :=
    match kw_etemp kw with
    | Some _ => match kw_retry_etemp kw with None => true | Some _ => false end
    | None => true
    end in
  if negb etemp_ok then Raise (Exn AssertionError etemp_msg)
  else if negb (valid_gfn (kw_gfn kw)) then
    Raise (Exn TypeError "sequence item 0: expected str instance, int found")
  else Ok {|
    charge := kw_charge kw; mult := kw_mult kw;
    pal := kw_pal kw; mem := kw_mem kw;
    gbsa := kw_gbsa kw; alpb := kw_alpb kw; gfn := kw_gfn kw;
    acc := kw_acc kw; iterations := kw_iterations kw;
    etemp := kw_etemp kw; retry_etemp := kw_retry_etemp kw;
    restart := kw_restart kw; xtb_options := kw_xtb_options kw;
    topo := kw_topo kw; topo_update := kw_topo_update kw;
    quiet := kw_quiet kw;
    topo_used := 0;
    uhf := kw_mult kw - 1;
    inp_fn := "xtb.xyz"; out_fn := "xtb.out";
    to_keep := to_keep_of (kw_restart kw) (kw_quiet kw);
    base_cmd := get_cmd;
  |}.
End Init.

(** ** Command assembly *)

Section AddArgs.
Context `{PyFormat}.

Definition base_args (x : XTB) : list string :=
  split ("--input xcontrol --chrg " +:+ str_of_int (charge x)
         +:+ " --uhf " +:+ str_of_int (uhf x)
         +:+ " --acc " +:+ number_str (acc x)
         +:+ " --iterations " +:+ str_of_int (iterations x)).

(** [if self.etemp:]: neither [None] nor zero. *)
Definition etemp_args (x : XTB) : list string :=
  match etemp x with
  | Some t =>
      if number_truthy t then split ("--etemp " +:+ number_str t) else []
  | None => []
  end.

Definition solvent_args (x : XTB) : list string :=
  if negb (is_empty (gbsa x)) then split ("--gbsa " +:+ gbsa x)
  else if negb (is_empty (alpb x)) then split ("--alpb " +:+ alpb x)
  else [].

Definition gfn_args (x : XTB) : list string :=
  match gfn x with
  | GfnStr s =>
      if String.eqb s "ff" then ["--gfnff"] else split ("--gfn " +:+ s)
  | g => split ("--gfn " +:+ gfn_str g)
  end.

Definition prepare_add_args (x : XTB) : list string :=
  let add_args := base_args x in
  let add_args := add_args ++ etemp_args x in
  let add_args := add_args ++ solvent_args x in
  add_args ++ gfn_args x.

(** [get_retry_args], without its log message. *)
Definition retry_args (x : XTB) : list string :=
  match retry_etemp x with
  | None => []
  | Some t => split ("--etemp " +:+ number_str t)
  end.
End AddArgs.

(** ** Parsers *)

Definition is_digit (c : ascii) : bool :=
  let n := nat_of_ascii c in ((48 <=? n) && (n <=? 57))%nat.

(** The class [[-\d\.]]. *)
Definition is_num_char (c : ascii) : bool :=
  Ascii.eqb c "-" || is_digit c || Ascii.eqb c ".".

(** The longest prefix of characters satisfying [p], and the rest. *)
Fixpoint span_while (p : ascii -> bool) (s : string) : string * string :=
  match s with
  | EmptyString => ("", "")
  | String c s' =>
      if p c then let '(a, b) := span_while p s' in (String c a, b)
      else ("", s)
  end.

(** A match of [TOTAL ENERGY\s*([-\d\.]+) Eh] that starts at the first
    character of [s]: its group. Whitespace is not in the class and the
    class does not hold a space, so both repetitions take their longest
    run or the match fails. *)
Definition energy_match_at (s : string) : option string :=
  match strip_prefix "TOTAL ENERGY" s with
  | None => None
  | Some r =>
      let '(num, rest) := span_while is_num_char (lstrip r) in
      if is_empty num then None
      else if startswith rest " Eh" then Some num else None
  end.

(** [re.search(energy_re, text)]: the leftmost match. *)
Fixpoint energy_search (s : string) : option string :=
  match energy_match_at s with
  | Some g => Some g
  | None =>
      match s with
      | EmptyString => None
      | String _ s' => energy_search s'
      end
  end.

Definition set_geom_energy (g : Geometry) (e : float) : Geometry :=
  {| geom_atoms := geom_atoms g; geom_coords := geom_coords g;
     geom_energy := Some e |}.

Definition set_topo (t : option string) (x : XTB) : XTB :=
  {| charge := charge x; mult := mult x; pal := pal x; mem := mem x;
     gbsa := gbsa x; alpb := alpb x; gfn := gfn x; acc := acc x;
     iterations := iterations x; etemp := etemp x;
     retry_etemp := retry_etemp x; restart := restart x;
     xtb_options := xtb_options x; topo := t;
     topo_update := topo_update x; quiet := quiet x;
     topo_used := topo_used x; uhf := uhf x; inp_fn := inp_fn x;
     out_fn := out_fn x; to_keep := to_keep x; base_cmd := base_cmd x |}.

Definition set_topo_used (n : Z) (x : XTB) : XTB :=
  {| charge := charge x; mult := mult x; pal := pal x; mem := mem x;
     gbsa := gbsa x; alpb := alpb x; gfn := gfn x; acc := acc x;
     iterations := iterations x; etemp := etemp x;
     retry_etemp := retry_etemp x; restart := restart x;
     xtb_options := xtb_options x; topo := topo x;
     topo_update := topo_update x; quiet := quiet x;
     topo_used := n; uhf := uhf x; inp_fn := inp_fn x;
     out_fn := out_fn x; to_keep := to_keep x; base_cmd := base_cmd x |}.

Section Methods.
Context `{PyFormat} `{Collaborators}.

(** [parse_energy]. Without a match [re.search] returns [None], whose
    subscript raises [TypeError]. *)
Definition parse_energy (path : string) : M float :=
  x ← get_self;
  text ← read_file (path_join path (out_fn x));
  match energy_search text with
  | None => raise TypeError "'NoneType' object is not subscriptable"
  | Some g =>
      match float_of_str g with
      | Some e => mret e
      | None => raise ValueError "could not convert string to float"
      end
  end.

(** [parse_gradient]: the results of [parse_turbo_gradient], a [dict]
    with the energy and the forces. *)
Definition parse_gradient (path : string) : M retval :=
  ef ← lift_read (parse_turbo_gradient path);
  mret (RDict (<["forces" := VArray (snd ef)]>
                 (<["energy" := VFloat (fst ef)]> ∅))).

(** [parse_hessian]. [int(size ** 0.5)] is the integer square root of
    the size (the binary64 power is exact enough below 2^52). *)
Definition parse_hessian (path : string) : M retval :=
  text ← read_file (path_join path "hessian");
  match np_array (tail (split text)) with
  | None => raise ValueError "could not convert string to float"
  | Some hessian =>
      let coord_num := Nat.sqrt (length hessian) in
      match reshape2 coord_num coord_num hessian with
      | None => raise ValueError "cannot reshape array"
      | Some hessian =>
          energy ← parse_energy path;
          mret (RDict (<["hessian" := VMatrix hessian]>
                         (<["energy" := VFloat energy]> ∅)))
      end
  end.

(** [parse_opt]. *)
Definition parse_opt (path : string) (keep_log : bool) : M retval :=
  let xtbopt := path_join path "xtbopt.xyz" in
  found ← path_exists xtbopt;
  if negb found then
    w ← get_world;
    log_msg (fmt_03d (calc_number w) +:+ " failed");;
    mret RNone
  else
    loaded_geom ← lift_read (geom_loader xtbopt);
    energy ← parse_energy path;
    geom ← match loaded_geom with
            | OneGeom g => mret (OneGeom (set_geom_energy g energy))
            | ManyGeoms _ =>
                raise AttributeError "'list' object has no attribute 'energy'"
            end;
    opt_log ← (if keep_log then
                 l ← lift_read (geom_loader (path_join path "xtbopt.log"));
                 mret (Some l)
               else mret None);
    mret (ROpt {| opt_geom := geom; opt_log := opt_log |}).

(** [parse_md]. *)
Definition parse_md (path : string) : M retval :=
  found ← path_exists (path_join path "xtbmdok");
  assert found "File xtbmdok does not exist!";;
  geoms ← lift_read (geom_loader (path_join path "xtb.trj"));
  mret (RLoaded geoms).

(** [parse_topo]. *)
Definition parse_topo (path : string) : M retval :=
  let fn := "gfnff_topo" in
  let topo := path_join path fn in
  w ← get_world;
  let target := make_fn fn w in
  copy_file topo target;;
  mret (RDict (<["topo" := VPath target]> ∅)).

(** [self.parser_funcs[calc](path, **parser_kwargs)]. *)
Definition parser_funcs (calc path : string) (keep_log : option bool)
  : M retval :=
  if String.eqb calc "grad" then parse_gradient path
  else if String.eqb calc "hess" then parse_hessian path
  else if String.eqb calc "opt" then parse_opt path (default false keep_log)
  else if String.eqb calc "md" then parse_md path
  else if String.eqb calc "topo" then parse_topo path
  else if String.eqb calc "noparse" then mret RNone
  else if String.eqb calc "calc" then e ← parse_energy path; mret (RFloat e)
  else raise KeyError calc.

(** Modelled from the spec: [Calculator.run] of the base class, which is
    not part of this module. The external program is run on the request
    and the directory it ran in is handed to the parser that the mode
    tag selects; the parser's result is returned, a failure propagates. *)
Definition run (rq : run_request) : M retval :=
  emit (EvRun rq);;
  path ← lift_try (run_process rq);
  parser_funcs (rq_calc rq) path (rq_keep_log rq).

(** ** Input staging *)

(** [prepare_coords]. *)
Definition prepare_coords (atoms : list string) (coords : list float)
  : M string :=
  match reshape3 (scale BOHR2ANG coords) with
  | Some coords3d => lift_outcome (make_xyz_str atoms coords3d)
  | None => raise ValueError "cannot reshape array"
  end.

(** [get_pal_env]. *)
Definition get_pal_env : M (gmap string string) :=
  x ← get_self;
  w ← get_world;
  mret (<["OMP_STACKSIZE" := str_of_int (mem x) +:+ "M"]>
          (<["MKL_NUM_THREADS" := str_of_int (pal x)]>
             (<["OMP_NUM_THREADS" := str_of_int (pal x)]> (environ w)))).

(** [run_topo]. *)
Definition run_topo (atoms : list string) (coords : list float)
  : M retval :=
  inp ← prepare_coords atoms coords;
  x ← get_self;
  env ← get_pal_env;
  run {| rq_inp := inp; rq_calc := "topo"; rq_add_args := None;
         rq_cmd := Some [base_cmd x; "topo"]; rq_env := env;
         rq_keep := None; rq_keep_log := None |}.

(** [results["topo"]]. Every results [dict] of this module holds a path
    under "topo"; [TypeError] stands for anything else. *)
Definition result_topo (results : retval) : M string :=
  match results with
  | RDict d =>
      match d !! "topo" with
      | Some (VPath p) => mret p
      | Some _ => raise TypeError "topo is not a path"
      | None => raise KeyError "topo"
      end
  | _ => raise TypeError "object is not subscriptable"
  end.

(** [if self.topo:]. *)
Definition topo_set (x : XTB) : bool :=
  match topo x with
  | Some p => negb (is_empty p)
  | None => false
  end.

(** The condition under which the topology is recreated. *)
Definition topo_due (x : XTB) : bool :=
  (0 <? topo_used x)
  && match topo_update x with
     | Some u => negb (u =? 0) && (topo_used x mod u =? 0)
     | None => false
     end.

(** [prepare_input]. *)
Definition prepare_input (atoms : list string) (coords : list float)
    (calc_type : string) (point_charges : option (list (list float)))
  : M unit :=
  path ← lift_world prepare_path;
  let xcontrol : options := [("write", [("json", XBool true)])] in
  xcontrol ← match point_charges with
              | Some pc =>
                  w ← get_world;
                  let pc_fn := make_fn "pointcharges_inp.pc" w in
                  put_world (save_orca_pc_file pc pc_fn 99 w);;
                  emit (EvSavePc pc pc_fn);;
                  mret (dict_set "embedding"
                          [("input", XStr pc_fn); ("interface", XStr "orca")]
                          xcontrol)
              | None => mret xcontrol
              end;
  x ← get_self;
  let xcontrol := dict_update xcontrol (xtb_options x) in
  write_file (path_join path "xcontrol") (format_xcontrol xcontrol);;
  (if topo_due x then
     results ← run_topo atoms coords;
     new_topo ← result_topo results;
     x ← get_self;
     put_self (set_topo (Some new_topo) x);;
     log_msg ("Updated topology! Saved to '" +:+ new_topo +:+ "'.")
   else mret tt);;
  x ← get_self;
  (if topo_set x then
     copy_file (default "" (topo x)) (path_join path "gfnff_topo");;
     log_msg ("Using toplogy given in " +:+ default "" (topo x) +:+ ".");;
     put_self (set_topo_used (topo_used x + 1) x)
   else mret tt);;
  w ← get_world;
  match xtbrestart w with
  | Some r =>
      copy_file r (path_join path "xtbrestart");;
      log_msg ("Using xtbrestart given in " +:+ r +:+ ".")
  | None => mret tt
  end.
End Methods.

(** ** textwrap.indent and the restart file *)

Definition CR : ascii := ascii_of_nat 13.

(** The line boundaries of [str.splitlines] among the first 256 code
    points. *)
Definition is_linebreak (c : ascii) : bool :=
  let n := nat_of_ascii c in
  ((10 <=? n) && (n <=? 13) || (28 <=? n) && (n <=? 30) || (n =? 133))%nat.

(** [text.splitlines(True)]: the lines with their ends; a carriage return
    and the newline after it end one line together. [cur] holds the
    current line, reversed. *)
Fixpoint splitlines_go (cur s : string) : list string :=
  match s with
  | EmptyString => flush cur
  | String c s' =>
      if is_linebreak c then
        match s' with
        | String c2 s'' =>
            if Ascii.eqb c CR && Ascii.eqb c2 NL then
              rev_onto (String c2 (String c cur)) "" :: splitlines_go "" s''
            else rev_onto (String c cur) "" :: splitlines_go "" s'
        | EmptyString => [rev_onto (String c cur) ""]
        end
      else splitlines_go (String c cur) s'
  end.

Definition splitlines_keepends (s : string) : list string := splitlines_go "" s.

Fixpoint concat_strings (ls : list string) : string :=
  match ls with
  | [] => ""
  | l :: ls' => l +:+ concat_strings ls'
  end.

(** [textwrap.indent(text, prefix)]: the prefix goes before every line
    that has a character other than whitespace. *)
Definition indent (text prefix : string) : string :=
  concat_strings
    (List.map (fun line => if is_empty (strip line) then line
                           else prefix +:+ line)
              (splitlines_keepends text)).

(** [s.replace("e", "D")]. *)
Fixpoint replace_e_D (s : string) : string :=
  match s with
  | EmptyString => ""
  | String c s' =>
      String (if Ascii.eqb c "e" then "D"%char else c) (replace_e_D s')
  end.

Fixpoint join_with (sep : string) (ls : list string) : string :=
  match ls with
  | [] => ""
  | [l] => l
  | l :: ls' => l +:+ sep +:+ join_with sep ls'
  end.

Definition is_ascii (s : string) : bool :=
  all_chars (fun c => (nat_of_ascii c <? 128)%nat) s.

Section Operations.
Context `{PyFormat} `{Collaborators}.

(** [np.savetxt(io_stream, vals, fmt="% .14e")]. *)
Definition savetxt (vals : list (list float)) : string :=
  concat_strings
    (List.map (fun row => join_with " " (List.map fmt_e14 row)
                          +:+ String NL "") vals).

(** [get_mdrestart_str]. *)
Definition get_mdrestart_str (coords velocities : list (list float))
  : string :=
  let vals := concat_columns coords velocities in
  let mdrestart := savetxt vals in
  let mdrestart := "-1.0" +:+ String NL "" +:+ replace_e_D mdrestart in
  indent mdrestart " ".

(** [write_mdrestart]: the text is encoded as ASCII and written. *)
Definition write_mdrestart (path mdrestart_str : string) : M unit :=
  if is_ascii mdrestart_str then
    write_file (path_join path "mdrestart") mdrestart_str
  else raise UnicodeEncodeError "'ascii' codec can't encode character".

(** [f"Executing {self.base_cmd} {add_args}"]. *)
Definition executing_msg (x : XTB) (add_args : list string) : string :=
  "Executing " +:+ base_cmd x +:+ " " +:+ list_repr add_args.

(** [get_forces]. *)
Definition get_forces (atoms : list string) (coords : list float)
    (point_charges : option (list (list float))) : M retval :=
  prepare_input atoms coords "forces" point_charges;;
  inp ← prepare_coords atoms coords;
  x ← get_self;
  let add_args := prepare_add_args x ++ ["--grad"] in
  log_msg (executing_msg x add_args);;
  env ← get_pal_env;
  run {| rq_inp := inp; rq_calc := "grad"; rq_add_args := Some add_args;
         rq_cmd := None; rq_env := env; rq_keep := None;
         rq_keep_log := None |}.

(** [del results["forces"]]. *)
Definition del_forces (results : retval) : M retval :=
  match results with
  | RDict d =>
      match d !! "forces" with
      | Some _ => mret (RDict (delete "forces" d))
      | None => raise KeyError "forces"
      end
  | _ => raise TypeError "object does not support item deletion"
  end.

(** [get_energy]. *)
Definition get_energy (atoms : list string) (coords : list float)
    (point_charges : option (list (list float))) : M retval :=
  results ← get_forces atoms coords point_charges;
  del_forces results.

(** [get_hessian]. *)
Definition get_hessian (atoms : list string) (coords : list float)
    (point_charges : option (list (list float))) : M retval :=
  prepare_input atoms coords "hessian" point_charges;;
  inp ← prepare_coords atoms coords;
  x ← get_self;
  let add_args := prepare_add_args x ++ ["--hess"] in
  log_msg (executing_msg x add_args);;
  env ← get_pal_env;
  run {| rq_inp := inp; rq_calc := "hess"; rq_add_args := Some add_args;
         rq_cmd := None; rq_env := env; rq_keep := None;
         rq_keep_log := None |}.

(** [run_calculation]. *)
Definition run_calculation (atoms : list string) (coords : list float)
    (point_charges : option (list (list float))) : M retval :=
  get_energy atoms coords point_charges.

(** [run_opt]. *)
Definition run_opt (atoms : list string) (coords : list float)
    (keep keep_log : bool) : M retval :=
  inp ← prepare_coords atoms coords;
  x ← get_self;
  let add_args := prepare_add_args x ++ ["--opt"; "tight"] in
  log_msg (executing_msg x add_args);;
  env ← get_pal_env;
  run {| rq_inp := inp; rq_calc := "opt"; rq_add_args := Some add_args;
         rq_cmd := None; rq_env := env; rq_keep := Some keep;
         rq_keep_log := Some keep_log |}.

Definition shape_msg : string :=
  "Shape of coordinates and velocities doesn't match!".

(** The part of [run_md] under [if velocities is not None:]; the value
    of [restart] after it. *)
Definition md_restart (path : string) (coords : list float)
    (velocities : option (list float)) : M string :=
  match velocities with
  | None => mret "false"
  | Some v =>
      match reshape3 coords with
      | None => raise ValueError "cannot reshape array"
      | Some coords3d =>
          match reshape3 v with
          | None => raise ValueError "cannot reshape array"
          | Some v3d =>
              let velocities3d := List.map (scale BOHRPERFS2AU) v3d in
              assert (length coords3d =? length velocities3d)%nat shape_msg;;
              write_mdrestart path (get_mdrestart_str coords3d velocities3d);;
              mret "true"
          end
      end
  end.

Definition number_xval (v : number) : xval :=
  match v with
  | NInt n => XInt n
  | NFloat x => XFloat x
  end.

Definition md_options (restart : string) (t : float) (dt : number)
    (dump : Z) : options :=
  [("md", [("hmass", XInt 1); ("dump", XInt dump); ("nvt", XBool false);
           ("restart", XStr restart);
           ("time", XFloat (PrimFloat.div t 1000%float));
           ("shake", XInt 0); ("step", number_xval dt);
           ("velo", XBool false)])].

(** [run_md]. *)
Definition run_md (atoms : list string) (coords : list float)
    (t : float) (dt : number) (velocities : option (list float))
    (dump : Z) : M retval :=
  path ← lift_world prepare_path;
  restart ← md_restart path coords velocities;
  x ← get_self;
  let options := dict_update (md_options restart t dt dump) (xtb_options x) in
  write_file (path_join path "xcontrol") (format_xcontrol options);;
  inp ← prepare_coords atoms coords;
  let add_args := prepare_add_args x ++ ["--input"; "xcontrol"; "--md"] in
  log_msg (executing_msg x add_args);;
  env ← get_pal_env;
  run {| rq_inp := inp; rq_calc := "md"; rq_add_args := Some add_args;
         rq_cmd := None; rq_env := env; rq_keep := Some true;
         rq_keep_log := None |}.

(** [get_retry_args]. *)
Definition get_retry_args : M (list string) :=
  x ← get_self;
  match retry_etemp x with
  | None => mret []
  | Some t =>
      log_msg ("Retrying calculation with increased etemp=" +:+ number_str t);;
      mret (retry_args x)
  end.
End Operations.

(** ** The termination check *)

(** The function under the decorators: [bool(term_re.search(text))]. *)
Definition check_termination_text (text : string) : bool :=
  contains "finished run on" text.

(** What [check_termination] is called with. *)
Inductive file_or_text : Type :=
| FilePath (p : string)
| RawText (text : string).

(** Modelled from the spec: the decorator [file_or_str] of
    pysisyphus.helpers_pure, which is not part of this module. The
    decorated function accepts either a file path or raw text content; a
    path stands for the content of the file it names. *)
Definition file_or_str (func : string -> bool) (inp : file_or_text) : M bool :=
  match inp with
  | FilePath p => text ← read_file p; mret (func text)
  | RawText text => mret (func text)
  end.

(** [check_termination]. *)
Definition check_termination (inp : file_or_text) : M bool :=
  file_or_str check_termination_text inp.

(** ** Successive calls *)

(** The arguments of one call of [prepare_input]. *)
Record prepare_args : Type := {
  pa_atoms : list string;
  pa_coords : list float;
  pa_calc_type : string;
  pa_point_charges : option (list (list float));
}.

Section Successive.
Context `{PyFormat} `{Collaborators}.

Definition prepare_input_with (a : prepare_args) : M unit :=
  prepare_input (pa_atoms a) (pa_coords a) (pa_calc_type a)
    (pa_point_charges a).

(** One call of [prepare_input] after the other on the same instance. *)
Fixpoint prepare_inputs (calls : list prepare_args) : M unit :=
  match calls with
  | [] => mret tt
  | a :: calls' => prepare_input_with a;; prepare_inputs calls'
  end.
End Successive.

Definition is_topo_run (e : event) : bool :=
  match e with
  | EvRun rq => String.eqb (rq_calc rq) "topo"
  | _ => false
  end.

Definition is_run (e : event) : bool :=
  match e with
  | EvRun _ => true
  | _ => false
  end.

Definition set_etemp (t : option number) (x : XTB) : XTB :=
  {| charge := charge x; mult := mult x; pal := pal x; mem := mem x;
     gbsa := gbsa x; alpb := alpb x; gfn := gfn x; acc := acc x;
     iterations := iterations x; etemp := t;
     retry_etemp := retry_etemp x; restart := restart x;
     xtb_options := xtb_options x; topo := topo x;
     topo_update := topo_update x; quiet := quiet x;
     topo_used := topo_used x; uhf := uhf x; inp_fn := inp_fn x;
     out_fn := out_fn x; to_keep := to_keep x; base_cmd := base_cmd x |}.

#[local] Set Warnings "-inexact-float".

(** ** A sample environment

    One instance of each class, on which the methods can be run. The text
    conversions know the few numbers the examples use. *)

Definition sample_float_of_str (s : string) : option float :=
  if String.eqb s "0.0" then Some 0%float
  else if String.eqb s "1.0" then Some 1%float
  else if String.eqb s "-5.070544" then Some (-5.070544)%float
  else None.

Definition sample_float_str (x : float) : string :=
  if PrimFloat.eqb x 1%float then "1.0"
  else if PrimFloat.eqb x 300%float then "300.0"
  else if PrimFloat.eqb x (0.001)%float then "0.001"
  else "0.0".

Definition sample_fmt_e14 (x : float) : string :=
  if PrimFloat.eqb x 1%float then " 1.00000000000000e+00"
  else " 0.00000000000000e+00".

Definition sample_list_repr (l : list string) : string :=
  "[" +:+ join_with ", " (List.map (fun s => "'" +:+ s +:+ "'") l) +:+ "]".

#[local] Instance sample_format : PyFormat := {|
  float_str := sample_float_str;
  float_of_str := sample_float_of_str;
  np_float_of_str := sample_float_of_str;
  fmt_e14 := sample_fmt_e14;
  list_repr := sample_list_repr;
|}.

Definition empty_geometry : Geometry :=
  {| geom_atoms := []; geom_coords := []; geom_energy := None |}.

(** Every run takes place in the directory [run]; a topology run leaves
    the file [gfnff_topo] there. *)
Definition sample_run_process (rq : run_request) (w : World)
  : outcome string * World :=
  if String.eqb (rq_calc rq) "topo" then
    (Ok "run", set_files (<["run/gfnff_topo" := "new topology"]> (files w)) w)
  else (Ok "run", w).

#[local] Instance sample_collaborators : Collaborators := {|
  BOHR2ANG := (0.52917721067)%float;
  BOHRPERFS2AU := (0.024188843265857)%float;
  make_xyz_str := fun atoms coords =>
    if (length atoms =? length coords)%nat then Ok "xyz"
    else Raise (Exn AssertionError "");
  save_orca_pc_file := fun pc fn hardness w =>
    set_files (<[fn := "point charges"]> (files w)) w;
  geom_loader := fun p w =>
    match files w !! p with
    | Some _ => Ok (OneGeom empty_geometry)
    | None => Raise (Exn FileNotFoundError p)
    end;
  parse_turbo_gradient := fun path w => Ok (0%float, []);
  get_cmd := "xtb";
  prepare_path := fun w => ("run", w);
  make_fn := fun fn w => "out/xtb_" +:+ fmt_03d (calc_number w) +:+ "." +:+ fn;
  run_process := sample_run_process;
|}.

Definition sample_world (fs : gmap string string) : World :=
  {| files := fs; calc_number := 0; xtbrestart := None; environ := ∅ |}.

Definition state_of (x : XTB) (w : World) : State :=
  {| self := x; world := w; log := []; events := [] |}.

(** The instance [XTB()] with the defaults. *)
Definition default_xtb : XTB :=
  {| charge := 0; mult := 1; pal := 1; mem := 1000; gbsa := ""; alpb := "";
     gfn := GfnInt 2; acc := NFloat 1%float; iterations := 250;
     etemp := None; retry_etemp := None; restart := false;
     xtb_options := []; topo := None; topo_update := None;
     quiet := false; topo_used := 0; uhf := 0; inp_fn := "xtb.xyz";
     out_fn := "xtb.out";
     to_keep := ["out:xtb.out"; "gradient"; "xtbopt.xyz"; "g98.out";
                 "xtb.trj"; "charges:charges"; "xcontrol"];
     base_cmd := "xtb" |}.

(** A text without whitespace. *)
Definition no_space (s : string) : bool :=
  all_chars (fun c => negb (isspace c)) s.

(** The results of [parse_hessian]. *)
Definition hessian_results (energy : float) (h : list (list float)) : retval :=
  RDict (<["hessian" := VMatrix h]> (<["energy" := VFloat energy]> ∅)).

Fixpoint repeat_string (s : string) (n : nat) : list string :=
  match n with O => [] | S n' => s :: repeat_string s n' end.

(** Sample files: 36 numbers, the same after the header line that xtb
    writes, and a log with an energy. *)
Definition floats_36 : string := join_with " " (repeat_string "0.0" 36).
Definition hessian_file_36 : string := "$hessian" +:+ String NL floats_36.
Definition xtb_out : string := " | TOTAL ENERGY   -5.070544 Eh |".

Definition hessian_state (text : string) : State :=
  state_of default_xtb
    (sample_world (<["run/hessian" := text]> (<["run/xtb.out" := xtb_out]> ∅))).

(** A state with no file at all. *)
Definition md_state : State := state_of default_xtb (sample_world ∅).

(** ** The control file, line by line *)

Definition key_le {V} (x y : string * V) : Prop :=
  String.leb (fst x) (fst y) = true.


(** The keys of the options are distinct, and so are the keys of every
    section: what a [dict] of [dict]s guarantees. *)
Definition options_wf (o : options) : Prop :=
  dict_wf o /\ List.Forall (fun se => dict_wf (snd se)) o.

(** Two [dict]s with the same entries, in whatever order. *)
Definition entries_equiv (e1 e2 : dict xval) : Prop :=
  forall k : string, dict_get k e1 = dict_get k e2.

(** Two option mappings with the same sections and the same entries in
    each, in whatever order. *)
Definition options_equiv (o1 o2 : options) : Prop :=
  forall name : string,
    match dict_get name o1, dict_get name o2 with
    | Some e1, Some e2 => entries_equiv e1 e2
    | None, None => True
    | _, _ => False
    end.

(** The sections in the order of the first loop, each with its entries in
    the order of the second loop. *)
Definition sorted_options (o : options) : list (string * list (string * xval)) :=
  List.map (fun se => (fst se, sorted_by_key (snd se))) (sorted_by_key o).

(** A function applied to the value of an item. *)
Definition on_snd {V W} (f : V -> W) (x : string * V) : string * W :=
  (fst x, f (snd x)).

(** A text without newline. *)
Definition single_line (s : string) : bool :=
  all_chars (fun c => negb (Ascii.eqb c NL)) s.

Section XcontrolLines.
Context `{PyFormat}.

(** The line of an entry: four spaces, then [key=value]. *)
Definition entry_text (kv : string * xval) : string :=
  "    " +:+ fst kv +:+ "=" +:+ xval_text (snd kv).

(** The lines of a section: [$name], its entries, [$end]. *)
Definition block_lines (se : string * list (string * xval)) : list string :=
  ("$" +:+ fst se) :: List.map entry_text (snd se) ++ ["$end"].

Definition xcontrol_lines (ss : list (string * list (string * xval)))
  : list string :=
  flat_map block_lines ss.

(** Every line followed by a newline. *)
Definition lines_text (ls : list string) : string :=
  concat_strings (List.map (fun l => l +:+ String NL "") ls).

(** A line that [dedent] leaves alone: no newline in it, and a character
    other than space and tab. *)
Definition line_ok (l : string) : Prop :=
  single_line l = true /\ all_chars is_sp_tab l = false.

Definition entry_single_line (kv : string * xval) : Prop :=
  single_line (fst kv) = true /\ single_line (xval_text (snd kv)) = true.

(** No section name, key or value text holds a newline. *)
Definition options_single_line (o : options) : Prop :=
  List.Forall
    (fun se => single_line (fst se) = true
               /\ List.Forall entry_single_line (snd se))
    o.
End XcontrolLines.

(** The same options, entered in two orders. *)
Definition sample_options_a : options :=
  [("write", [("json", XBool true)]);
   ("md", [("time", XInt 1); ("dump", XInt 2); ("nvt", XBool false)])].

Definition sample_options_b : options :=
  [("md", [("nvt", XBool false); ("dump", XInt 2); ("time", XInt 1)]);
   ("write", [("json", XBool true)])].

(** ** The parts of prepare_input *)

Section Stages.
Context `{PyFormat} `{Collaborators}.

(** The first part of [prepare_input]: the control file is written to the
    working directory, whose path is returned. *)
Definition control_stage (point_charges : option (list (list float)))
  : M string :=
  path ← lift_world prepare_path;
  let xcontrol : options := [("write", [("json", XBool true)])] in
  xcontrol ← match point_charges with
              | Some pc =>
                  w ← get_world;
                  let pc_fn := make_fn "pointcharges_inp.pc" w in
                  put_world (save_orca_pc_file pc pc_fn 99 w);;
                  emit (EvSavePc pc pc_fn);;
                  mret (dict_set "embedding"
                          [("input", XStr pc_fn); ("interface", XStr "orca")]
                          xcontrol)
              | None => mret xcontrol
              end;
  x ← get_self;
  let xcontrol := dict_update xcontrol (xtb_options x) in
  write_file (path_join path "xcontrol") (format_xcontrol xcontrol);;
  mret path.

(** The event of the point charges, saved in the world [w] that
    [prepare_path] left, if there are any. *)
Definition saved_charges (point_charges : option (list (list float)))
    (w : World) : list event :=
  match point_charges with
  | Some pc => [EvSavePc pc (make_fn "pointcharges_inp.pc" w)]
  | None => []
  end.

(** The second part: the topology is recreated when it is due. *)
Definition refresh_stage (atoms : list string) (coords : list float)
  : M unit :=
  x ← get_self;
  if topo_due x then
    results ← run_topo atoms coords;
    new_topo ← result_topo results;
    x ← get_self;
    put_self (set_topo (Some new_topo) x);;
    log_msg ("Updated topology! Saved to '" +:+ new_topo +:+ "'.")
  else mret tt.

(** The third part: the topology in use is copied and counted. *)
Definition copy_stage (path : string) : M unit :=
  x ← get_self;
  if topo_set x then
    copy_file (default "" (topo x)) (path_join path "gfnff_topo");;
    log_msg ("Using toplogy given in " +:+ default "" (topo x) +:+ ".");;
    put_self (set_topo_used (topo_used x + 1) x)
  else mret tt.

(** The last part: the restart file is copied. *)
Definition restart_stage (path : string) : M unit :=
  w ← get_world;
  match xtbrestart w with
  | Some r =>
      copy_file r (path_join path "xtbrestart");;
      log_msg ("Using xtbrestart given in " +:+ r +:+ ".")
  | None => mret tt
  end.
End Stages.

(** An event other than a run of the program. *)
Definition no_run (e : event) : Prop := is_run e = false.

(** An instance on the force field, with a topology file that is to be
    recreated every five calculations. *)
Definition topo_xtb : XTB :=
  {| charge := 0; mult := 1; pal := 1; mem := 1000; gbsa := ""; alpb := "";
     gfn := GfnStr "ff"; acc := NFloat 1%float; iterations := 250;
     etemp := None; retry_etemp := None; restart := false;
     xtb_options := []; topo := Some "gfnff_topo"; topo_update := Some 5;
     quiet := false; topo_used := 0; uhf := 0; inp_fn := "xtb.xyz";
     out_fn := "xtb.out";
     to_keep := ["out:xtb.out"; "gradient"; "xtbopt.xyz"; "g98.out";
                 "xtb.trj"; "charges:charges"; "xcontrol"];
     base_cmd := "xtb" |}.

Definition topo_state : State :=
  state_of topo_xtb (sample_world (<["gfnff_topo" := "topology"]> ∅)).

Definition sample_call : prepare_args :=
  {| pa_atoms := ["H"; "H"]; pa_coords := repeat 0%float 6;
     pa_calc_type := "forces"; pa_point_charges := None |}.

(** The same call with one atom label for two rows of coordinates. *)
Definition short_call : prepare_args :=
  {| pa_atoms := ["H"]; pa_coords := repeat 0%float 6;
     pa_calc_type := "forces"; pa_point_charges := None |}.

(** The calculation modes of the runs among some events. *)
Definition run_modes (evs : list event) : list string :=
  flat_map (fun e => match e with EvRun rq => [rq_calc rq] | _ => [] end) evs.

(** A triplet anion in GBSA water on the force field, at an electronic
    temperature of 300. *)
Definition rich_kwargs : kwargs := {|
  kw_gbsa := "water"; kw_alpb := "thf"; kw_gfn := GfnStr "ff";
  kw_acc := NFloat 1%float; kw_iterations := 250;
  kw_etemp := Some (NFloat 300%float); kw_retry_etemp := None;
  kw_restart := false; kw_xtb_options := []; kw_topo := None;
  kw_topo_update := None; kw_quiet := false;
  kw_charge := -1; kw_mult := 3; kw_pal := 1; kw_mem := 1000;
|}.

(** The seventh calculation, in a directory without any file. *)
Definition failed_opt_state : State :=
  state_of default_xtb
    {| files := ∅; calc_number := 7; xtbrestart := None; environ := ∅ |}.

(** ** What a computation adds to the events *)

(** Whatever its outcome, [m] leaves the events it found and adds only
    events that satisfy [P]. *)
Definition adds (P : event -> Prop) {A} (m : M A) : Prop :=
  forall st : State,
    exists evs, events (snd (m st)) = events st ++ evs /\ List.Forall P evs.

(** Whatever its outcome, [m] leaves the attributes of the instance as
    they are. *)
Definition keeps_self {A} (m : M A) : Prop :=
  forall st : State, self (snd (m st)) = self st.

(** No event at all. *)
Definition no_event (e : event) : Prop := False.

(** Whatever its outcome, [m] changes nothing: it only reads. *)
Definition reads_only {A} (m : M A) : Prop :=
  forall st : State, snd (m st) = st.

(** A text matched by [TOTAL ENERGY\s*([-\d\.]+) Eh] from its first
    character on, with its group [g]. *)
Definition energy_match (s g : string) : Prop :=
  exists ws post,
    s = "TOTAL ENERGY" +:+ ws +:+ g +:+ " Eh" +:+ post
    /\ all_chars isspace ws = true
    /\ all_chars is_num_char g = true
    /\ is_empty g = false.

(** Any event. *)
Definition any_event (e : event) : Prop := True.

(** The options of the control file that [prepare_input] writes: the
    defaults, the embedding when point charges are given (their file is
    [pc_fn]), then the update with the options of the user. *)
Definition staged_options (pc_fn : option string) (user : options) : options :=
  let xcontrol : options := [("write", [("json", XBool true)])] in
  let xcontrol :=
    match pc_fn with
    | Some fn =>
        dict_set "embedding" [("input", XStr fn); ("interface", XStr "orca")]
          xcontrol
    | None => xcontrol
    end in
  dict_update xcontrol user.


(** A finished optimisation: the optimised geometry and the log are in
    the directory [run]. *)
Definition opt_state : State :=
  state_of default_xtb
    (sample_world (<["run/xtbopt.xyz" := "geometry"]>
                     (<["run/xtb.out" := xtb_out]> ∅))).

(** The force-field instance, whose topology file does not exist. *)
Definition missing_topo_state : State := state_of topo_xtb (sample_world ∅).

(** The defaults, but with [gfn=True]. *)
Definition true_level_kwargs : kwargs := {|
  kw_gbsa := ""; kw_alpb := ""; kw_gfn := GfnBool true;
  kw_acc := NFloat 1%float; kw_iterations := 250; kw_etemp := None;
  kw_retry_etemp := None; kw_restart := false; kw_xtb_options := [];
  kw_topo := None; kw_topo_update := None; kw_quiet := false;
  kw_charge := 0; kw_mult := 1; kw_pal := 1; kw_mem := 1000;
|}.

(** The level flags of the [int] and [str] levels that [__init__]
    accepts. *)
Definition level_flags : list (list string) :=
  [["--gfn"; "0"]; ["--gfn"; "1"]; ["--gfn"; "2"]; ["--gfnff"]].

(** * Properties *)

(** ** The built-ins on examples *)

Example split_example :
  split ("  --chrg 0" +:+ String NL "--uhf   1 ") = ["--chrg"; "0"; "--uhf"; "1"].
Proof. reflexivity. Qed.

Example strip_example : strip (" $a" +:+ String NL "$end" +:+ String NL "") = "$a" +:+ String NL "$end".
Proof. reflexivity. Qed.

Example fmt_03d_examples :
  fmt_03d 7 = "007" /\ fmt_03d 42 = "042" /\ fmt_03d 1234 = "1234" /\ fmt_03d (-5) = "-05".
Proof. repeat split; reflexivity. Qed.

Example split_lines_example :
  split_lines ("a" +:+ String NL "" +:+ String NL "b") = ["a"; ""; "b"].
Proof. reflexivity. Qed.

Example dedent_example :
  dedent ("  a" +:+ String NL "   " +:+ String NL "    b") =
  "a" +:+ String NL "" +:+ String NL "  b".
Proof. reflexivity. Qed.

Example sorted_stable :
  sorted_by_key [("b", 1); ("a", 2); ("b", 3); ("a", 4)]
  = [("a", 2); ("a", 4); ("b", 1); ("b", 3)].
Proof. reflexivity. Qed.

Example energy_search_example :
  energy_search "   | TOTAL ENERGY              -5.070544 Eh   |" = Some "-5.070544".
Proof. reflexivity. Qed.

Example splitlines_example :
  splitlines_keepends ("a" +:+ String CR (String NL ("b" +:+ String NL "c")))
  = ["a" +:+ String CR (String NL ""); "b" +:+ String NL ""; "c"].
Proof. reflexivity. Qed.

Example init_default : init default_kwargs = Ok default_xtb.
Proof. reflexivity. Qed.

(** ** Splitting formatted arguments *)

Lemma rev_onto_rev_onto (s a b : string) :
  rev_onto (rev_onto s a) b = rev_onto a (s +:+ b).
Proof.
  revert a b. induction s as [|c s IH]; intros a b; simpl.
  - reflexivity.
  - rewrite IH. reflexivity.
Qed.

Lemma split_go_sep (tok a : string) (c : ascii) (b : string) :
  isspace c = true ->
  split_go tok (a +:+ String c b) = split_go tok a ++ split_go "" b.
Proof.
  intros Hc. revert tok. induction a as [|d a IH]; intros tok; simpl.
  - rewrite Hc. reflexivity.
  - destruct (isspace d).
    + rewrite IH. rewrite app_assoc. reflexivity.
    + apply IH.
Qed.

Lemma split_sep (a b : string) :
  split (a +:+ String " " b) = split a ++ split b.
Proof. apply split_go_sep. reflexivity. Qed.

Lemma split_go_token (tok s : string) :
  no_space s = true -> split_go tok s = flush (rev_onto s tok).
Proof.
  revert tok. induction s as [|c s IH]; intros tok Hs; simpl in *.
  - reflexivity.
  - apply andb_prop in Hs as [Hc Hs].
    apply negb_true_iff in Hc. rewrite Hc. apply IH. exact Hs.
Qed.

Lemma rev_onto_nonempty (s tok : string) :
  is_empty tok = false -> is_empty (rev_onto s tok) = false.
Proof.
  revert tok. induction s as [|c s IH]; intros tok Ht; simpl.
  - exact Ht.
  - apply IH. reflexivity.
Qed.

Lemma append_empty_r (s : string) : s +:+ "" = s.
Proof. induction s as [|c s IH]; simpl; [reflexivity | rewrite IH; reflexivity]. Qed.

Lemma split_token (s : string) :
  no_space s = true -> is_empty s = false -> split s = [s].
Proof.
  intros Hs Hne. unfold split. rewrite split_go_token by exact Hs.
  unfold flush. destruct s as [|c s]; [discriminate|].
  simpl. rewrite rev_onto_nonempty by reflexivity.
  rewrite rev_onto_rev_onto. simpl. rewrite append_empty_r. reflexivity.
Qed.

Lemma digit_no_space (c : ascii) : is_digit c = true -> isspace c = false.
Proof.
  destruct c as [[] [] [] [] [] [] [] []]; vm_compute; congruence.
Qed.

Lemma uint_digits (d : Decimal.uint) :
  all_chars is_digit (NilEmpty.string_of_uint d) = true.
Proof. induction d; simpl; auto. Qed.

Lemma all_chars_impl (p q : ascii -> bool) (s : string) :
  (forall c, p c = true -> q c = true) ->
  all_chars p s = true -> all_chars q s = true.
Proof.
  intros Hpq. induction s as [|c s IH]; simpl; [reflexivity|].
  intros Hs. apply andb_prop in Hs as [Hc Hs].
  rewrite (Hpq _ Hc), (IH Hs). reflexivity.
Qed.

Lemma uint_no_space (d : Decimal.uint) :
  no_space (NilZero.string_of_uint d) = true
  /\ is_empty (NilZero.string_of_uint d) = false.
Proof.
  assert (Hd : no_space (NilEmpty.string_of_uint d) = true).
  { apply all_chars_impl with (p := is_digit); [|apply uint_digits].
    intros c Hc. rewrite (digit_no_space c Hc). reflexivity. }
  destruct d; simpl in *; auto.
Qed.

Lemma str_of_int_token (n : Z) : split (str_of_int n) = [str_of_int n].
Proof.
  unfold str_of_int.
  destruct (Z.to_int n) as [d|d]; simpl.
  - destruct (uint_no_space d). apply split_token; assumption.
  - destruct (uint_no_space d) as [H1 H2]. apply split_token.
    + simpl. exact H1.
    + reflexivity.
Qed.

Section AddArgsFacts.
Context `{PyFormat}.

Lemma split_flag (flag v : string) :
  no_space flag = true -> is_empty flag = false ->
  split (flag +:+ String " " v) = flag :: split v.
Proof.
  intros Hf Hne. rewrite split_sep, (split_token flag Hf Hne). reflexivity.
Qed.

Lemma base_args_eq (x : XTB) :
  base_args x =
  ["--input"; "xcontrol"; "--chrg"; str_of_int (charge x);
   "--uhf"; str_of_int (uhf x); "--acc"]
  ++ split (number_str (acc x))
  ++ ["--iterations"; str_of_int (iterations x)].
Proof.
  unfold base_args.
  change (split (String.append _ _)) with
    (split ("--input" +:+ String " " ("xcontrol" +:+ String " " ("--chrg"
      +:+ String " " (str_of_int (charge x) +:+ String " " ("--uhf"
      +:+ String " " (str_of_int (uhf x) +:+ String " " ("--acc"
      +:+ String " " (number_str (acc x) +:+ String " " ("--iterations"
      +:+ String " " (str_of_int (iterations x)))))))))))).
  rewrite !split_sep, !str_of_int_token. reflexivity.
Qed.

Lemma etemp_args_eq (x : XTB) :
  etemp_args x =
  match etemp x with
  | Some t => if number_truthy t then "--etemp" :: split (number_str t) else []
  | None => []
  end.
Proof.
  unfold etemp_args. destruct (etemp x) as [t|]; [|reflexivity].
  destruct (number_truthy t); [|reflexivity].
  apply (split_flag "--etemp"); reflexivity.
Qed.

Lemma solvent_args_eq (x : XTB) :
  solvent_args x =
  if negb (is_empty (gbsa x)) then "--gbsa" :: split (gbsa x)
  else if negb (is_empty (alpb x)) then "--alpb" :: split (alpb x)
  else [].
Proof.
  unfold solvent_args.
  destruct (negb (is_empty (gbsa x))).
  - apply (split_flag "--gbsa"); reflexivity.
  - destruct (negb (is_empty (alpb x))); [|reflexivity].
    apply (split_flag "--alpb"); reflexivity.
Qed.

Lemma gfn_args_eq (x : XTB) :
  gfn_args x =
  match gfn x with
  | GfnStr s => if String.eqb s "ff" then ["--gfnff"] else "--gfn" :: split s
  | GfnInt n => ["--gfn"; str_of_int n]
  | GfnBool b => ["--gfn"; if b then "True" else "False"]
  | GfnFloat f => "--gfn" :: split (float_str f)
  end.
Proof.
  unfold gfn_args. destruct (gfn x) as [n|s|b|f].
  - transitivity ("--gfn" :: split (str_of_int n)).
    + apply (split_flag "--gfn"); reflexivity.
    + rewrite str_of_int_token. reflexivity.
  - destruct (String.eqb s "ff"); [reflexivity|].
    apply (split_flag "--gfn"); reflexivity.
  - destruct b; reflexivity.
  - apply (split_flag "--gfn"); reflexivity.
Qed.

Lemma number_str_tokens (v : number) :
  split (number_str v) =
  match v with
  | NInt n => [str_of_int n]
  | NFloat f => split (float_str f)
  end.
Proof. destruct v; simpl; [apply str_of_int_token | reflexivity]. Qed.

Lemma init_ok_inv (kw : kwargs) (x : XTB) `{Collaborators} :
  init kw = Ok x ->
  charge x = kw_charge kw /\ uhf x = kw_mult kw - 1 /\ acc x = kw_acc kw
  /\ iterations x = kw_iterations kw /\ etemp x = kw_etemp kw
  /\ gbsa x = kw_gbsa kw /\ alpb x = kw_alpb kw /\ gfn x = kw_gfn kw
  /\ valid_gfn (kw_gfn kw) = true.
Proof.
  unfold init. destruct (negb _); [discriminate|].
  destruct (valid_gfn (kw_gfn kw)) eqn:Hg; simpl; [|discriminate].
  intros [= <-]. simpl. repeat split; reflexivity.
Qed.

(** C7. For every configuration that [__init__] accepts, the extra
    arguments are, in this order: the control-file reference, the total
    charge, the unpaired-electron count [mult - 1], the accuracy and the
    iteration cap; then the electronic-temperature flag when one is set and
    not zero; then the GBSA flag when a GBSA solvent is set, else the ALPB
    flag when an ALPB solvent is set; then [--gfnff] when the level is
    ["ff"], else [--gfn] with the level as [str] formats it. *)
Theorem prepare_add_args_contents `{Collaborators} (kw : kwargs) (x : XTB) :
  init kw = Ok x ->
  prepare_add_args x =
    ["--input"; "xcontrol"; "--chrg"; str_of_int (kw_charge kw);
     "--uhf"; str_of_int (kw_mult kw - 1); "--acc"]
    ++ match kw_acc kw with
       | NInt n => [str_of_int n]
       | NFloat a => split (float_str a)
       end
    ++ ["--iterations"; str_of_int (kw_iterations kw)]
    ++ match kw_etemp kw with
       | Some t =>
           if number_truthy t then "--etemp" :: split (number_str t) else []
       | None => []
       end
    ++ (if negb (is_empty (kw_gbsa kw)) then "--gbsa" :: split (kw_gbsa kw)
        else if negb (is_empty (kw_alpb kw)) then "--alpb" :: split (kw_alpb kw)
        else [])
    ++ match kw_gfn kw with
       | GfnStr s =>
           if String.eqb s "ff" then ["--gfnff"] else "--gfn" :: split s
       | GfnInt n => ["--gfn"; str_of_int n]
       | GfnBool b => ["--gfn"; if b then "True" else "False"]
       | GfnFloat f => "--gfn" :: split (float_str f)
       end.
Proof.
  intros Hinit.
  destruct (init_ok_inv kw x Hinit)
    as (Hc & Hu & Ha & Hi & He & Hg & Hal & Hgfn & Hvalid).
  unfold prepare_add_args.
  rewrite base_args_eq, etemp_args_eq, solvent_args_eq, gfn_args_eq.
  rewrite number_str_tokens, Hc, Hu, Ha, Hi, He, Hg, Hal, Hgfn.
  rewrite <- !app_assoc. reflexivity.
Qed.

(** C10. An electronic temperature of 0, 0.0 or -0.0 gives the same
    arguments as no electronic temperature; in general the [--etemp] flag
    and its value are inserted exactly when the configured value is not
    zero. *)
Theorem etemp_zero_adds_no_flag (x : XTB) :
  prepare_add_args (set_etemp (Some (NInt 0)) x)
    = prepare_add_args (set_etemp None x)
  /\ prepare_add_args (set_etemp (Some (NFloat 0%float)) x)
    = prepare_add_args (set_etemp None x)
  /\ prepare_add_args (set_etemp (Some (NFloat (-0)%float)) x)
    = prepare_add_args (set_etemp None x)
  /\ forall t : number,
      prepare_add_args (set_etemp (Some t) x)
      = base_args x
        ++ (if number_truthy t then "--etemp" :: split (number_str t) else [])
        ++ solvent_args x ++ gfn_args x.
Proof.
  repeat split; try reflexivity.
  intros t. unfold prepare_add_args. rewrite etemp_args_eq. simpl.
  rewrite <- !app_assoc. reflexivity.
Qed.
End AddArgsFacts.

(** C4. When both [etemp] and [retry_etemp] are given, [__init__] raises
    the assertion error of that check. When at most one is given the check
    passes: the instance is built with both values as given, unless the
    check of [gfn] that follows fails. *)
Theorem init_etemp_exclusive `{Collaborators} (kw : kwargs) :
  match kw_etemp kw, kw_retry_etemp kw with
  | Some _, Some _ => init kw = Raise (Exn AssertionError etemp_msg)
  | _, _ =>
      if valid_gfn (kw_gfn kw) then
        exists x, init kw = Ok x /\ etemp x = kw_etemp kw
                  /\ retry_etemp x = kw_retry_etemp kw
      else exists msg, init kw = Raise (Exn TypeError msg)
  end.
Proof.
  unfold init.
  destruct (kw_etemp kw) as [t|], (kw_retry_etemp kw) as [r|]; simpl;
    try reflexivity;
    destruct (valid_gfn (kw_gfn kw)); simpl; eauto.
Qed.

Lemma strip_prefix_Some (p s r : string) :
  strip_prefix p s = Some r <-> s = p +:+ r.
Proof.
  revert s. induction p as [|a p IH]; intros s; simpl.
  - split; [intros [= ->] | intros ->]; reflexivity.
  - destruct s as [|b s]; [split; discriminate|].
    destruct (Ascii.eqb_spec a b) as [->|Hab].
    + rewrite IH. split; [intros ->; reflexivity | intros [= ->]; reflexivity].
    + split; [discriminate | intros [= E _]; congruence].
Qed.

Lemma contains_iff (p text : string) :
  contains p text = true <-> exists pre post, text = pre +:+ p +:+ post.
Proof.
  split.
  - induction text as [|c text IH]; simpl; unfold startswith.
    + destruct (strip_prefix p "") as [r|] eqn:E; [|discriminate].
      intros _. apply strip_prefix_Some in E. exists "", r. exact E.
    + destruct (strip_prefix p (String c text)) as [r|] eqn:E.
      * intros _. apply strip_prefix_Some in E. exists "", r. exact E.
      * simpl. intros Hc. destruct (IH Hc) as (pre & post & ->).
        exists (String c pre), post. reflexivity.
  - intros (pre & post & ->). induction pre as [|c pre IH]; simpl.
    + assert (E : strip_prefix p (p +:+ post) = Some post)
        by (apply strip_prefix_Some; reflexivity).
      destruct (p +:+ post); simpl; unfold startswith; rewrite E; reflexivity.
    + rewrite IH. apply orb_true_r.
Qed.

(** C8. On raw text [check_termination] returns, without any effect,
    whether the text has an occurrence of "finished run on"; that is true
    exactly when the phrase appears somewhere in the text; and on the path
    of a file the answer is the one for the content of the file. *)
Theorem check_termination_spec :
  (forall (text : string) (st : State),
      check_termination (RawText text) st
      = (Ok (check_termination_text text), st))
  /\ (forall text : string,
        check_termination_text text = true
        <-> exists pre post, text = pre +:+ "finished run on" +:+ post)
  /\ (forall (p text : string) (st : State),
        files (world st) !! p = Some text ->
        check_termination (FilePath p) st
        = check_termination (RawText text) st).
Proof.
  split; [reflexivity|]. split; [intros; apply contains_iff|].
  intros p text st Hp.
  unfold check_termination, file_or_str, read_file, get_world.
  unfold mbind, M_bind. simpl. rewrite Hp. reflexivity.
Qed.

(** ** Parsers and operations *)

Section ParserFacts.
Context `{PyFormat} `{Collaborators}.

(** C5. When the directory has no file [xtbopt.xyz], [parse_opt] returns
    [None] without raising; the only thing it does is to log the message
    made of the calculation number, zero-padded to three digits, and
    " failed". *)
Theorem parse_opt_missing_file (path : string) (keep_log : bool) (st : State) :
  files (world st) !! path_join path "xtbopt.xyz" = None ->
  parse_opt path keep_log st
  = (Ok RNone,
     {| self := self st; world := world st;
        log := log st ++ [fmt_03d (calc_number (world st)) +:+ " failed"];
        events := events st |}).
Proof.
  intros Hmissing.
  unfold parse_opt, path_exists, get_world, log_msg, mbind, M_bind, mret, M_ret.
  simpl. rewrite Hmissing.
  rewrite bool_decide_eq_false_2 by (intros [? ?]; discriminate).
  reflexivity.
Qed.

Lemma bind_unfold {A B} (m : M A) (k : A -> M B) (st : State) :
  (m ≫= k) st
  = match m st with
    | (Ok a, st') => k a st'
    | (Raise e, st') => (Raise e, st')
    end.
Proof. reflexivity. Qed.

Lemma bind_Ok {A B} (m : M A) (k : A -> M B) (st st' : State) (b : B) :
  (m ≫= k) st = (Ok b, st') ->
  exists a st1, m st = (Ok a, st1) /\ k a st1 = (Ok b, st').
Proof.
  unfold mbind, M_bind. destruct (m st) as [[a|e] st1]; [eauto | discriminate].
Qed.

Lemma run_grad_dict (rq : run_request) (st st' : State) (r : retval) :
  rq_calc rq = "grad" ->
  run rq st = (Ok r, st') ->
  exists d, r = RDict d /\ is_Some (d !! "forces").
Proof.
  intros Hcalc Hrun. unfold run in Hrun.
  apply bind_Ok in Hrun as (_ & st1 & _ & Hrun).
  apply bind_Ok in Hrun as (path & st2 & _ & Hrun).
  unfold parser_funcs in Hrun. rewrite Hcalc in Hrun. simpl in Hrun.
  unfold parse_gradient in Hrun.
  apply bind_Ok in Hrun as (ef & st3 & _ & Hrun).
  injection Hrun as <- _. eexists. split; [reflexivity|].
  rewrite lookup_insert_eq. eauto.
Qed.

Lemma get_forces_dict atoms coords pc (st st' : State) (r : retval) :
  get_forces atoms coords pc st = (Ok r, st') ->
  exists d, r = RDict d /\ is_Some (d !! "forces").
Proof.
  intros Hf. unfold get_forces in Hf.
  apply bind_Ok in Hf as (_ & st1 & _ & Hf).
  apply bind_Ok in Hf as (inp & st2 & _ & Hf).
  apply bind_Ok in Hf as (x & st3 & _ & Hf).
  apply bind_Ok in Hf as (_ & st4 & _ & Hf).
  apply bind_Ok in Hf as (env & st5 & _ & Hf).
  eapply run_grad_dict; [|exact Hf]. reflexivity.
Qed.

(** C9. [run_calculation] is [get_energy]. When [get_forces] returns,
    it returns a results [dict] and [get_energy] returns that [dict]
    without its entry "forces", every other entry unchanged, in the same
    final state; when [get_forces] raises, [get_energy] raises the same
    exception in the same state. *)
Theorem get_energy_drops_forces atoms coords pc (st : State) :
  run_calculation atoms coords pc st = get_energy atoms coords pc st
  /\ match get_forces atoms coords pc st with
     | (Ok (RDict d), st') =>
         get_energy atoms coords pc st = (Ok (RDict (delete "forces" d)), st')
         /\ delete "forces" d !! "forces" = None
         /\ forall k : string, k <> "forces" -> delete "forces" d !! k = d !! k
     | (Ok _, _) => False
     | (Raise e, st') => get_energy atoms coords pc st = (Raise e, st')
     end.
Proof.
  split; [reflexivity|].
  unfold get_energy. rewrite bind_unfold.
  destruct (get_forces atoms coords pc st) as [[r|e] st'] eqn:Hf; [|reflexivity].
  destruct (get_forces_dict _ _ _ _ _ _ Hf) as (d & -> & [v Hv]).
  unfold del_forces. rewrite Hv. split; [reflexivity|].
  split; [apply lookup_delete_eq | intros k Hk; apply lookup_delete_ne; congruence].
Qed.
End ParserFacts.

(** ** The Hessian parser *)

Lemma rows_of_length (r c : nat) (xs : list float) :
  length (rows_of r c xs) = r.
Proof. revert xs. induction r as [|r IH]; intros xs; simpl; [|rewrite IH]; reflexivity. Qed.

Lemma rows_of_rows (r c : nat) (xs : list float) :
  length xs = (r * c)%nat ->
  Forall (fun row => length row = c) (rows_of r c xs)
  /\ concat (rows_of r c xs) = xs.
Proof.
  revert xs. induction r as [|r IH]; intros xs Hlen; simpl in *.
  - destruct xs; [split; [constructor | reflexivity] | discriminate].
  - destruct (IH (skipn c xs)) as [Hrows Hcat].
    { rewrite length_skipn. lia. }
    split.
    + constructor; [|exact Hrows]. rewrite length_firstn. lia.
    + rewrite Hcat. apply firstn_skipn.
Qed.

Lemma not_square_sqrt (n : nat) :
  (forall k : nat, n <> (k * k)%nat) -> (n =? Nat.sqrt n * Nat.sqrt n)%nat = false.
Proof. intros Hn. apply Nat.eqb_neq. apply Hn. Qed.

Lemma ret_unfold {A} (a : A) (st : State) : (mret a : M A) st = (Ok a, st).
Proof. reflexivity. Qed.

Lemma read_file_Some (p text : string) (st : State) :
  files (world st) !! p = Some text -> read_file p st = (Ok text, st).
Proof.
  intros Hp. unfold read_file, get_world. rewrite bind_unfold, Hp. reflexivity.
Qed.

Lemma read_file_None (p : string) (st : State) :
  files (world st) !! p = None ->
  read_file p st = (Raise (Exn FileNotFoundError p), st).
Proof.
  intros Hp. unfold read_file, get_world. rewrite bind_unfold, Hp. reflexivity.
Qed.

Section HessianFacts.
Context `{PyFormat} `{Collaborators}.

Lemma parse_hessian_eq (path text : string) (st : State) :
  files (world st) !! path_join path "hessian" = Some text ->
  parse_hessian path st
  = match np_array (tail (split text)) with
    | None => (Raise (Exn ValueError "could not convert string to float"), st)
    | Some xs =>
        let n := Nat.sqrt (length xs) in
        if (length xs =? n * n)%nat then
          (energy ← parse_energy path;
           mret (hessian_results energy (rows_of n n xs))) st
        else (Raise (Exn ValueError "cannot reshape array"), st)
    end.
Proof.
  intros Hfile. unfold parse_hessian.
  rewrite bind_unfold, (read_file_Some _ _ _ Hfile).
  destruct (np_array (tail (split text))) as [xs|]; [|reflexivity].
  unfold reshape2. simpl.
  destruct (length xs =? _)%nat; reflexivity.
Qed.

(** C1, amended. [parse_hessian] splits the text of the file [hessian] at
    whitespace, drops the first token and converts the others to floats.
    When their number is a square [n * n] the result is the energy of the
    log together with the matrix of [n] rows of [n] numbers, in the order
    of the file; when it is not a square the reshape fails. So a first
    token followed by 36 numbers gives a 6 by 6 matrix and a first token
    followed by 35 numbers fails. *)
Theorem parse_hessian_square (path text : string) (xs : list float) (st : State) :
  files (world st) !! path_join path "hessian" = Some text ->
  np_array (tail (split text)) = Some xs ->
  (forall n : nat, length xs = (n * n)%nat ->
     parse_hessian path st
     = (energy ← parse_energy path;
        mret (hessian_results energy (rows_of n n xs))) st
     /\ length (rows_of n n xs) = n
     /\ Forall (fun row => length row = n) (rows_of n n xs)
     /\ concat (rows_of n n xs) = xs)
  /\ ((forall n : nat, length xs <> (n * n)%nat) ->
      parse_hessian path st = (Raise (Exn ValueError "cannot reshape array"), st))
  /\ (length xs = 36%nat ->
      parse_hessian path st
      = (energy ← parse_energy path;
         mret (hessian_results energy (rows_of 6 6 xs))) st)
  /\ (length xs = 35%nat ->
      parse_hessian path st = (Raise (Exn ValueError "cannot reshape array"), st)).
Proof.
  intros Hfile Hxs.
  assert (Hsq : forall n : nat, length xs = (n * n)%nat ->
     parse_hessian path st
     = (energy ← parse_energy path;
        mret (hessian_results energy (rows_of n n xs))) st).
  { intros n Hn. rewrite (parse_hessian_eq path text st Hfile), Hxs. simpl.
    rewrite Hn, Nat.sqrt_square, Nat.eqb_refl. reflexivity. }
  assert (Hns : (forall n : nat, length xs <> (n * n)%nat) ->
      parse_hessian path st = (Raise (Exn ValueError "cannot reshape array"), st)).
  { intros Hn. rewrite (parse_hessian_eq path text st Hfile), Hxs. simpl.
    rewrite not_square_sqrt by exact Hn. reflexivity. }
  repeat split.
  - apply Hsq; assumption.
  - apply rows_of_length.
  - apply rows_of_rows; assumption.
  - apply rows_of_rows; assumption.
  - exact Hns.
  - intros H36. apply (Hsq 6%nat). exact H36.
  - intros H35. apply Hns. intros n Hn. rewrite H35 in Hn.
    destruct (Nat.le_gt_cases n 5) as [Hle|Hgt]; nia.
Qed.
End HessianFacts.

(** A file of exactly 36 numbers: the first one is dropped and the 35
    others do not fill a square. *)
Lemma parse_hessian_36_floats_fails :
  let st := hessian_state floats_36 in
  np_array (split floats_36) = Some (repeat 0%float 36)
  /\ parse_hessian "run" st
     = (Raise (Exn ValueError "cannot reshape array"), st).
Proof. vm_compute. split; reflexivity. Qed.

Lemma parse_hessian_square_witness :
  parse_hessian "run" (hessian_state hessian_file_36)
  = (Ok (hessian_results (-5.070544)%float (rows_of 6 6 (repeat 0%float 36))),
     hessian_state hessian_file_36).
Proof.
  pose proof (parse_hessian_square "run" hessian_file_36 (repeat 0%float 36)
                (hessian_state hessian_file_36)) as Hw.
  destruct Hw as (_ & _ & H36 & _); [vm_compute; reflexivity ..|].
  rewrite H36 by reflexivity. vm_compute. reflexivity.
Defined.

(** ** Characters of the restart file *)

Section AllChars.
Variable P : ascii -> bool.

Lemma all_chars_app (a b : string) :
  all_chars P (a +:+ b) = all_chars P a && all_chars P b.
Proof.
  induction a as [|c a IH]; simpl; [reflexivity|].
  rewrite IH. apply andb_assoc.
Qed.

Lemma all_chars_rev_onto (s acc : string) :
  all_chars P s = true -> all_chars P acc = true ->
  all_chars P (rev_onto s acc) = true.
Proof.
  revert acc. induction s as [|c s IH]; intros acc Hs Hacc; simpl in *.
  - exact Hacc.
  - apply andb_prop in Hs as [Hc Hs]. apply IH; [exact Hs|].
    simpl. rewrite Hc, Hacc. reflexivity.
Qed.

Lemma all_chars_concat (ls : list string) :
  Forall (fun l => all_chars P l = true) ls ->
  all_chars P (concat_strings ls) = true.
Proof.
  induction 1 as [|l ls Hl _ IH]; simpl; [reflexivity|].
  rewrite all_chars_app, Hl, IH. reflexivity.
Qed.

Lemma all_chars_join (sep : string) (ls : list string) :
  all_chars P sep = true ->
  Forall (fun l => all_chars P l = true) ls ->
  all_chars P (join_with sep ls) = true.
Proof.
  intros Hsep. induction 1 as [|l ls Hl Hls IH]; simpl; [reflexivity|].
  destruct ls as [|l' ls]; [exact Hl|].
  rewrite !all_chars_app, Hl, Hsep, IH. reflexivity.
Qed.

Lemma all_chars_flush (cur : string) :
  all_chars P cur = true ->
  Forall (fun l => all_chars P l = true) (flush cur).
Proof.
  intros Hcur. unfold flush. destruct (is_empty cur); constructor; [|constructor].
  apply all_chars_rev_onto; [exact Hcur | reflexivity].
Qed.

Lemma all_chars_splitlines_go (n : nat) (cur s : string) :
  (String.length s <= n)%nat ->
  all_chars P cur = true -> all_chars P s = true ->
  Forall (fun l => all_chars P l = true) (splitlines_go cur s).
Proof.
  revert cur s. induction n as [|n IH]; intros cur s Hn Hcur Hs.
  - destruct s; [|simpl in Hn; lia]. apply all_chars_flush, Hcur.
  - destruct s as [|c s]; [apply all_chars_flush, Hcur|].
    simpl in Hn, Hs. apply andb_prop in Hs as [Hc Hs]. cbn [splitlines_go].
    assert (Hcc : all_chars P (String c cur) = true)
      by (simpl; rewrite Hc, Hcur; reflexivity).
    destruct (is_linebreak c).
    + destruct s as [|c2 s].
      * constructor; [|constructor].
        apply all_chars_rev_onto; [exact Hcc | reflexivity].
      * simpl in Hn, Hs. pose proof Hs as Hs'.
        apply andb_prop in Hs' as [Hc2 Hs2].
        destruct (Ascii.eqb c CR && Ascii.eqb c2 NL).
        -- constructor.
           ++ apply all_chars_rev_onto; [|reflexivity].
              simpl. rewrite Hc2. exact Hcc.
           ++ apply IH; [lia | reflexivity | exact Hs2].
        -- constructor.
           ++ apply all_chars_rev_onto; [exact Hcc | reflexivity].
           ++ apply IH; [simpl; lia | reflexivity | exact Hs].
    + apply IH; [lia | exact Hcc | exact Hs].
Qed.

Lemma all_chars_indent (text prefix : string) :
  all_chars P text = true -> all_chars P prefix = true ->
  all_chars P (indent text prefix) = true.
Proof.
  intros Ht Hp. unfold indent, splitlines_keepends.
  apply all_chars_concat. apply Forall_map.
  eapply Forall_impl;
    [apply all_chars_splitlines_go with (n := String.length text);
      [lia | reflexivity | exact Ht]|].
  intros l Hl. simpl. destruct (is_empty (strip l)); [exact Hl|].
  rewrite all_chars_app, Hp, Hl. reflexivity.
Qed.
End AllChars.

Lemma is_ascii_replace_e_D (s : string) :
  is_ascii s = true -> is_ascii (replace_e_D s) = true.
Proof.
  unfold is_ascii. induction s as [|c s IH]; simpl; [reflexivity|].
  intros Hs. apply andb_prop in Hs as [Hc Hs]. rewrite (IH Hs).
  destruct (Ascii.eqb c "e"); [reflexivity | rewrite Hc; reflexivity].
Qed.

Section RestartFacts.
Context `{PyFormat} `{Collaborators}.
Hypothesis fmt_e14_ascii : forall x : float, is_ascii (fmt_e14 x) = true.

Lemma is_ascii_savetxt (vals : list (list float)) :
  is_ascii (savetxt vals) = true.
Proof.
  unfold savetxt, is_ascii. apply all_chars_concat, Forall_map, Forall_forall.
  intros row _. simpl. rewrite all_chars_app. simpl. rewrite andb_true_r.
  apply all_chars_join; [reflexivity|].
  apply Forall_map, Forall_forall. intros x _. apply fmt_e14_ascii.
Qed.

Lemma is_ascii_mdrestart (c v : list (list float)) :
  is_ascii (get_mdrestart_str c v) = true.
Proof.
  unfold get_mdrestart_str. apply all_chars_indent; [|reflexivity].
  change (all_chars _ ?s) with (is_ascii s).
  unfold is_ascii. rewrite !all_chars_app. simpl.
  apply is_ascii_replace_e_D, is_ascii_savetxt.
Qed.
End RestartFacts.

Section RunMdFacts.
Context `{PyFormat} `{Collaborators}.

Lemma reshape3_length (xs : list float) (rows : list (list float)) :
  reshape3 xs = Some rows ->
  (length xs mod 3 = 0 /\ length rows = length xs / 3)%nat.
Proof.
  unfold reshape3. destruct (length xs mod 3 =? 0)%nat eqn:E; [|discriminate].
  intros [= <-]. apply Nat.eqb_eq in E. split; [exact E | apply rows_of_length].
Qed.

Lemma reshape3_multiple (xs : list float) :
  (length xs mod 3 = 0)%nat ->
  reshape3 xs = Some (rows_of (length xs / 3) 3 xs).
Proof. intros E. unfold reshape3. rewrite E. reflexivity. Qed.

Lemma write_file_eq (p text : string) (st : State) :
  write_file p text st
  = (Ok tt, {| self := self st;
               world := set_files (<[p := text]> (files (world st))) (world st);
               log := log st; events := events st ++ [EvWrite p text] |}).
Proof. reflexivity. Qed.

(** A run in mode [md] adds its own event and no other. *)
Lemma run_md_mode_events (rq : run_request) (st : State) :
  rq_calc rq = "md" ->
  events (snd (run rq st)) = events st ++ [EvRun rq]
  /\ self (snd (run rq st)) = self st.
Proof.
  intros Hcalc. unfold run, emit, lift_try, parser_funcs.
  rewrite Hcalc. simpl String.eqb. cbv iota.
  rewrite !bind_unfold. simpl.
  destruct (run_process rq (world st)) as [[path|e] w]; simpl; [|auto].
  unfold parse_md, path_exists, get_world, lift_read.
  rewrite !bind_unfold. simpl.
  destruct (bool_decide _); simpl; [|auto].
  repeat (rewrite bind_unfold; simpl).
  match goal with
  | |- context [geom_loader ?p ?w'] => destruct (geom_loader p w')
  end; simpl; auto.
Qed.

Lemma md_restart_mismatch (path : string) (coords v : list float) (st : State) :
  length coords <> length v ->
  exists e,
    md_restart path coords (Some v) st = (Raise e, st)
    /\ ((length coords mod 3 = 0)%nat -> (length v mod 3 = 0)%nat ->
        e = Exn AssertionError shape_msg).
Proof.
  intros Hne. unfold md_restart.
  destruct (reshape3 coords) as [c3|] eqn:Ec.
  2:{ eexists. split; [reflexivity|]. intros Hc _.
      rewrite (reshape3_multiple _ Hc) in Ec. discriminate. }
  destruct (reshape3 v) as [v3|] eqn:Ev.
  2:{ eexists. split; [reflexivity|]. intros _ Hv.
      rewrite (reshape3_multiple _ Hv) in Ev. discriminate. }
  apply reshape3_length in Ec as [Hc Hlc], Ev as [Hv Hlv].
  assert (Hlen : (length c3 =? length (List.map (scale BOHRPERFS2AU) v3))%nat = false).
  { apply Nat.eqb_neq. rewrite length_map, Hlc, Hlv. intros E. apply Hne.
    rewrite (Nat.div_mod (length coords) 3), (Nat.div_mod (length v) 3) by lia.
    lia. }
  rewrite bind_unfold. unfold assert. rewrite Hlen.
  eexists. split; [reflexivity | auto].
Qed.

Lemma md_restart_match (path : string) (coords v : list float) (st : State) :
  (forall x : float, is_ascii (fmt_e14 x) = true) ->
  length coords = length v -> (length coords mod 3 = 0)%nat ->
  exists content,
    md_restart path coords (Some v) st
    = (Ok "true",
       {| self := self st;
          world := set_files (<[path_join path "mdrestart" := content]>
                                (files (world st))) (world st);
          log := log st;
          events := events st ++ [EvWrite (path_join path "mdrestart") content] |})
    /\ reshape3 coords
       = Some (rows_of (length coords / 3) 3 coords)
    /\ content
       = get_mdrestart_str (rows_of (length coords / 3) 3 coords)
           (List.map (scale BOHRPERFS2AU) (rows_of (length v / 3) 3 v)).
Proof.
  intros Hascii Hlen Hmod. unfold md_restart.
  rewrite (reshape3_multiple coords Hmod).
  rewrite (reshape3_multiple v) by (rewrite <- Hlen; exact Hmod).
  eexists. split; [|split; reflexivity].
  rewrite bind_unfold. unfold assert.
  rewrite length_map, !rows_of_length, Hlen, Nat.eqb_refl.
  rewrite ret_unfold, bind_unfold. unfold write_mdrestart.
  rewrite is_ascii_mdrestart by exact Hascii.
  rewrite write_file_eq. reflexivity.
Qed.
End RunMdFacts.

Lemma append_inj_l (p a b : string) : p +:+ a = p +:+ b -> a = b.
Proof.
  induction p as [|c p IH]; simpl; [auto|]. intros [= Heq]. apply IH, Heq.
Qed.

Lemma path_join_inj (path a b : string) :
  path_join path a = path_join path b -> a = b.
Proof.
  unfold path_join. intros Heq.
  apply append_inj_l in Heq. apply (append_inj_l "/"), Heq.
Qed.

Section RunMdTheorem.
Context `{PyFormat} `{Collaborators}.

Lemma prepare_coords_multiple (atoms : list string) (coords : list float)
    (st : State) :
  (length coords mod 3 = 0)%nat ->
  prepare_coords atoms coords st
  = (make_xyz_str atoms
       (rows_of (length coords / 3) 3 (scale BOHR2ANG coords)), st).
Proof.
  intros Hmod. unfold prepare_coords.
  rewrite reshape3_multiple by (unfold scale; rewrite length_map; exact Hmod).
  unfold scale at 1. rewrite length_map. reflexivity.
Qed.

(** C6, amended. With initial velocities whose number differs from the
    number of coordinates, [run_md] raises and nothing was written or
    run; it is the assertion on the shapes that fails when both numbers
    are multiples of three. With as many velocities as coordinates, a
    multiple of three, and a number format that yields ASCII, [run_md]
    writes the restart file and then the control file: both are in the
    directory when the geometry is handed to [make_xyz_str]. With the
    text this returns the program is run in mode [md], in that directory;
    when it raises instead, [run_md] raises the same and the program is
    not run. *)
Theorem run_md_velocities (atoms : list string) (coords v : list float)
    (t : float) (dt : number) (dump : Z) (st : State) :
  let path := fst (prepare_path (world st)) in
  let w0 := snd (prepare_path (world st)) in
  (length coords <> length v ->
   exists e st',
     run_md atoms coords t dt (Some v) dump st = (Raise e, st')
     /\ events st' = events st
     /\ world st' = w0
     /\ ((length coords mod 3 = 0)%nat -> (length v mod 3 = 0)%nat ->
         e = Exn AssertionError shape_msg))
  /\ ((forall x : float, is_ascii (fmt_e14 x) = true) ->
      length coords = length v -> (length coords mod 3 = 0)%nat ->
      let restart_text :=
        get_mdrestart_str (rows_of (length coords / 3) 3 coords)
          (List.map (scale BOHRPERFS2AU) (rows_of (length v / 3) 3 v)) in
      let control_text :=
        format_xcontrol
          (dict_update (md_options "true" t dt dump) (xtb_options (self st))) in
      let add_args :=
        prepare_add_args (self st) ++ ["--input"; "xcontrol"; "--md"] in
      let staged :=
        {| self := self st;
           world :=
             set_files
               (<[path_join path "xcontrol" := control_text]>
                  (<[path_join path "mdrestart" := restart_text]> (files w0)))
               w0;
           log := log st;
           events := events st
                     ++ [EvWrite (path_join path "mdrestart") restart_text;
                         EvWrite (path_join path "xcontrol") control_text] |} in
      files (world staged) !! path_join path "mdrestart" = Some restart_text
      /\ files (world staged) !! path_join path "xcontrol" = Some control_text
      /\ match make_xyz_str atoms
                 (rows_of (length coords / 3) 3 (scale BOHR2ANG coords)) with
         | Raise e =>
             run_md atoms coords t dt (Some v) dump st = (Raise e, staged)
         | Ok inp =>
             exists rq,
               run_md atoms coords t dt (Some v) dump st
               = run rq {| self := self st; world := world staged;
                           log := log st
                                  ++ [executing_msg (self st) add_args];
                           events := events staged |}
               /\ rq_inp rq = inp
               /\ rq_calc rq = "md"
               /\ rq_add_args rq = Some add_args
               /\ events (snd (run_md atoms coords t dt (Some v) dump st))
                  = events staged ++ [EvRun rq]
         end).
Proof.
  intros path w0.
  assert (Ep : prepare_path (world st) = (path, w0))
    by apply surjective_pairing.
  clearbody path w0.
  set (st1 := {| self := self st; world := w0; log := log st;
                 events := events st |}).
  assert (Hpp : lift_world prepare_path st = (Ok path, st1))
    by (unfold lift_world; rewrite Ep; reflexivity).
  split.
  - intros Hne. unfold run_md. rewrite bind_unfold, Hpp.
    destruct (md_restart_mismatch path coords v st1 Hne) as (e & He & Hkind).
    exists e, st1. rewrite bind_unfold, He. auto.
  - intros Hascii Hlen Hmod.
    set (restart_text :=
           get_mdrestart_str (rows_of (length coords / 3) 3 coords)
             (List.map (scale BOHRPERFS2AU) (rows_of (length v / 3) 3 v))).
    set (control_text :=
           format_xcontrol
             (dict_update (md_options "true" t dt dump) (xtb_options (self st)))).
    set (staged :=
           {| self := self st;
              world :=
                set_files
                  (<[path_join path "xcontrol" := control_text]>
                     (<[path_join path "mdrestart" := restart_text]>
                        (files w0)))
                  w0;
              log := log st;
              events := events st
                        ++ [EvWrite (path_join path "mdrestart") restart_text;
                            EvWrite (path_join path "xcontrol") control_text] |}).
    split; [|split].
    + cbn [staged world files set_files].
      rewrite lookup_insert_ne; [apply lookup_insert_eq|].
      intros Heq. apply path_join_inj in Heq. discriminate.
    + cbn [staged world files set_files]. apply lookup_insert_eq.
    + destruct (md_restart_match path coords v st1 Hascii Hlen Hmod)
        as (content & Hr & _ & Hcontent).
      fold restart_text in Hcontent. subst content.
      assert (Hstaged :
                run_md atoms coords t dt (Some v) dump st
                = (inp ← prepare_coords atoms coords;
                   let add_args :=
                     prepare_add_args (self st)
                     ++ ["--input"; "xcontrol"; "--md"] in
                   log_msg (executing_msg (self st) add_args);;
                   env ← get_pal_env;
                   run {| rq_inp := inp; rq_calc := "md";
                          rq_add_args := Some add_args; rq_cmd := None;
                          rq_env := env; rq_keep := Some true;
                          rq_keep_log := None |}) staged).
      { unfold run_md. rewrite bind_unfold, Hpp, bind_unfold, Hr.
        rewrite bind_unfold. cbn [get_self fst snd self].
        rewrite bind_unfold, write_file_eq.
        cbn [fst snd self world log events].
        rewrite <- app_assoc. reflexivity. }
      rewrite Hstaged, bind_unfold,
        (prepare_coords_multiple atoms coords staged Hmod).
      destruct (make_xyz_str atoms _) as [inp|e]; [|reflexivity].
      repeat (rewrite bind_unfold; simpl).
      eexists. split; [reflexivity|].
      repeat (split; [reflexivity|]).
      match goal with
      | |- events (snd (run ?rq ?s)) = _ =>
          destruct (run_md_mode_events rq s eq_refl) as [Hev _]; rewrite Hev
      end.
      reflexivity.
Qed.
End RunMdTheorem.

(** On the sample environment: velocities of the shape of the
    coordinates, but one atom label for two rows. The restart file is
    written and the program is not run. *)
Lemma run_md_atoms_mismatch_not_run :
  let coords := repeat 0%float 6 in
  let velocities := repeat 1%float 6 in
  let r := run_md ["H"] coords 1000%float (NFloat 1%float) (Some velocities)
             1 md_state in
  length coords = length velocities
  /\ (length coords mod 3 = 0)%nat
  /\ (exists msg, fst r = Raise (Exn AssertionError msg))
  /\ is_Some (files (world (snd r)) !! "run/mdrestart")
  /\ run_modes (events (snd r)) = [].
Proof.
  vm_compute. split; [reflexivity|]. split; [reflexivity|].
  split; [eexists; reflexivity|]. split; [eexists|]; reflexivity.
Qed.

Lemma run_md_velocities_witness :
  (exists e st',
     run_md ["H"; "H"] (repeat 0%float 6) 1000%float (NFloat 1%float)
       (Some (repeat 0%float 3)) 1 md_state = (Raise e, st')
     /\ events st' = [])
  /\ (exists rq content xcontrol,
        events (snd (run_md ["H"; "H"] (repeat 0%float 6) 1000%float
                       (NFloat 1%float) (Some (repeat 1%float 6)) 1 md_state))
        = [EvWrite "run/mdrestart" content; EvWrite "run/xcontrol" xcontrol;
           EvRun rq]
        /\ rq_calc rq = "md")
  /\ exists st',
       run_md ["H"] (repeat 0%float 6) 1000%float (NFloat 1%float)
         (Some (repeat 1%float 6)) 1 md_state
       = (Raise (Exn AssertionError ""), st')
       /\ is_Some (files (world st') !! "run/mdrestart")
       /\ run_modes (events st') = [].
Proof.
  assert (Hascii : forall x : float, is_ascii (fmt_e14 x) = true).
  { intros x. simpl. unfold sample_fmt_e14.
    destruct (PrimFloat.eqb x 1); reflexivity. }
  split; [|split].
  - destruct (run_md_velocities ["H"; "H"] (repeat 0%float 6)
                (repeat 0%float 3) 1000%float (NFloat 1%float) 1 md_state)
      as [Hfail _].
    destruct Hfail as (e & st' & Hrun & Hev & _); [simpl; lia|].
    exists e, st'. split; [exact Hrun | exact Hev].
  - destruct (run_md_velocities ["H"; "H"] (repeat 0%float 6)
                (repeat 1%float 6) 1000%float (NFloat 1%float) 1 md_state)
      as [_ Hok].
    destruct (Hok Hascii eq_refl eq_refl) as (_ & _ & rq & _ & _ & Hcalc & _ & Hev).
    exists rq. eexists. eexists. split; [exact Hev | exact Hcalc].
  - destruct (run_md_velocities ["H"] (repeat 0%float 6)
                (repeat 1%float 6) 1000%float (NFloat 1%float) 1 md_state)
      as [_ Hok].
    destruct (Hok Hascii eq_refl eq_refl) as (Hfile & _ & Hrun).
    eexists. split; [exact Hrun|]. split; [|reflexivity].
    eexists. exact Hfile.
Defined.

(** ** Sorting by key *)

Lemma leb_iff (a b : string) :
  String.leb a b = true <-> OrderedTypeEx.String_as_OT.lt a b \/ a = b.
Proof.
  unfold String.leb.
  rewrite <- OrderedTypeEx.String_as_OT.cmp_lt, <- OrderedTypeEx.String_as_OT.cmp_eq.
  change OrderedTypeEx.String_as_OT.cmp with String.compare.
  destruct (String.compare a b); split; intros Hc;
    try discriminate; auto; destruct Hc; discriminate.
Qed.

Lemma leb_trans (a b c : string) :
  String.leb a b = true -> String.leb b c = true -> String.leb a c = true.
Proof.
  rewrite !leb_iff. intros [Hab| ->] [Hbc| ->]; auto.
  left. eapply OrderedTypeEx.String_as_OT.lt_trans; eassumption.
Qed.

Lemma leb_refl (a : string) : String.leb a a = true.
Proof. apply leb_iff. auto. Qed.


Section SortFacts.
Context {V : Type}.
Implicit Types (x y : string * V) (l : list (string * V)).

Lemma insert_by_key_perm x l : Permutation (insert_by_key x l) (x :: l).
Proof.
  induction l as [|y l IH]; simpl; [reflexivity|].
  destruct (String.leb (fst x) (fst y)); [reflexivity|].
  rewrite IH. apply perm_swap.
Qed.

Lemma sorted_by_key_perm l : Permutation (sorted_by_key l) l.
Proof.
  induction l as [|x l IH]; simpl; [reflexivity|].
  rewrite insert_by_key_perm, IH. reflexivity.
Qed.

Lemma insert_by_key_sorted x l :
  StronglySorted key_le l -> StronglySorted key_le (insert_by_key x l).
Proof.
  induction 1 as [|y l Hl IH Hy]; simpl.
  - constructor; constructor.
  - destruct (String.leb (fst x) (fst y)) eqn:E.
    + constructor; [constructor; assumption|].
      constructor; [exact E|].
      eapply Forall_impl; [exact Hy|].
      intros z Hz. unfold key_le in *. eapply leb_trans; eassumption.
    + constructor; [exact IH|].
      rewrite (insert_by_key_perm x l). constructor; [|exact Hy].
      unfold key_le. destruct (String.leb_total (fst x) (fst y)); congruence.
Qed.

Lemma sorted_by_key_sorted l : StronglySorted key_le (sorted_by_key l).
Proof.
  induction l as [|x l IH]; simpl; [constructor|].
  apply insert_by_key_sorted, IH.
Qed.

Lemma sorted_unique l1 l2 :
  StronglySorted key_le l1 -> StronglySorted key_le l2 ->
  List.NoDup (List.map fst l1) -> Permutation l1 l2 -> l1 = l2.
Proof.
  intros S1. revert l2. induction S1 as [|a t1 St1 IH Ha]; intros l2 S2 Hnd Hp.
  - apply Permutation_nil in Hp. congruence.
  - destruct S2 as [|b t2 St2 Hb].
    { symmetry in Hp. apply Permutation_nil in Hp. discriminate. }
    assert (Hab : a = b).
    { assert (Hin_b : In b (a :: t1))
        by (eapply Permutation_in; [symmetry; exact Hp | left; reflexivity]).
      assert (Hin_a : In a (b :: t2))
        by (eapply Permutation_in; [exact Hp | left; reflexivity]).
      destruct Hin_b as [E|Hbt]; [exact E|].
      destruct Hin_a as [E|Hat]; [congruence|].
      rewrite List.Forall_forall in Ha, Hb.
      pose proof (String.leb_antisym _ _ (Ha b Hbt) (Hb a Hat)) as Hk.
      simpl in Hnd. apply List.NoDup_cons_iff in Hnd as [Hnotin _].
      exfalso. apply Hnotin. rewrite Hk. apply List.in_map. exact Hbt. }
    subst b. f_equal. apply IH.
    + exact St2.
    + simpl in Hnd. apply List.NoDup_cons_iff in Hnd as [_ Hnd]. exact Hnd.
    + eapply Permutation_cons_inv. exact Hp.
Qed.


Lemma dict_get_In (k : string) (v : V) l :
  List.NoDup (List.map fst l) -> (dict_get k l = Some v <-> In (k, v) l).
Proof.
  induction l as [|[k' v'] l IH]; simpl; intros Hnd.
  - split; [discriminate | contradiction].
  - apply List.NoDup_cons_iff in Hnd as [Hnotin Hnd].
    destruct (String.eqb_spec k k') as [->|Hne].
    + split.
      * intros [= ->]. left. reflexivity.
      * intros [[= ->]|Hin]; [reflexivity|].
        exfalso. apply Hnotin.
        change k' with (fst (k', v)). apply List.in_map. exact Hin.
    + rewrite (IH Hnd). split; [auto|].
      intros [[= -> ->]|Hin]; [contradiction | exact Hin].
Qed.

Lemma dict_get_ext_perm l1 l2 :
  List.NoDup (List.map fst l1) -> List.NoDup (List.map fst l2) ->
  (forall k, dict_get k l1 = dict_get k l2) -> Permutation l1 l2.
Proof.
  intros H1 H2 Hget.
  apply Permutation.NoDup_Permutation.
  - eapply List.NoDup_map_inv. exact H1.
  - eapply List.NoDup_map_inv. exact H2.
  - intros [k v]. rewrite <- !dict_get_In by assumption. rewrite Hget. reflexivity.
Qed.

Lemma sorted_by_key_ext l1 l2 :
  List.NoDup (List.map fst l1) -> List.NoDup (List.map fst l2) ->
  (forall k, dict_get k l1 = dict_get k l2) ->
  sorted_by_key l1 = sorted_by_key l2.
Proof.
  intros H1 H2 Hget. apply sorted_unique.
  - apply sorted_by_key_sorted.
  - apply sorted_by_key_sorted.
  - eapply Permutation.Permutation_NoDup; [|exact H1].
    apply Permutation_map. symmetry. apply sorted_by_key_perm.
  - rewrite !sorted_by_key_perm. apply dict_get_ext_perm; assumption.
Qed.
End SortFacts.

(** ** Order independence of the control file *)

Section OnValues.
Context {V W : Type} (f : V -> W).

Lemma insert_by_key_on_snd (x : string * V) (l : list (string * V)) :
  insert_by_key (on_snd f x) (List.map (on_snd f) l)
  = List.map (on_snd f) (insert_by_key x l).
Proof.
  induction l as [|y l IH]; simpl; [reflexivity|].
  destruct (String.leb (fst x) (fst y)); simpl; [reflexivity|].
  rewrite IH. reflexivity.
Qed.

Lemma sorted_by_key_on_snd (l : list (string * V)) :
  sorted_by_key (List.map (on_snd f) l) = List.map (on_snd f) (sorted_by_key l).
Proof.
  induction l as [|x l IH]; simpl; [reflexivity|].
  rewrite IH. apply insert_by_key_on_snd.
Qed.

Lemma dict_get_on_snd (k : string) (l : list (string * V)) :
  dict_get k (List.map (on_snd f) l) = option_map f (dict_get k l).
Proof.
  induction l as [|[k' v] l IH]; simpl; [reflexivity|].
  destruct (String.eqb k k'); [reflexivity | exact IH].
Qed.

Lemma map_fst_on_snd (l : list (string * V)) :
  List.map fst (List.map (on_snd f) l) = List.map fst l.
Proof. rewrite List.map_map. reflexivity. Qed.
End OnValues.

Lemma dict_get_Some_In {V} (k : string) (v : V) (l : list (string * V)) :
  dict_get k l = Some v -> In (k, v) l.
Proof.
  induction l as [|[k' v'] l IH]; simpl; [discriminate|].
  destruct (String.eqb_spec k k') as [->|Hne].
  - intros [= ->]. left. reflexivity.
  - intros Hget. right. apply IH, Hget.
Qed.

Lemma sorted_options_eq (o : options) :
  sorted_options o = sorted_by_key (List.map (on_snd sorted_by_key) o).
Proof. unfold sorted_options. symmetry. apply sorted_by_key_on_snd. Qed.

Lemma sorted_options_equiv (o1 o2 : options) :
  options_wf o1 -> options_wf o2 -> options_equiv o1 o2 ->
  sorted_options o1 = sorted_options o2.
Proof.
  intros [Hwf1 Hin1] [Hwf2 Hin2] Heq.
  rewrite !sorted_options_eq. apply sorted_by_key_ext.
  - rewrite map_fst_on_snd. exact Hwf1.
  - rewrite map_fst_on_snd. exact Hwf2.
  - intros name. rewrite !dict_get_on_snd. specialize (Heq name).
    unfold options, dict in *.
    destruct (dict_get name o1) as [e1|] eqn:E1,
             (dict_get name o2) as [e2|] eqn:E2; try contradiction;
      [|reflexivity].
    simpl. f_equal. apply sorted_by_key_ext; [| |exact Heq].
    + rewrite List.Forall_forall in Hin1.
      apply (Hin1 (name, e1)), dict_get_Some_In, E1.
    + rewrite List.Forall_forall in Hin2.
      apply (Hin2 (name, e2)), dict_get_Some_In, E2.
Qed.

Lemma append_assoc (a b c : string) : (a +:+ b) +:+ c = a +:+ b +:+ c.
Proof. induction a as [|x a IH]; simpl; [reflexivity | rewrite IH; reflexivity]. Qed.

Section RenderFacts.
Context `{PyFormat}.

Lemma lines_text_app (a b : list string) :
  lines_text (a ++ b) = lines_text a +:+ lines_text b.
Proof.
  unfold lines_text. induction a as [|l a IH]; simpl; [reflexivity|].
  rewrite IH, !append_assoc. reflexivity.
Qed.

Lemma lines_text_cons (l : string) (ls : list string) :
  lines_text (l :: ls) = (l +:+ String NL "") +:+ lines_text ls.
Proof. reflexivity. Qed.

Lemma entries_text_lines (es : list (string * xval)) :
  entries_text es = lines_text (List.map entry_text es).
Proof.
  unfold lines_text. induction es as [|kv es IH]; simpl; [reflexivity|].
  rewrite IH. unfold entry_line, entry_text.
  repeat (rewrite append_assoc; simpl). reflexivity.
Qed.

Lemma section_text_lines (se : string * dict xval) :
  section_text se = lines_text (block_lines (on_snd sorted_by_key se)).
Proof.
  unfold section_text, block_lines, on_snd. cbn [fst snd].
  rewrite lines_text_cons, lines_text_app, entries_text_lines.
  unfold lines_text at 3. simpl.
  repeat (rewrite append_assoc; simpl). reflexivity.
Qed.

Lemma sections_text_lines (ss : list (string * dict xval)) :
  sections_text ss
  = lines_text (xcontrol_lines (List.map (on_snd sorted_by_key) ss)).
Proof.
  induction ss as [|se ss IH]; [reflexivity|].
  cbn [sections_text List.map]. unfold xcontrol_lines in *. cbn [flat_map].
  rewrite lines_text_app, IH, section_text_lines. reflexivity.
Qed.

Lemma xcontrol_inp_lines (o : options) :
  xcontrol_inp o = lines_text (xcontrol_lines (sorted_options o)).
Proof. unfold xcontrol_inp. apply sections_text_lines. Qed.

Lemma format_xcontrol_equiv (o1 o2 : options) :
  options_wf o1 -> options_wf o2 -> options_equiv o1 o2 ->
  format_xcontrol o1 = format_xcontrol o2.
Proof.
  intros H1 H2 Heq. unfold format_xcontrol.
  rewrite !xcontrol_inp_lines, (sorted_options_equiv o1 o2 H1 H2 Heq).
  reflexivity.
Qed.
End RenderFacts.

(** ** The rendered text, line by line *)

Lemma rstrip_app (a b : string) :
  is_empty (rstrip b) = false -> rstrip (a +:+ b) = a +:+ rstrip b.
Proof.
  intros Hb. induction a as [|c a IH]; simpl; [reflexivity|].
  rewrite IH. destruct (a +:+ rstrip b) eqn:E; [|reflexivity].
  destruct a; simpl in E; [|discriminate].
  rewrite E in Hb. discriminate.
Qed.

Lemma join_lines_snoc (ls : list string) (l : string) :
  join_lines (ls ++ [l])
  = concat_strings (List.map (fun l => l +:+ String NL "") ls) +:+ l.
Proof.
  induction ls as [|l0 ls IH]; [reflexivity|].
  destruct ls as [|l1 ls].
  - simpl. repeat (rewrite append_assoc; simpl). reflexivity.
  - change (join_lines ((l0 :: l1 :: ls) ++ [l]))
      with (l0 +:+ String NL (join_lines ((l1 :: ls) ++ [l]))).
    rewrite IH. cbn [List.map concat_strings].
    repeat (rewrite append_assoc; simpl). reflexivity.
Qed.

Lemma split_lines_single (l : string) :
  single_line l = true -> split_lines l = [l].
Proof.
  unfold single_line. induction l as [|c l IH]; simpl; [reflexivity|].
  intros Hl. apply andb_prop in Hl as [Hc Hl].
  apply negb_true_iff in Hc. rewrite Hc, (IH Hl). reflexivity.
Qed.

Lemma split_lines_cons (l t : string) :
  single_line l = true ->
  split_lines (l +:+ String NL t) = l :: split_lines t.
Proof.
  unfold single_line. induction l as [|c l IH]; simpl.
  - intros _. reflexivity.
  - intros Hl. apply andb_prop in Hl as [Hc Hl].
    apply negb_true_iff in Hc. rewrite Hc, (IH Hl). reflexivity.
Qed.

Lemma split_lines_join (ls : list string) :
  ls <> [] -> List.Forall (fun l => single_line l = true) ls ->
  split_lines (join_lines ls) = ls.
Proof.
  intros Hne Hls. induction Hls as [|l ls Hl Hls IH]; [contradiction|].
  destruct ls as [|l2 ls].
  - apply split_lines_single, Hl.
  - change (join_lines (l :: l2 :: ls))
      with (l +:+ String NL (join_lines (l2 :: ls))).
    rewrite (split_lines_cons _ _ Hl), IH by discriminate. reflexivity.
Qed.

Lemma normalize_line_nonblank (l : string) :
  all_chars is_sp_tab l = false -> normalize_line l = l.
Proof. intros Hl. unfold normalize_line. rewrite Hl, andb_false_r. reflexivity. Qed.

Lemma fold_margin_empty (indents : list string) :
  fold_left update_margin indents (Some "") = Some "".
Proof.
  induction indents as [|i indents IH]; simpl; [reflexivity|].
  unfold startswith. simpl. exact IH.
Qed.

(** A text whose first line is not indented and that has no line of
    spaces and tabs only is left as it is. *)
Lemma dedent_flush_left (c : ascii) (l : string) (ls : list string) :
  is_sp_tab c = false ->
  List.Forall (fun l => single_line l = true /\ all_chars is_sp_tab l = false)
    (String c l :: ls) ->
  dedent (join_lines (String c l :: ls)) = join_lines (String c l :: ls).
Proof.
  intros Hc Hls. unfold dedent.
  rewrite split_lines_join;
    [|discriminate | eapply List.Forall_impl; [|exact Hls]; intros ? [? _]; assumption].
  assert (Hnorm : List.map normalize_line (String c l :: ls) = String c l :: ls).
  { clear Hc. induction Hls as [|x xs [_ Hx] _ IH]; [reflexivity|].
    simpl. rewrite (normalize_line_nonblank x Hx), IH. reflexivity. }
  rewrite Hnorm. simpl. unfold indent_of at 1. simpl. rewrite Hc. simpl.
  rewrite fold_margin_empty. reflexivity.
Qed.

Section LineFacts.
Context `{PyFormat}.

Lemma entry_text_ok (kv : string * xval) :
  entry_single_line kv -> line_ok (entry_text kv).
Proof.
  intros [Hk Hv]. unfold line_ok, entry_text, single_line in *.
  rewrite !all_chars_app. split.
  - rewrite Hk. simpl. exact Hv.
  - change ("=" +:+ xval_text (snd kv)) with (String "=" (xval_text (snd kv))).
    cbn [all_chars]. change (is_sp_tab "=") with false.
    rewrite andb_false_l, !andb_false_r. reflexivity.
Qed.

Lemma block_lines_ok (se : string * list (string * xval)) :
  single_line (fst se) = true ->
  List.Forall entry_single_line (snd se) ->
  List.Forall line_ok (block_lines se).
Proof.
  intros Hname Hes. unfold block_lines. constructor.
  - split; [exact Hname | reflexivity].
  - apply List.Forall_app. split.
    + apply List.Forall_map. eapply List.Forall_impl; [|exact Hes].
      apply entry_text_ok.
    + constructor; [split; reflexivity | constructor].
Qed.

Lemma xcontrol_lines_ok (ss : list (string * list (string * xval))) :
  List.Forall (fun se => single_line (fst se) = true
                         /\ List.Forall entry_single_line (snd se)) ss ->
  List.Forall line_ok (xcontrol_lines ss).
Proof.
  induction 1 as [|se ss [Hname Hes] _ IH]; [constructor|].
  unfold xcontrol_lines in *. cbn [flat_map]. apply List.Forall_app.
  split; [apply block_lines_ok; assumption | exact IH].
Qed.

Lemma xcontrol_lines_shape (ss : list (string * list (string * xval))) :
  ss <> [] ->
  exists name rest init,
    xcontrol_lines ss = ("$" +:+ name) :: rest
    /\ xcontrol_lines ss = init ++ ["$end"].
Proof.
  intros Hne. destruct ss as [|se ss]; [contradiction|]. clear Hne.
  exists (fst se).
  assert (Hlast : forall se ss, exists init,
             xcontrol_lines (se :: ss) = init ++ ["$end"]).
  { clear. intros se ss. revert se. induction ss as [|se' ss IH]; intros se.
    - exists (("$" +:+ fst se) :: List.map entry_text (snd se)).
      unfold xcontrol_lines, block_lines. simpl. rewrite app_nil_r. reflexivity.
    - destruct (IH se') as [init Hinit].
      exists (block_lines se ++ init).
      change (xcontrol_lines (se :: se' :: ss))
        with (block_lines se ++ xcontrol_lines (se' :: ss)).
      rewrite Hinit, app_assoc. reflexivity. }
  destruct (Hlast se ss) as [init Hinit].
  eexists. exists init. split; [reflexivity | exact Hinit].
Qed.

Lemma strip_lines_text (ls : list string) (name : string)
    (rest init : list string) :
  ls = ("$" +:+ name) :: rest -> ls = init ++ ["$end"] ->
  strip (lines_text ls) = join_lines ls.
Proof.
  intros Hfirst Hlast. unfold strip.
  assert (Hl : lstrip (lines_text ls) = lines_text ls)
    by (rewrite Hfirst; reflexivity).
  rewrite Hl, Hlast, lines_text_app, join_lines_snoc.
  rewrite rstrip_app by reflexivity. reflexivity.
Qed.

Lemma sorted_options_single_line (o : options) :
  options_single_line o ->
  List.Forall (fun se => single_line (fst se) = true
                         /\ List.Forall entry_single_line (snd se))
    (sorted_options o).
Proof.
  intros Ho. unfold sorted_options. apply List.Forall_map.
  eapply Permutation_Forall; [symmetry; apply sorted_by_key_perm|].
  eapply List.Forall_impl; [|exact Ho].
  intros se [Hname Hes]. split; [exact Hname|]. simpl.
  eapply Permutation_Forall; [symmetry; apply sorted_by_key_perm | exact Hes].
Qed.

Lemma format_xcontrol_lines (o : options) :
  options_single_line o ->
  format_xcontrol o = join_lines (xcontrol_lines (sorted_options o)).
Proof.
  intros Ho. unfold format_xcontrol. rewrite xcontrol_inp_lines.
  destruct (sorted_options o) as [|se ss] eqn:Eso; [reflexivity|].
  rewrite <- Eso.
  destruct (xcontrol_lines_shape (sorted_options o))
    as (name & rest & init & Hfirst & Hlast); [rewrite Eso; discriminate|].
  rewrite (strip_lines_text _ name rest init Hfirst Hlast).
  pose proof (xcontrol_lines_ok _ (sorted_options_single_line o Ho)) as Hok.
  rewrite Hfirst in *.
  apply (dedent_flush_left "$" name rest); [reflexivity | exact Hok].
Qed.
End LineFacts.

Section XcontrolTheorem.
Context `{PyFormat}.


End XcontrolTheorem.

Ltac nodup_strings :=
  repeat (constructor; [simpl; intuition discriminate|]); constructor.


(** ** The topology counter *)

Section StageFacts.
Context `{PyFormat} `{Collaborators}.

Lemma control_stage_eq (pc : option (list (list float))) (st : State) :
  exists w xc,
    control_stage pc st
    = (Ok (fst (prepare_path (world st))),
       {| self := self st; world := w; log := log st;
          events := events st
                    ++ saved_charges pc (snd (prepare_path (world st)))
                    ++ [EvWrite (path_join (fst (prepare_path (world st)))
                                  "xcontrol") xc] |}).
Proof.
  unfold control_stage, lift_world.
  destruct (prepare_path (world st)) as [path w] eqn:Ep.
  rewrite bind_unfold. simpl. rewrite Ep.
  destruct pc as [pc|]; repeat (rewrite bind_unfold; simpl);
    rewrite <- ?app_assoc; eexists; eexists; reflexivity.
Qed.

Lemma prepare_input_stages atoms coords calc_type pc (st : State) :
  prepare_input atoms coords calc_type pc st
  = (path ← control_stage pc;
     refresh_stage atoms coords;;
     copy_stage path;;
     restart_stage path) st.
Proof.
  unfold prepare_input, control_stage, refresh_stage, lift_world.
  destruct (prepare_path (world st)) as [path w] eqn:Ep.
  rewrite !bind_unfold. simpl. rewrite Ep.
  destruct pc as [pc|]; repeat (rewrite bind_unfold; simpl); reflexivity.
Qed.
End StageFacts.

Section TopoFacts.
Context `{PyFormat} `{Collaborators}.

Lemma copy_file_Ok (src dst : string) (st st' : State) :
  copy_file src dst st = (Ok tt, st') ->
  self st' = self st /\ log st' = log st
  /\ events st' = events st ++ [EvCopy src dst].
Proof.
  unfold copy_file, get_world. rewrite bind_unfold.
  destruct (files (world st) !! src); [|discriminate].
  rewrite bind_unfold. simpl. intros [= <-]. auto.
Qed.

(** A successful run in mode [topo]: the program ran, and the topology it
    left in its directory was copied to the name that [make_fn] gives. *)
Lemma run_topo_mode (rq : run_request) (st st' : State) (r : retval) :
  rq_calc rq = "topo" ->
  run rq st = (Ok r, st') ->
  exists dir target w,
    r = RDict (<["topo" := VPath target]> ∅)
    /\ target = make_fn "gfnff_topo" w
    /\ self st' = self st /\ log st' = log st
    /\ events st' = events st
                    ++ [EvRun rq; EvCopy (path_join dir "gfnff_topo") target].
Proof.
  intros Hcalc Hrun. unfold run in Hrun.
  apply bind_Ok in Hrun as ([] & st1 & Hemit & Hrun).
  injection Hemit as <-.
  apply bind_Ok in Hrun as (dir & st2 & Hproc & Hrun).
  unfold lift_try in Hproc. simpl in Hproc.
  destruct (run_process rq (world st)) as [[d|e] w]; [|discriminate].
  injection Hproc as -> <-.
  unfold parser_funcs in Hrun. rewrite Hcalc in Hrun. simpl in Hrun.
  unfold parse_topo in Hrun.
  apply bind_Ok in Hrun as (w' & st3 & Hw & Hrun).
  injection Hw as <- <-.
  apply bind_Ok in Hrun as ([] & st4 & Hcopy & Hrun).
  apply copy_file_Ok in Hcopy as (Hs & Hl & He).
  injection Hrun as <- <-.
  exists dir, (make_fn "gfnff_topo" w), w. simpl in *.
  rewrite Hs, Hl, He, <- app_assoc. auto.
Qed.

Lemma refresh_not_due atoms coords (st : State) :
  topo_due (self st) = false -> refresh_stage atoms coords st = (Ok tt, st).
Proof.
  intros Hdue. unfold refresh_stage. rewrite bind_unfold. simpl.
  rewrite Hdue. reflexivity.
Qed.

Lemma refresh_due atoms coords (st st' : State) :
  topo_due (self st) = true ->
  refresh_stage atoms coords st = (Ok tt, st') ->
  exists rq dir target w,
    rq_calc rq = "topo"
    /\ target = make_fn "gfnff_topo" w
    /\ self st' = set_topo (Some target) (self st)
    /\ events st' = events st
                    ++ [EvRun rq; EvCopy (path_join dir "gfnff_topo") target].
Proof.
  intros Hdue Hr. unfold refresh_stage in Hr. rewrite bind_unfold in Hr.
  simpl in Hr. rewrite Hdue in Hr.
  apply bind_Ok in Hr as (results & st1 & Hrun & Hr).
  unfold run_topo in Hrun.
  apply bind_Ok in Hrun as (inp & st0 & Hinp & Hrun).
  assert (st0 = st) as ->.
  { unfold prepare_coords in Hinp. destruct (reshape3 _); [|discriminate].
    injection Hinp as _ <-. reflexivity. }
  repeat (rewrite bind_unfold in Hrun; simpl in Hrun).
  match type of Hrun with
  | run ?rq _ = _ =>
      destruct (run_topo_mode rq _ _ _ eq_refl Hrun)
        as (dir & target & w & -> & Ht & Hs & Hl & He);
      exists rq, dir, target, w
  end.
  unfold result_topo in Hr. rewrite lookup_insert_eq in Hr.
  repeat (rewrite bind_unfold in Hr; simpl in Hr).
  injection Hr as <-. simpl. rewrite Hs, He. auto.
Qed.

Lemma copy_not_set (path : string) (st : State) :
  topo_set (self st) = false -> copy_stage path st = (Ok tt, st).
Proof.
  intros Hset. unfold copy_stage. rewrite bind_unfold. simpl.
  rewrite Hset. reflexivity.
Qed.

Lemma copy_set (path : string) (st st' : State) :
  topo_set (self st) = true ->
  copy_stage path st = (Ok tt, st') ->
  exists t,
    topo (self st) = Some t
    /\ self st' = set_topo_used (topo_used (self st) + 1) (self st)
    /\ events st' = events st ++ [EvCopy t (path_join path "gfnff_topo")].
Proof.
  intros Hset Hc. unfold copy_stage in Hc. rewrite bind_unfold in Hc.
  simpl in Hc. rewrite Hset in Hc.
  unfold topo_set in Hset. destruct (topo (self st)) as [t|]; [|discriminate].
  exists t. split; [reflexivity|]. simpl in Hc.
  apply bind_Ok in Hc as ([] & st1 & Hcopy & Hc).
  apply copy_file_Ok in Hcopy as (Hs & Hl & He).
  repeat (rewrite bind_unfold in Hc; simpl in Hc).
  injection Hc as <-. simpl. rewrite He. auto.
Qed.

Lemma restart_stage_Ok (path : string) (st st' : State) :
  restart_stage path st = (Ok tt, st') ->
  self st' = self st
  /\ exists copies,
       events st' = events st ++ copies
       /\ List.Forall (fun e => is_run e = false) copies.
Proof.
  unfold restart_stage. rewrite bind_unfold. simpl.
  destruct (xtbrestart (world st)) as [r|].
  - intros Hr. apply bind_Ok in Hr as ([] & st1 & Hcopy & Hr).
    apply copy_file_Ok in Hcopy as (Hs & Hl & He).
    injection Hr as <-. simpl. split; [exact Hs|].
    exists [EvCopy r (path_join path "xtbrestart")].
    split; [exact He | repeat constructor].
  - intros [= <-]. split; [reflexivity|]. exists [].
    rewrite app_nil_r. split; [reflexivity | constructor].
Qed.
End TopoFacts.

(** ** The theorems on the sample environment *)

Lemma prepare_add_args_contents_witness :
  exists x : XTB,
    init rich_kwargs = Ok x
    /\ prepare_add_args x
       = ["--input"; "xcontrol"; "--chrg"; "-1"; "--uhf"; "2"; "--acc"; "1.0";
          "--iterations"; "250"; "--etemp"; "300.0"; "--gbsa"; "water";
          "--gfnff"].
Proof.
  eexists. split; [reflexivity|].
  rewrite (prepare_add_args_contents rich_kwargs _ eq_refl). reflexivity.
Defined.

Lemma parse_opt_missing_file_witness :
  parse_opt "run" false failed_opt_state
  = (Ok RNone,
     {| self := default_xtb; world := world failed_opt_state;
        log := ["007 failed"]; events := [] |}).
Proof.
  rewrite (parse_opt_missing_file "run" false failed_opt_state) by reflexivity.
  reflexivity.
Defined.

Example format_xcontrol_example :
  format_xcontrol [("write", [("json", XBool true)]); ("embedding", [("interface", XStr "orca")])]
  = join_lines ["$embedding"; "    interface=orca"; "$end";
                "$write"; "    json=true"; "$end"].
Proof. reflexivity. Qed.

Example get_energy_example :
  fst (get_energy ["H"; "H"] (repeat 0%float 6) None md_state)
  = Ok (RDict (<["energy" := VFloat 0%float]> ∅)).
Proof. vm_compute. reflexivity. Qed.

Example get_forces_example :
  fst (get_forces ["H"; "H"] (repeat 0%float 6) None md_state)
  = Ok (RDict (<["forces" := VArray []]> (<["energy" := VFloat 0%float]> ∅))).
Proof. vm_compute. reflexivity. Qed.

Example check_termination_examples :
  check_termination_text "normal termination of xtb" = false
  /\ check_termination_text "* finished run on 2021/03/18 at 09:45" = true.
Proof. split; reflexivity. Qed.

(** * Further properties *)

(** ** Events and attributes through the monad *)

Section Frame.
Context (P : event -> Prop).

Lemma adds_ret {A} (a : A) : adds P (mret a : M A).
Proof. intros st. exists []. rewrite app_nil_r. split; [reflexivity | constructor]. Qed.

Lemma adds_raise {A} (k : exn_kind) (msg : string) : adds P (raise k msg : M A).
Proof. intros st. exists []. rewrite app_nil_r. split; [reflexivity | constructor]. Qed.

Lemma adds_bind {A B} (m : M A) (k : A -> M B) :
  adds P m -> (forall a, adds P (k a)) -> adds P (m ≫= k).
Proof.
  intros Hm Hk st. rewrite bind_unfold.
  destruct (Hm st) as (e1 & He1 & Hp1).
  destruct (m st) as [[a|e] st1]; simpl in *.
  - destruct (Hk a st1) as (e2 & He2 & Hp2).
    exists (e1 ++ e2). rewrite He2, He1, app_assoc.
    split; [reflexivity | apply List.Forall_app; auto].
  - exists e1. auto.
Qed.

Lemma adds_get_self : adds P get_self.
Proof. intros st. exists []. rewrite app_nil_r. split; [reflexivity | constructor]. Qed.

Lemma adds_get_world : adds P get_world.
Proof. intros st. exists []. rewrite app_nil_r. split; [reflexivity | constructor]. Qed.

Lemma adds_put_self (x : XTB) : adds P (put_self x).
Proof. intros st. exists []. simpl. rewrite app_nil_r. split; [reflexivity | constructor]. Qed.

Lemma adds_put_world (w : World) : adds P (put_world w).
Proof. intros st. exists []. simpl. rewrite app_nil_r. split; [reflexivity | constructor]. Qed.

Lemma adds_log_msg (msg : string) : adds P (log_msg msg).
Proof. intros st. exists []. simpl. rewrite app_nil_r. split; [reflexivity | constructor]. Qed.

Lemma adds_emit (e : event) : P e -> adds P (emit e).
Proof. intros He st. exists [e]. simpl. split; [reflexivity | repeat constructor; exact He]. Qed.

Lemma adds_assert (cond : bool) (msg : string) : adds P (assert cond msg).
Proof. destruct cond; [apply adds_ret | apply adds_raise]. Qed.

Lemma adds_lift_outcome {A} (r : outcome A) : adds P (lift_outcome r).
Proof. intros st. exists []. simpl. rewrite app_nil_r. split; [reflexivity | constructor]. Qed.

Lemma adds_lift_read {A} (f : World -> outcome A) : adds P (lift_read f).
Proof. intros st. exists []. simpl. rewrite app_nil_r. split; [reflexivity | constructor]. Qed.

Lemma adds_lift_world {A} (f : World -> A * World) : adds P (lift_world f).
Proof.
  intros st. exists []. unfold lift_world. destruct (f (world st)). simpl.
  rewrite app_nil_r. split; [reflexivity | constructor].
Qed.

Lemma adds_lift_try {A} (f : World -> outcome A * World) : adds P (lift_try f).
Proof.
  intros st. exists []. unfold lift_try. destruct (f (world st)). simpl.
  rewrite app_nil_r. split; [reflexivity | constructor].
Qed.

Lemma adds_read_file (p : string) : adds P (read_file p).
Proof.
  unfold read_file. apply adds_bind; [apply adds_get_world|]. intros w.
  destruct (files w !! p); [apply adds_ret | apply adds_raise].
Qed.

Lemma adds_path_exists (p : string) : adds P (path_exists p).
Proof.
  unfold path_exists. apply adds_bind; [apply adds_get_world|]. intros w.
  apply adds_ret.
Qed.

Lemma adds_write_file (p text : string) :
  P (EvWrite p text) -> adds P (write_file p text).
Proof.
  intros He. unfold write_file. apply adds_bind; [apply adds_get_world|].
  intros w. apply adds_bind; [apply adds_put_world|]. intros _.
  apply adds_emit, He.
Qed.

Lemma adds_copy_file (src dst : string) :
  P (EvCopy src dst) -> adds P (copy_file src dst).
Proof.
  intros He. unfold copy_file. apply adds_bind; [apply adds_get_world|].
  intros w. destruct (files w !! src); [|apply adds_raise].
  apply adds_bind; [apply adds_put_world|]. intros _. apply adds_emit, He.
Qed.
End Frame.

Lemma adds_weaken (P Q : event -> Prop) {A} (m : M A) :
  (forall e, P e -> Q e) -> adds P m -> adds Q m.
Proof.
  intros HPQ Hm st. destruct (Hm st) as (evs & He & Hp).
  exists evs. split; [exact He|]. eapply List.Forall_impl; eassumption.
Qed.

Lemma adds_no_event {A} (m : M A) (st : State) :
  adds no_event m -> events (snd (m st)) = events st.
Proof.
  intros Hm. destruct (Hm st) as (evs & He & Hp).
  destruct evs as [|e evs]; [rewrite He; apply app_nil_r|].
  inversion Hp as [|? ? Hf]. contradiction.
Qed.

Section KeepsSelf.

Lemma keeps_ret {A} (a : A) : keeps_self (mret a : M A).
Proof. intros st. reflexivity. Qed.

Lemma keeps_raise {A} (k : exn_kind) (msg : string) :
  keeps_self (raise k msg : M A).
Proof. intros st. reflexivity. Qed.

Lemma keeps_bind {A B} (m : M A) (k : A -> M B) :
  keeps_self m -> (forall a, keeps_self (k a)) -> keeps_self (m ≫= k).
Proof.
  intros Hm Hk st. rewrite bind_unfold. specialize (Hm st).
  destruct (m st) as [[a|e] st1]; simpl in *; [|exact Hm].
  rewrite (Hk a st1). exact Hm.
Qed.

Lemma keeps_get_self : keeps_self get_self.
Proof. intros st. reflexivity. Qed.

Lemma keeps_get_world : keeps_self get_world.
Proof. intros st. reflexivity. Qed.

Lemma keeps_put_world (w : World) : keeps_self (put_world w).
Proof. intros st. reflexivity. Qed.

Lemma keeps_log_msg (msg : string) : keeps_self (log_msg msg).
Proof. intros st. reflexivity. Qed.

Lemma keeps_emit (e : event) : keeps_self (emit e).
Proof. intros st. reflexivity. Qed.

Lemma keeps_assert (cond : bool) (msg : string) : keeps_self (assert cond msg).
Proof. destruct cond; intros st; reflexivity. Qed.

Lemma keeps_lift_outcome {A} (r : outcome A) : keeps_self (lift_outcome r).
Proof. intros st. reflexivity. Qed.

Lemma keeps_lift_read {A} (f : World -> outcome A) : keeps_self (lift_read f).
Proof. intros st. reflexivity. Qed.

Lemma keeps_lift_world {A} (f : World -> A * World) : keeps_self (lift_world f).
Proof. intros st. unfold lift_world. destruct (f (world st)). reflexivity. Qed.

Lemma keeps_lift_try {A} (f : World -> outcome A * World) :
  keeps_self (lift_try f).
Proof. intros st. unfold lift_try. destruct (f (world st)). reflexivity. Qed.

Lemma keeps_read_file (p : string) : keeps_self (read_file p).
Proof.
  unfold read_file. apply keeps_bind; [apply keeps_get_world|]. intros w.
  destruct (files w !! p); [apply keeps_ret | apply keeps_raise].
Qed.

Lemma keeps_path_exists (p : string) : keeps_self (path_exists p).
Proof.
  unfold path_exists. apply keeps_bind; [apply keeps_get_world|]. intros w.
  apply keeps_ret.
Qed.

Lemma keeps_write_file (p text : string) : keeps_self (write_file p text).
Proof.
  unfold write_file. apply keeps_bind; [apply keeps_get_world|]. intros w.
  apply keeps_bind; [apply keeps_put_world|]. intros _. apply keeps_emit.
Qed.

Lemma keeps_copy_file (src dst : string) : keeps_self (copy_file src dst).
Proof.
  unfold copy_file. apply keeps_bind; [apply keeps_get_world|]. intros w.
  destruct (files w !! src); [|apply keeps_raise].
  apply keeps_bind; [apply keeps_put_world|]. intros _. apply keeps_emit.
Qed.
End KeepsSelf.

Create HintDb frame.
#[local] Hint Resolve adds_lift_outcome keeps_lift_outcome : frame.
#[local] Hint Resolve adds_ret adds_raise adds_get_self adds_get_world
  adds_put_self adds_put_world adds_log_msg adds_assert adds_lift_read
  adds_lift_world adds_lift_try adds_read_file adds_path_exists
  keeps_ret keeps_raise keeps_get_self keeps_get_world keeps_put_world
  keeps_log_msg keeps_emit keeps_assert keeps_lift_read keeps_lift_world
  keeps_lift_try keeps_read_file keeps_path_exists keeps_write_file
  keeps_copy_file : frame.

(** Goes through the binds and the branches of a method. *)
Ltac frame :=
  repeat first
    [ solve [eauto with frame]
    | match goal with
      | |- adds _ (if ?b then _ else _) => destruct b
      | |- keeps_self (if ?b then _ else _) => destruct b
      | |- adds _ (match ?o with _ => _ end) => destruct o
      | |- keeps_self (match ?o with _ => _ end) => destruct o
      end
    | apply adds_bind; [|intros ?]
    | apply keeps_bind; [|intros ?] ].

Section ReadsOnly.

Lemma reads_ret {A} (a : A) : reads_only (mret a : M A).
Proof. intros st. reflexivity. Qed.

Lemma reads_raise {A} (k : exn_kind) (msg : string) :
  reads_only (raise k msg : M A).
Proof. intros st. reflexivity. Qed.

Lemma reads_bind {A B} (m : M A) (k : A -> M B) :
  reads_only m -> (forall a, reads_only (k a)) -> reads_only (m ≫= k).
Proof.
  intros Hm Hk st. rewrite bind_unfold. specialize (Hm st).
  destruct (m st) as [[a|e] st1]; simpl in *; subst st1; [apply Hk | reflexivity].
Qed.

Lemma reads_get_self : reads_only get_self.
Proof. intros st. reflexivity. Qed.

Lemma reads_get_world : reads_only get_world.
Proof. intros st. reflexivity. Qed.

Lemma reads_assert (cond : bool) (msg : string) : reads_only (assert cond msg).
Proof. destruct cond; intros st; reflexivity. Qed.

Lemma reads_lift_outcome {A} (r : outcome A) : reads_only (lift_outcome r).
Proof. intros st. reflexivity. Qed.

Lemma reads_lift_read {A} (f : World -> outcome A) : reads_only (lift_read f).
Proof. intros st. reflexivity. Qed.

Lemma reads_read_file (p : string) : reads_only (read_file p).
Proof.
  unfold read_file. apply reads_bind; [apply reads_get_world|]. intros w.
  destruct (files w !! p); [apply reads_ret | apply reads_raise].
Qed.

Lemma reads_path_exists (p : string) : reads_only (path_exists p).
Proof.
  unfold path_exists. apply reads_bind; [apply reads_get_world|]. intros w.
  apply reads_ret.
Qed.
End ReadsOnly.

#[local] Hint Resolve reads_lift_outcome : frame.
#[local] Hint Resolve reads_ret reads_raise reads_get_self reads_get_world
  reads_assert reads_lift_read reads_read_file reads_path_exists : frame.

Ltac reads :=
  repeat first
    [ solve [eauto with frame]
    | match goal with
      | |- reads_only (if ?b then _ else _) => destruct b
      | |- reads_only (match ?o with _ => _ end) => destruct o
      end
    | apply reads_bind; [|intros ?] ].

(** ** The energy in the log *)

Lemma num_char_no_space (c : ascii) : is_num_char c = true -> isspace c = false.
Proof.
  destruct c as [[] [] [] [] [] [] [] []]; vm_compute; congruence.
Qed.

Lemma lstrip_split (s : string) :
  exists ws, s = ws +:+ lstrip s /\ all_chars isspace ws = true.
Proof.
  induction s as [|c s (ws & Hs & Hws)]; simpl.
  - exists "". auto.
  - destruct (isspace c) eqn:Hc.
    + exists (String c ws). simpl. rewrite Hc, Hws, <- Hs. auto.
    + exists "". auto.
Qed.

Lemma lstrip_app_spaces (ws s : string) :
  all_chars isspace ws = true -> lstrip (ws +:+ s) = lstrip s.
Proof.
  induction ws as [|c ws IH]; simpl; [reflexivity|].
  intros H. apply andb_prop in H as [Hc Hws]. rewrite Hc. apply IH, Hws.
Qed.

Lemma span_while_split (p : ascii -> bool) (s a b : string) :
  span_while p s = (a, b) -> s = a +:+ b /\ all_chars p a = true.
Proof.
  revert a b. induction s as [|c s IH]; simpl; intros a b.
  - intros [= <- <-]. auto.
  - destruct (p c) eqn:Hc.
    + destruct (span_while p s) as [a' b'] eqn:E. intros [= <- <-].
      destruct (IH a' b' eq_refl) as [-> Ha]. simpl. rewrite Hc, Ha. auto.
    + intros [= <- <-]. auto.
Qed.

Lemma span_while_app (p : ascii -> bool) (a : string) (c : ascii) (b : string) :
  all_chars p a = true -> p c = false ->
  span_while p (a +:+ String c b) = (a, String c b).
Proof.
  intros Ha Hc. induction a as [|x a IH]; simpl in *.
  - rewrite Hc. reflexivity.
  - apply andb_prop in Ha as [Hx Ha]. rewrite Hx, (IH Ha). reflexivity.
Qed.

Lemma energy_match_at_sound (s g : string) :
  energy_match_at s = Some g -> energy_match s g.
Proof.
  unfold energy_match_at, energy_match.
  destruct (strip_prefix "TOTAL ENERGY" s) as [r|] eqn:Er; [|discriminate].
  apply strip_prefix_Some in Er.
  destruct (span_while is_num_char (lstrip r)) as [num rest] eqn:Es.
  destruct (is_empty num) eqn:Hn; [discriminate|].
  unfold startswith.
  destruct (strip_prefix " Eh" rest) as [post|] eqn:Ep; [|discriminate].
  intros [= <-]. apply strip_prefix_Some in Ep.
  apply span_while_split in Es as [Hl Hnum].
  destruct (lstrip_split r) as (ws & Hr & Hws).
  exists ws, post. rewrite Er, Hr, Hl, Ep. auto.
Qed.

Lemma energy_match_at_complete (s g : string) :
  energy_match s g -> energy_match_at s = Some g.
Proof.
  intros (ws & post & -> & Hws & Hg & Hne). unfold energy_match_at.
  assert (Ep : strip_prefix "TOTAL ENERGY"
                 ("TOTAL ENERGY" +:+ ws +:+ g +:+ " Eh" +:+ post)
               = Some (ws +:+ g +:+ " Eh" +:+ post))
    by (apply strip_prefix_Some; reflexivity).
  rewrite Ep, (lstrip_app_spaces _ _ Hws).
  assert (Hl : lstrip (g +:+ " Eh" +:+ post) = g +:+ " Eh" +:+ post).
  { destruct g as [|c g]; [discriminate|]. simpl in *.
    apply andb_prop in Hg as [Hc _]. rewrite (num_char_no_space c Hc).
    reflexivity. }
  rewrite Hl.
  change (g +:+ " Eh" +:+ post) with (g +:+ String " " ("Eh" +:+ post)).
  rewrite (span_while_app is_num_char g " " _ Hg eq_refl), Hne.
  reflexivity.
Qed.

Lemma energy_search_sound (text g : string) :
  energy_search text = Some g ->
  exists pre s, text = pre +:+ s /\ energy_match s g.
Proof.
  induction text as [|c text IH].
  - cbn [energy_search]. destruct (energy_match_at "") as [g'|] eqn:E; [|discriminate].
    intros [= <-]. exists "", "". split; [reflexivity|].
    apply energy_match_at_sound, E.
  - cbn [energy_search].
    destruct (energy_match_at (String c text)) as [g'|] eqn:E.
    + intros [= <-]. exists "", (String c text). split; [reflexivity|].
      apply energy_match_at_sound, E.
    + intros Hs. destruct (IH Hs) as (pre & s & -> & Hm).
      exists (String c pre), s. auto.
Qed.

Lemma energy_search_complete (pre s g : string) :
  energy_match s g -> is_Some (energy_search (pre +:+ s)).
Proof.
  intros Hm. apply energy_match_at_complete in Hm.
  induction pre as [|c pre IH].
  - simpl. destruct s; cbn [energy_search]; rewrite Hm; eauto.
  - change (String c pre +:+ s) with (String c (pre +:+ s)).
    cbn [energy_search].
    destruct (energy_match_at (String c (pre +:+ s))); [eauto | exact IH].
Qed.

Section ParseEnergy.
Context `{PyFormat} `{Collaborators}.

Lemma reads_parse_energy (path : string) : reads_only (parse_energy path).
Proof. unfold parse_energy. reads. Qed.

(** X1. [parse_energy] changes nothing. Without the log file it raises
    [FileNotFoundError] for that file. An energy it returns is the number
    read from the group of a match of the pattern (the words TOTAL ENERGY,
    white space, a run of digits, dots and minus signs, then [ Eh])
    somewhere in the log. When the log holds such a match, the
    [TypeError] of subscripting [None] is not raised. *)
Theorem parse_energy_outcomes (path : string) (st : State) :
  let log_file := path_join path (out_fn (self st)) in
  snd (parse_energy path st) = st
  /\ (files (world st) !! log_file = None ->
      fst (parse_energy path st) = Raise (Exn FileNotFoundError log_file))
  /\ (forall e : float,
        fst (parse_energy path st) = Ok e ->
        exists text pre s g,
          files (world st) !! log_file = Some text
          /\ text = pre +:+ s /\ energy_match s g
          /\ float_of_str g = Some e)
  /\ (forall text pre s g msg,
        files (world st) !! log_file = Some text ->
        text = pre +:+ s -> energy_match s g ->
        fst (parse_energy path st) <> Raise (Exn TypeError msg)).
Proof.
  intros log_file. split; [apply reads_parse_energy|].
  unfold parse_energy. rewrite bind_unfold. cbn [get_self fst snd].
  fold log_file. split; [|split].
  - intros Hf. rewrite bind_unfold, (read_file_None _ _ Hf). reflexivity.
  - intros e. rewrite bind_unfold.
    destruct (files (world st) !! log_file) as [text|] eqn:Hf.
    + rewrite (read_file_Some _ _ _ Hf).
      destruct (energy_search text) as [g|] eqn:Hs; [|discriminate].
      destruct (float_of_str g) as [e'|] eqn:Hg; [|discriminate].
      intros [= <-]. destruct (energy_search_sound _ _ Hs) as (pre & s & -> & Hm).
      exists (pre +:+ s), pre, s, g. auto.
    + rewrite (read_file_None _ _ Hf). discriminate.
  - intros text pre s g msg Hf -> Hm.
    rewrite bind_unfold, (read_file_Some _ _ _ Hf).
    destruct (energy_search_complete pre s g Hm) as [g' ->].
    destruct (float_of_str g'); simpl; discriminate.
Qed.
End ParseEnergy.


Section ParserEdges.
Context `{PyFormat} `{Collaborators}.

Lemma reads_parse_md (path : string) : reads_only (parse_md path).
Proof. unfold parse_md. reads. Qed.

Lemma reads_parse_hessian (path : string) : reads_only (parse_hessian path).
Proof.
  unfold parse_hessian. reads.
Qed.

Lemma path_exists_eq (p : string) (st : State) :
  path_exists p st = (Ok (bool_decide (is_Some (files (world st) !! p))), st).
Proof. reflexivity. Qed.

(** X2. [parse_md] changes nothing. Without the file [xtbmdok] in the
    directory it fails its assertion; with it, the result is whatever
    loading the trajectory [xtb.trj] gives, an error included. *)
Theorem parse_md_marker (path : string) (st : State) :
  snd (parse_md path st) = st
  /\ (files (world st) !! path_join path "xtbmdok" = None ->
      fst (parse_md path st)
      = Raise (Exn AssertionError "File xtbmdok does not exist!"))
  /\ (is_Some (files (world st) !! path_join path "xtbmdok") ->
      fst (parse_md path st)
      = match geom_loader (path_join path "xtb.trj") (world st) with
        | Ok geoms => Ok (RLoaded geoms)
        | Raise e => Raise e
        end).
Proof.
  split; [apply reads_parse_md|].
  unfold parse_md. rewrite bind_unfold, path_exists_eq. split.
  - intros Hf. rewrite Hf.
    rewrite bool_decide_eq_false_2 by (intros [? ?]; discriminate).
    reflexivity.
  - intros Hf. rewrite bool_decide_eq_true_2 by exact Hf.
    repeat (rewrite bind_unfold; simpl). unfold lift_read. simpl.
    destruct (geom_loader _ _); reflexivity.
Qed.

(** X3. [parse_opt] returns [None] exactly when [xtbopt.xyz] is
    missing from the directory. It never changes the instance, the files
    or the events, and it writes to the log only in that failed case. *)
Theorem parse_opt_none_iff (path : string) (keep_log : bool) (st : State) :
  (fst (parse_opt path keep_log st) = Ok RNone
   <-> files (world st) !! path_join path "xtbopt.xyz" = None)
  /\ self (snd (parse_opt path keep_log st)) = self st
  /\ world (snd (parse_opt path keep_log st)) = world st
  /\ events (snd (parse_opt path keep_log st)) = events st
  /\ (is_Some (files (world st) !! path_join path "xtbopt.xyz") ->
      log (snd (parse_opt path keep_log st)) = log st).
Proof.
  unfold parse_opt. rewrite bind_unfold, path_exists_eq.
  destruct (files (world st) !! path_join path "xtbopt.xyz") as [c|] eqn:Hf.
  - rewrite bool_decide_eq_true_2 by eauto. cbn [negb].
    set (m := (lift_read (geom_loader (path_join path "xtbopt.xyz")) ≫= _)).
    assert (Hm : reads_only m).
    { subst m. reads. }
    rewrite (surjective_pairing (m st)), (Hm st). cbn [fst snd].
    split; [|auto].
    split; [|discriminate]. subst m.
    rewrite bind_unfold. unfold lift_read at 1. cbn [fst snd].
    destruct (geom_loader _ _) as [lg|e]; [|discriminate].
    rewrite bind_unfold.
    rewrite (surjective_pairing (parse_energy path st)), reads_parse_energy.
    destruct (fst (parse_energy path st)) as [en|e]; [|discriminate].
    destruct lg as [g|gs]; [|discriminate].
    repeat (rewrite bind_unfold; cbn [mret M_ret fst snd]).
    destruct keep_log.
    + repeat (rewrite bind_unfold; cbn [mret M_ret fst snd lift_read]).
      destruct (geom_loader _ _); discriminate.
    + discriminate.
  - rewrite bool_decide_eq_false_2 by (intros [? ?]; discriminate).
    cbn. split; [tauto|]. repeat split; try reflexivity.
    intros [? ?]. discriminate.
Qed.

(** X4. When [xtbopt.xyz] holds one geometry and the energy can be read
    from the log, [parse_opt] returns that geometry with the energy set
    and no optimisation log; with [keep_log] it also loads [xtbopt.log],
    and fails if that cannot be loaded. The state is unchanged. *)
Theorem parse_opt_found (path : string) (g : Geometry) (e : float) (st : State) :
  is_Some (files (world st) !! path_join path "xtbopt.xyz") ->
  geom_loader (path_join path "xtbopt.xyz") (world st) = Ok (OneGeom g) ->
  fst (parse_energy path st) = Ok e ->
  parse_opt path false st
  = (Ok (ROpt {| opt_geom := OneGeom (set_geom_energy g e); opt_log := None |}),
     st)
  /\ parse_opt path true st
     = (match geom_loader (path_join path "xtbopt.log") (world st) with
        | Ok l =>
            Ok (ROpt {| opt_geom := OneGeom (set_geom_energy g e);
                        opt_log := Some l |})
        | Raise err => Raise err
        end, st).
Proof.
  intros Hf Hg He.
  assert (Hpe : parse_energy path st = (Ok e, st)).
  { rewrite (surjective_pairing (parse_energy path st)), reads_parse_energy, He.
    reflexivity. }
  split; unfold parse_opt; rewrite bind_unfold, path_exists_eq;
    rewrite bool_decide_eq_true_2 by exact Hf; cbn [negb];
    rewrite bind_unfold; unfold lift_read at 1; rewrite Hg;
    rewrite bind_unfold, Hpe.
  - reflexivity.
  - repeat (rewrite bind_unfold; cbn [mret M_ret fst snd lift_read]).
    destruct (geom_loader (path_join path "xtbopt.log") (world st));
      reflexivity.
Qed.
End ParserEdges.

Section MoreParsers.
Context `{PyFormat} `{Collaborators}.

(** X5. [parse_topo] raises [FileNotFoundError] and changes nothing
    when the run left no [gfnff_topo]. Otherwise it copies that file to
    the name that [make_fn] gives, leaves every other file, the instance
    and the log alone, and returns that name under the key [topo]. *)
Theorem parse_topo_copies (path : string) (st : State) :
  let src := path_join path "gfnff_topo" in
  let target := make_fn "gfnff_topo" (world st) in
  match files (world st) !! src with
  | None => parse_topo path st = (Raise (Exn FileNotFoundError src), st)
  | Some content =>
      exists st',
        parse_topo path st = (Ok (RDict (<["topo" := VPath target]> ∅)), st')
        /\ files (world st') !! target = Some content
        /\ (forall p : string,
              p <> target -> files (world st') !! p = files (world st) !! p)
        /\ self st' = self st /\ log st' = log st
        /\ events st' = events st ++ [EvCopy src target]
  end.
Proof.
  intros src target. unfold parse_topo. rewrite bind_unfold.
  cbn [get_world fst snd]. fold src target.
  unfold copy_file. rewrite !bind_unfold. cbn [get_world fst snd].
  destruct (files (world st) !! src) as [content|] eqn:Hsrc; [|reflexivity].
  repeat (rewrite bind_unfold; cbn [put_world emit mret M_ret fst snd]).
  eexists. split; [reflexivity|]. cbn.
  split; [apply lookup_insert_eq|].
  split; [intros p Hp; apply lookup_insert_ne; congruence|]. auto.
Qed.

(** X6. [parse_hessian] changes nothing. Without the file [hessian]
    it raises [FileNotFoundError]; a file with no token after the first
    gives the empty matrix (and needs the energy of the log); a token
    that is no number gives [ValueError]. *)
Theorem parse_hessian_edges (path : string) (st : State) :
  let file := path_join path "hessian" in
  snd (parse_hessian path st) = st
  /\ (files (world st) !! file = None ->
      fst (parse_hessian path st) = Raise (Exn FileNotFoundError file))
  /\ (forall text : string,
        files (world st) !! file = Some text ->
        tail (split text) = [] ->
        parse_hessian path st
        = (energy ← parse_energy path; mret (hessian_results energy [])) st)
  /\ (forall text : string,
        files (world st) !! file = Some text ->
        np_array (tail (split text)) = None ->
        fst (parse_hessian path st)
        = Raise (Exn ValueError "could not convert string to float")).
Proof.
  intros file. subst file. split; [apply reads_parse_hessian|].
  split; [|split].
  - intros Hf. unfold parse_hessian.
    rewrite bind_unfold, (read_file_None _ _ Hf). reflexivity.
  - intros text Hf Ht. rewrite (parse_hessian_eq path text st Hf), Ht.
    reflexivity.
  - intros text Hf Ht. rewrite (parse_hessian_eq path text st Hf), Ht.
    reflexivity.
Qed.

(** X7. Without [retry_etemp], [get_retry_args] returns no argument
    and logs nothing. With one it returns [--etemp] followed by the
    value, and adds one line to the log; nothing else changes. *)
Theorem get_retry_args_spec (st : State) :
  match retry_etemp (self st) with
  | None => get_retry_args st = (Ok [], st)
  | Some t =>
      get_retry_args st
      = (Ok ("--etemp" :: match t with
                          | NInt n => [str_of_int n]
                          | NFloat x => split (float_str x)
                          end),
         {| self := self st; world := world st;
            log := log st ++ ["Retrying calculation with increased etemp="
                              +:+ number_str t];
            events := events st |})
  end.
Proof.
  unfold get_retry_args. rewrite bind_unfold. cbn [get_self fst snd].
  destruct (retry_etemp (self st)) as [t|] eqn:Ht; [|reflexivity].
  rewrite bind_unfold. cbn [log_msg mret M_ret fst snd].
  unfold retry_args. rewrite Ht.
  rewrite <- number_str_tokens.
  rewrite <- (split_flag "--etemp" (number_str t)) by reflexivity.
  reflexivity.
Qed.

(** X8. [get_pal_env] returns a copy of the environment in which
    [OMP_NUM_THREADS] and [MKL_NUM_THREADS] are [pal] and [OMP_STACKSIZE]
    is [mem] followed by [M]; every other variable is as in the
    environment, and the environment itself is not changed. *)
Theorem get_pal_env_spec (st : State) :
  exists env : gmap string string,
    get_pal_env st = (Ok env, st)
    /\ env !! "OMP_NUM_THREADS" = Some (str_of_int (pal (self st)))
    /\ env !! "MKL_NUM_THREADS" = Some (str_of_int (pal (self st)))
    /\ env !! "OMP_STACKSIZE" = Some (str_of_int (mem (self st)) +:+ "M")
    /\ forall k : string,
         k <> "OMP_NUM_THREADS" -> k <> "MKL_NUM_THREADS" ->
         k <> "OMP_STACKSIZE" ->
         env !! k = environ (world st) !! k.
Proof.
  eexists. split; [reflexivity|].
  split; [rewrite !lookup_insert_ne by discriminate; apply lookup_insert_eq|].
  split; [rewrite lookup_insert_ne by discriminate; apply lookup_insert_eq|].
  split; [apply lookup_insert_eq|].
  intros k H1 H2 H3. rewrite !lookup_insert_ne by congruence. reflexivity.
Qed.

(** X9. [prepare_coords] changes nothing. It raises [ValueError] when
    the number of coordinates is no multiple of three; otherwise its
    outcome is that of [make_xyz_str], the text or the exception, on the
    atoms and on rows of three numbers, a third of the coordinates in
    number, which read in order are the coordinates times [BOHR2ANG]. *)
Theorem prepare_coords_triples (atoms : list string) (coords : list float)
    (st : State) :
  snd (prepare_coords atoms coords st) = st
  /\ ((length coords mod 3 <> 0)%nat ->
      fst (prepare_coords atoms coords st)
      = Raise (Exn ValueError "cannot reshape array"))
  /\ ((length coords mod 3 = 0)%nat ->
      exists rows : list (list float),
        fst (prepare_coords atoms coords st) = make_xyz_str atoms rows
        /\ length rows = (length coords / 3)%nat
        /\ List.Forall (fun row => length row = 3%nat) rows
        /\ concat rows
           = List.map (fun x => PrimFloat.mul x BOHR2ANG) coords).
Proof.
  assert (Hlen : forall k, length (scale k coords) = length coords)
    by (intros k; unfold scale; apply length_map).
  unfold prepare_coords, reshape3. rewrite Hlen.
  destruct (length coords mod 3 =? 0)%nat eqn:E.
  - apply Nat.eqb_eq in E. split; [reflexivity|]. split; [congruence|].
    intros _. eexists. split; [reflexivity|].
    split; [apply rows_of_length|].
    apply rows_of_rows. unfold scale in *. rewrite length_map.
    rewrite (Nat.div_mod (length coords) 3) at 1 by lia. lia.
  - apply Nat.eqb_neq in E. split; [reflexivity|]. split; [reflexivity|].
    congruence.
Qed.
End MoreParsers.

(** ** Updating a dict *)

Section DictFacts.
Context {V : Type}.
Implicit Types (d other : dict V).

Lemma dict_get_set (k k' : string) (v : V) d :
  dict_get k (dict_set k' v d)
  = if String.eqb k k' then Some v else dict_get k d.
Proof.
  induction d as [|[k1 v1] d IH]; simpl.
  - reflexivity.
  - destruct (String.eqb_spec k' k1) as [->|Hne]; simpl.
    + destruct (String.eqb k k1); reflexivity.
    + rewrite IH. destruct (String.eqb_spec k k1) as [->|Hk]; [|reflexivity].
      destruct (String.eqb_spec k1 k'); [congruence | reflexivity].
Qed.

Lemma dict_get_None_keys (k : string) d :
  dict_get k d = None <-> ~ In k (List.map fst d).
Proof.
  induction d as [|[k1 v1] d IH]; simpl; [tauto|].
  destruct (String.eqb_spec k k1) as [->|Hne].
  - split; [discriminate | intros Hn; exfalso; auto].
  - rewrite IH. split; [intros Hn [?|?]; [congruence | auto] | auto].
Qed.

Lemma dict_get_update (k : string) d other :
  dict_wf other ->
  dict_get k (dict_update d other)
  = match dict_get k other with
    | Some v => Some v
    | None => dict_get k d
    end.
Proof.
  unfold dict_update, dict_wf. revert d.
  induction other as [|[k1 v1] other IH]; intros d Hwf; simpl; [reflexivity|].
  apply List.NoDup_cons_iff in Hwf as [Hnotin Hwf]. simpl in Hnotin.
  rewrite (IH _ Hwf), dict_get_set.
  destruct (String.eqb_spec k k1) as [->|Hne]; [|reflexivity].
  apply dict_get_None_keys in Hnotin. rewrite Hnotin. reflexivity.
Qed.

Lemma dict_set_keys (k : string) (v : V) d :
  List.map fst (dict_set k v d)
  = match dict_get k d with
    | Some _ => List.map fst d
    | None => List.map fst d ++ [k]
    end.
Proof.
  induction d as [|[k1 v1] d IH]; simpl; [reflexivity|].
  destruct (String.eqb_spec k k1) as [->|Hne]; simpl; [reflexivity|].
  rewrite IH. destruct (dict_get k d); reflexivity.
Qed.

Lemma dict_set_wf (k : string) (v : V) d : dict_wf d -> dict_wf (dict_set k v d).
Proof.
  unfold dict_wf. intros Hwf. rewrite dict_set_keys.
  destruct (dict_get k d) eqn:E; [exact Hwf|].
  apply dict_get_None_keys in E.
  apply List.NoDup_app; [exact Hwf | repeat constructor; intros [] |].
  intros x Hx [<-|[]]. contradiction.
Qed.

Lemma dict_update_wf d other : dict_wf d -> dict_wf (dict_update d other).
Proof.
  unfold dict_update. revert d.
  induction other as [|[k1 v1] other IH]; intros d Hwf; simpl; [exact Hwf|].
  apply IH, dict_set_wf, Hwf.
Qed.

Lemma dict_set_Forall (P : string * V -> Prop) (k : string) (v : V) d :
  P (k, v) -> List.Forall P d -> List.Forall P (dict_set k v d).
Proof.
  intros Hv. induction 1 as [|[k1 v1] d H1 Hd IH]; simpl.
  - repeat constructor. exact Hv.
  - destruct (String.eqb k k1); constructor; auto.
Qed.

Lemma dict_update_Forall (P : string * V -> Prop) d other :
  List.Forall P d -> List.Forall P other -> List.Forall P (dict_update d other).
Proof.
  unfold dict_update. intros Hd Ho. revert d Hd.
  induction Ho as [|[k1 v1] other H1 Ho IH]; intros d Hd; simpl; [exact Hd|].
  apply IH, dict_set_Forall; assumption.
Qed.
End DictFacts.

Lemma options_update_wf (base user : options) :
  options_wf base -> options_wf user -> options_wf (dict_update base user).
Proof.
  intros [Hb Hbe] [Hu Hue]. split.
  - apply dict_update_wf, Hb.
  - apply dict_update_Forall; assumption.
Qed.

Lemma options_update_equiv (base o1 o2 : options) :
  dict_wf o1 -> dict_wf o2 -> options_equiv o1 o2 ->
  options_equiv (dict_update base o1) (dict_update base o2).
Proof.
  intros H1 H2 Heq name. specialize (Heq name).
  rewrite (dict_get_update name base o1 H1), (dict_get_update name base o2 H2).
  unfold options, dict in *.
  destruct (dict_get name o1), (dict_get name o2); try contradiction;
    [exact Heq|].
  destruct (dict_get name base); [intros k; reflexivity | exact I].
Qed.

Section UpdateRender.
Context `{PyFormat}.

(** X10. The text of the control file for defaults updated with the
    options of the user does not depend on the order in which the user
    entered the sections and their entries. *)
Theorem format_xcontrol_update_order (base o1 o2 : options) :
  options_wf base -> options_wf o1 -> options_wf o2 -> options_equiv o1 o2 ->
  format_xcontrol (dict_update base o1) = format_xcontrol (dict_update base o2).
Proof.
  intros Hb H1 H2 Heq. apply format_xcontrol_equiv.
  - apply options_update_wf; assumption.
  - apply options_update_wf; assumption.
  - apply options_update_equiv; [apply H1 | apply H2 | exact Heq].
Qed.
End UpdateRender.

(** ** What input staging does in every outcome *)

Lemma adds_emit_any (e : event) : adds any_event (emit e).
Proof. apply adds_emit. exact I. Qed.

Lemma adds_write_any (p text : string) : adds any_event (write_file p text).
Proof. apply adds_write_file. exact I. Qed.

Lemma adds_copy_any (src dst : string) : adds any_event (copy_file src dst).
Proof. apply adds_copy_file. exact I. Qed.

Lemma adds_write_no_run (p text : string) : adds no_run (write_file p text).
Proof. apply adds_write_file. reflexivity. Qed.

Lemma adds_copy_no_run (src dst : string) : adds no_run (copy_file src dst).
Proof. apply adds_copy_file. reflexivity. Qed.

#[local] Hint Resolve adds_emit_any adds_write_any adds_copy_any
  adds_write_no_run adds_copy_no_run : frame.

Lemma set_topo_used_same (x : XTB) : set_topo_used (topo_used x) x = x.
Proof. destruct x. reflexivity. Qed.

Lemma bind_Raise {A B} (m : M A) (k : A -> M B) (st st1 : State) (e : exn) :
  m st = (Raise e, st1) -> (m ≫= k) st = (Raise e, st1).
Proof. intros Hm. rewrite bind_unfold, Hm. reflexivity. Qed.

Section Staging.
Context `{PyFormat} `{Collaborators}.

Lemma adds_any_run (rq : run_request) : adds any_event (run rq).
Proof.
  unfold run, parser_funcs, parse_gradient, parse_hessian, parse_opt,
    parse_md, parse_topo, parse_energy.
  frame.
Qed.

Lemma adds_any_refresh atoms coords : adds any_event (refresh_stage atoms coords).
Proof.
  unfold refresh_stage, run_topo, prepare_coords, get_pal_env, result_topo.
  frame; apply adds_any_run.
Qed.

Lemma adds_no_run_copy (path : string) : adds no_run (copy_stage path).
Proof. unfold copy_stage. frame. Qed.

Lemma adds_no_run_restart (path : string) : adds no_run (restart_stage path).
Proof. unfold restart_stage. frame. Qed.

Lemma keeps_restart (path : string) : keeps_self (restart_stage path).
Proof. unfold restart_stage. frame. Qed.

Lemma copy_stage_self (path : string) (st : State) :
  exists n, self (snd (copy_stage path st)) = set_topo_used n (self st).
Proof.
  unfold copy_stage. rewrite bind_unfold. cbn [get_self].
  destruct (topo_set (self st)).
  - rewrite bind_unfold.
    pose proof (keeps_copy_file (default "" (topo (self st)))
                  (path_join path "gfnff_topo") st) as Hk.
    destruct (copy_file _ _ st) as [[[]|e] st1]; simpl in Hk |- *.
    + eexists. reflexivity.
    + exists (topo_used (self st)). rewrite Hk, set_topo_used_same. reflexivity.
  - exists (topo_used (self st)). rewrite set_topo_used_same. reflexivity.
Qed.

Lemma saved_charges_no_run (pc : option (list (list float))) (w : World) :
  List.Forall no_run (saved_charges pc w).
Proof. destruct pc; repeat constructor. Qed.

Lemma control_stage_content (pc : option (list (list float))) (st : State) :
  let path := fst (prepare_path (world st)) in
  let w0 := snd (prepare_path (world st)) in
  let pc_fn := option_map (fun _ => make_fn "pointcharges_inp.pc" w0) pc in
  let text := format_xcontrol (staged_options pc_fn (xtb_options (self st))) in
  exists w1,
    control_stage pc st
    = (Ok path,
       {| self := self st; world := w1; log := log st;
          events := events st ++ saved_charges pc w0
                    ++ [EvWrite (path_join path "xcontrol") text] |})
    /\ files w1 !! path_join path "xcontrol" = Some text.
Proof.
  unfold control_stage, lift_world.
  destruct (prepare_path (world st)) as [path w] eqn:Ep.
  rewrite bind_unfold. simpl. rewrite Ep.
  destruct pc as [pc|]; repeat (rewrite bind_unfold; simpl);
    rewrite <- ?app_assoc;
    (eexists; split; [reflexivity | apply lookup_insert_eq]).
Qed.

(** The rest of [prepare_input] once the control file is written. *)
Lemma prepare_input_after_control atoms coords calc_type pc (st : State) :
  exists path st1,
    control_stage pc st = (Ok path, st1)
    /\ prepare_input atoms coords calc_type pc st
       = (refresh_stage atoms coords;; copy_stage path;; restart_stage path) st1.
Proof.
  destruct (control_stage_content pc st) as (w1 & Hc & _).
  eexists. eexists. split; [exact Hc|].
  rewrite prepare_input_stages, bind_unfold, Hc. reflexivity.
Qed.

(** X11. [prepare_input] begins by saving the point charges, when some
    are passed, and then writes the control file into the working
    directory; whatever else it does to the outside comes after these.
    The options of the control file are those of the user, and for a
    section the user did not give: [json=true] under [write], and the
    point-charge file with the [orca] interface under [embedding] when
    point charges are passed. A section of the user replaces the default
    section as a whole. *)
Theorem prepare_input_control_file atoms coords calc_type pc (st : State) :
  let path := fst (prepare_path (world st)) in
  let w0 := snd (prepare_path (world st)) in
  let pc_fn := option_map (fun _ => make_fn "pointcharges_inp.pc" w0) pc in
  let o := staged_options pc_fn (xtb_options (self st)) in
  (exists rest,
     events (snd (prepare_input atoms coords calc_type pc st))
     = events st
       ++ match pc with
          | Some charges => [EvSavePc charges (make_fn "pointcharges_inp.pc" w0)]
          | None => []
          end
       ++ EvWrite (path_join path "xcontrol") (format_xcontrol o) :: rest)
  /\ (dict_wf (xtb_options (self st)) ->
      forall name : string,
        dict_get name o
        = match dict_get name (xtb_options (self st)) with
          | Some entries => Some entries
          | None =>
              if String.eqb name "write" then Some [("json", XBool true)]
              else if String.eqb name "embedding" then
                option_map (fun fn => [("input", XStr fn);
                                       ("interface", XStr "orca")]) pc_fn
              else None
          end).
Proof.
  intros path w0 pc_fn o. split.
  - destruct (control_stage_content pc st) as (w1 & Hc & _).
    fold path w0 pc_fn o in Hc.
    rewrite prepare_input_stages, bind_unfold, Hc.
    match goal with
    | |- context [ ?m ?s ] =>
        match m with
        | (refresh_stage _ _ ≫= _) =>
            assert (Hm : adds any_event m);
            [|destruct (Hm s) as (evs & He & _); exists evs; rewrite He]
        end
    end.
    + apply adds_bind; [apply adds_any_refresh|]. intros _.
      apply adds_bind; [|intros _].
      * eapply adds_weaken; [|apply adds_no_run_copy]. intros; exact I.
      * eapply adds_weaken; [|apply adds_no_run_restart]. intros; exact I.
    + simpl. unfold saved_charges. rewrite <- !app_assoc. reflexivity.
  - intros Hwf name. subst o. unfold staged_options.
    rewrite dict_get_update by exact Hwf.
    destruct (dict_get name (xtb_options (self st))); [reflexivity|].
    destruct pc_fn as [fn|]; simpl.
    + destruct (String.eqb name "write"); [reflexivity|].
      destruct (String.eqb name "embedding"); reflexivity.
    + destruct (String.eqb name "write"); [reflexivity|].
      destruct (String.eqb name "embedding"); reflexivity.
Qed.
End Staging.

Section NotDue.
Context `{PyFormat} `{Collaborators}.

Lemma control_stage_state (pc : option (list (list float))) (st : State) :
  exists path st1,
    control_stage pc st = (Ok path, st1)
    /\ path = fst (prepare_path (world st))
    /\ self st1 = self st
    /\ exists text,
         events st1
         = events st ++ saved_charges pc (snd (prepare_path (world st)))
           ++ [EvWrite (path_join path "xcontrol") text].
Proof.
  destruct (control_stage_content pc st) as (w1 & Hc & _).
  eexists. eexists. split; [exact Hc|]. simpl. eauto.
Qed.

(** After the control file: the copy and the restart file, no run. *)
Lemma copy_restart_frame (path : string) (st : State) :
  let st' := snd ((copy_stage path;; restart_stage path) st) in
  (exists evs, events st' = events st ++ evs /\ List.Forall no_run evs)
  /\ (exists n, self st' = set_topo_used n (self st))
  /\ (topo_set (self st) = false -> self st' = self st).
Proof.
  intros st'. subst st'. split; [|split].
  - assert (Hm : adds no_run (copy_stage path;; restart_stage path)).
    { apply adds_bind; [apply adds_no_run_copy|]. intros _.
      apply adds_no_run_restart. }
    apply Hm.
  - rewrite bind_unfold. destruct (copy_stage_self path st) as [n Hn].
    destruct (copy_stage path st) as [[[]|e] st1]; simpl in *.
    + exists n. rewrite keeps_restart. exact Hn.
    + exists n. exact Hn.
  - intros Hset. rewrite bind_unfold, (copy_not_set path st Hset).
    apply keeps_restart.
Qed.

Lemma prepare_input_not_due atoms coords calc_type pc (st : State) :
  topo_due (self st) = false ->
  let st' := snd (prepare_input atoms coords calc_type pc st) in
  (exists evs, events st' = events st ++ evs /\ List.Forall no_run evs)
  /\ (exists n, self st' = set_topo_used n (self st))
  /\ (topo_set (self st) = false -> self st' = self st).
Proof.
  intros Hdue st'. subst st'.
  destruct (control_stage_state pc st)
    as (path & st1 & Hc & _ & Hs1 & text & He1).
  rewrite prepare_input_stages, bind_unfold, Hc.
  rewrite bind_unfold, refresh_not_due by (rewrite Hs1; exact Hdue).
  destruct (copy_restart_frame path st1) as ((evs & He & Hp) & Hn & Hset).
  rewrite Hs1 in Hn, Hset. split; [|split; assumption].
  exists (saved_charges pc (snd (prepare_path (world st)))
          ++ EvWrite (path_join path "xcontrol") text :: evs).
  rewrite He, He1, <- !app_assoc. split; [reflexivity|].
  apply List.Forall_app. split; [apply saved_charges_no_run|].
  constructor; [reflexivity | exact Hp].
Qed.

(** X12. An instance without topology file and with no rebuild due (as
    after [__init__]), whatever the number of calls of [prepare_input]:
    the program is never run by them and the attributes of the instance
    stay as they are. *)
Theorem prepare_inputs_without_topology (calls : list prepare_args) (st : State) :
  topo_set (self st) = false ->
  topo_due (self st) = false ->
  let st' := snd (prepare_inputs calls st) in
  self st' = self st
  /\ exists evs, events st' = events st ++ evs /\ List.Forall no_run evs.
Proof.
  revert st. induction calls as [|a calls IH]; intros st Hset Hdue st'; subst st'.
  - split; [reflexivity|]. exists []. rewrite app_nil_r. auto.
  - cbn [prepare_inputs]. rewrite bind_unfold. unfold prepare_input_with.
    destruct (prepare_input_not_due (pa_atoms a) (pa_coords a)
                (pa_calc_type a) (pa_point_charges a) st Hdue)
      as ((evs & He & Hp) & _ & Hself).
    specialize (Hself Hset).
    destruct (prepare_input _ _ _ _ st) as [[[]|e] st1]; simpl in *.
    + destruct (IH st1) as (Hs & evs2 & He2 & Hp2);
        [rewrite Hself; exact Hset | rewrite Hself; exact Hdue |].
      split; [rewrite Hs; exact Hself|].
      exists (evs ++ evs2). rewrite He2, He, app_assoc.
      split; [reflexivity | apply List.Forall_app; auto].
    + split; [exact Hself|]. exists evs. auto.
Qed.

Lemma no_interval_not_due (x : XTB) :
  topo_update x = None \/ topo_update x = Some 0 -> topo_due x = false.
Proof.
  unfold topo_due. intros [-> | ->]; apply andb_false_r.
Qed.

(** X13. Without an update interval, or with the interval 0, the calls
    of [prepare_input] never run the program, and the topology file and
    the interval stay the same. *)
Theorem prepare_inputs_without_interval (calls : list prepare_args) (st : State) :
  topo_update (self st) = None \/ topo_update (self st) = Some 0 ->
  let st' := snd (prepare_inputs calls st) in
  topo (self st') = topo (self st)
  /\ topo_update (self st') = topo_update (self st)
  /\ exists evs, events st' = events st ++ evs /\ List.Forall no_run evs.
Proof.
  revert st. induction calls as [|a calls IH]; intros st Hupd st'; subst st'.
  - split; [reflexivity|]. split; [reflexivity|].
    exists []. rewrite app_nil_r. auto.
  - cbn [prepare_inputs]. rewrite bind_unfold. unfold prepare_input_with.
    destruct (prepare_input_not_due (pa_atoms a) (pa_coords a)
                (pa_calc_type a) (pa_point_charges a) st
                (no_interval_not_due _ Hupd))
      as ((evs & He & Hp) & (n & Hn) & _).
    destruct (prepare_input _ _ _ _ st) as [[[]|e] st1]; simpl in *.
    + destruct (IH st1) as (Ht & Hu & evs2 & He2 & Hp2);
        [rewrite Hn; exact Hupd|].
      rewrite Ht, Hu, Hn. split; [reflexivity|]. split; [reflexivity|].
      exists (evs ++ evs2). rewrite He2, He, app_assoc.
      split; [reflexivity | apply List.Forall_app; auto].
    + rewrite Hn. split; [reflexivity|]. split; [reflexivity|].
      exists evs. auto.
Qed.

(** X14. When the topology file that is configured does not exist and
    no rebuild is due, [prepare_input] raises [FileNotFoundError] for it:
    by then the point charges, if any, are saved and the control file is
    written, the counter is not incremented and nothing is logged. *)
Theorem prepare_input_missing_topology atoms coords calc_type pc
    (t : string) (st : State) :
  let st1 := snd (control_stage pc st) in
  topo_due (self st) = false ->
  topo (self st) = Some t -> is_empty t = false ->
  files (world st1) !! t = None ->
  prepare_input atoms coords calc_type pc st
  = (Raise (Exn FileNotFoundError t), st1)
  /\ self st1 = self st
  /\ log st1 = log st
  /\ exists text,
       events st1
       = events st
         ++ match pc with
            | Some charges =>
                [EvSavePc charges
                   (make_fn "pointcharges_inp.pc"
                      (snd (prepare_path (world st))))]
            | None => []
            end
         ++ [EvWrite (path_join (fst (prepare_path (world st))) "xcontrol") text].
Proof.
  intros st1 Hdue Ht Hne Hfile. subst st1.
  destruct (control_stage_content pc st) as (w1 & Hc & _).
  rewrite Hc in Hfile |- *. cbn [snd world] in Hfile. cbn [snd].
  split; [|split; [reflexivity | split; [reflexivity | eauto]]].
  rewrite prepare_input_stages, bind_unfold, Hc.
  rewrite bind_unfold, refresh_not_due by exact Hdue.
  rewrite bind_unfold.
  apply bind_Raise. unfold copy_stage. rewrite bind_unfold. cbn [get_self].
  unfold topo_set. cbn [self]. rewrite Ht, Hne. cbn [negb default].
  apply bind_Raise. unfold copy_file. rewrite bind_unfold.
  cbn [get_world world fst snd]. change (id t) with t.
  rewrite Hfile. reflexivity.
Qed.
End NotDue.

(** ** The schedule of the topology *)

Section TopoTheorem.
Context `{PyFormat} `{Collaborators}.

Lemma keeps_run_topo (atoms : list string) (coords : list float) :
  keeps_self (run_topo atoms coords).
Proof.
  unfold run_topo, prepare_coords, get_pal_env, run, parser_funcs, parse_topo.
  cbn [rq_calc String.eqb Ascii.eqb Bool.eqb]. frame.
Qed.

(** A rebuild that raises leaves the instance as it was. *)
Lemma refresh_raises atoms coords (st st' : State) (e : exn) :
  refresh_stage atoms coords st = (Raise e, st') -> self st' = self st.
Proof.
  unfold refresh_stage. rewrite bind_unfold. cbn [get_self].
  destruct (topo_due (self st)); [|discriminate].
  rewrite bind_unfold.
  pose proof (keeps_run_topo atoms coords st) as Hk.
  destruct (run_topo atoms coords st) as [[r|e1] st1]; cbn [snd] in Hk.
  - rewrite bind_unfold. unfold result_topo.
    destruct r as [| |d| |]; try (intros [= _ <-]; exact Hk).
    destruct (d !! "topo") as [[| | |p]|]; intros [= _ <-]; exact Hk.
  - intros [= _ <-]. exact Hk.
Qed.

Lemma prepare_input_step (a : prepare_args) (st st' : State) :
  (forall (name : string) (w : World), is_empty (make_fn name w) = false) ->
  topo_set (self st) = true ->
  prepare_input_with a st = (Ok tt, st') ->
  exists xc copies,
    List.Forall no_run copies
    /\ topo_update (self st') = topo_update (self st)
    /\ topo_set (self st') = true
    /\ topo_used (self st') = topo_used (self st) + 1
    /\ let path := fst (prepare_path (world st)) in
       let saved :=
         saved_charges (pa_point_charges a) (snd (prepare_path (world st))) in
       if topo_due (self st) then
         exists rq dir target,
           rq_calc rq = "topo"
           /\ topo (self st') = Some target
           /\ events st'
              = events st ++ saved
                ++ [EvWrite (path_join path "xcontrol") xc; EvRun rq;
                    EvCopy (path_join dir "gfnff_topo") target;
                    EvCopy target (path_join path "gfnff_topo")]
                ++ copies
       else
         exists t,
           topo (self st) = Some t /\ topo (self st') = Some t
           /\ events st'
              = events st ++ saved
                ++ [EvWrite (path_join path "xcontrol") xc;
                    EvCopy t (path_join path "gfnff_topo")]
                ++ copies.
Proof.
  intros Hfn Hset Hrun. unfold prepare_input_with in Hrun.
  rewrite prepare_input_stages in Hrun.
  destruct (control_stage_eq (pa_point_charges a) st) as (w1 & xc & Hctl).
  rewrite bind_unfold, Hctl in Hrun.
  set (path := fst (prepare_path (world st))) in *.
  set (saved := saved_charges (pa_point_charges a)
                  (snd (prepare_path (world st)))) in *.
  set (st1 := {| self := self st; world := w1; log := log st;
                 events := events st ++ saved
                           ++ [EvWrite (path_join path "xcontrol") xc] |})
    in *.
  apply bind_Ok in Hrun as ([] & st2 & Hrefresh & Hrun).
  apply bind_Ok in Hrun as ([] & st3 & Hcopy & Hrestart).
  apply restart_stage_Ok in Hrestart as (Hs3 & copies & He3 & Hcopies).
  exists xc, copies. split; [exact Hcopies|].
  change (self st) with (self st1) in Hset |- *.
  destruct (topo_due (self st1)) eqn:Hdue.
  - destruct (refresh_due _ _ _ _ Hdue Hrefresh)
      as (rq & dir & target & w & Hcalc & Ht & Hs2 & He2).
    assert (Hset2 : topo_set (self st2) = true).
    { rewrite Hs2. unfold topo_set. simpl. rewrite Ht, Hfn. reflexivity. }
    destruct (copy_set _ _ _ Hset2 Hcopy) as (t & Htopo & Hs & He).
    rewrite Hs2 in Htopo. simpl in Htopo. injection Htopo as <-.
    rewrite Hs3, Hs, Hs2.
    split; [reflexivity|]. split; [rewrite <- Hs2; exact Hset2|].
    split; [reflexivity|]. simpl.
    exists rq, dir, target. split; [exact Hcalc|]. split; [reflexivity|].
    rewrite He3, He, He2. simpl. rewrite <- !app_assoc. reflexivity.
  - rewrite (refresh_not_due _ _ _ Hdue) in Hrefresh.
    injection Hrefresh as <-.
    destruct (copy_set _ _ _ Hset Hcopy) as (t & Htopo & Hs & He).
    rewrite Hs3, Hs.
    split; [reflexivity|].
    split; [exact Hset|].
    split; [reflexivity|]. simpl.
    exists t. split; [exact Htopo|]. split; [exact Htopo|].
    rewrite He3, He. simpl. rewrite <- !app_assoc. reflexivity.
Qed.

Lemma prepare_inputs_count (calls : list prepare_args) (st0 st : State) :
  (forall (name : string) (w : World), is_empty (make_fn name w) = false) ->
  topo_set (self st0) = true ->
  prepare_inputs calls st0 = (Ok tt, st) ->
  topo_used (self st) = topo_used (self st0) + Z.of_nat (length calls)
  /\ topo_set (self st) = true
  /\ topo_update (self st) = topo_update (self st0).
Proof.
  intros Hfn. revert st0. induction calls as [|a calls IH]; intros st0 Hset Hrun.
  - injection Hrun as <-. simpl. rewrite Z.add_0_r. auto.
  - cbn [prepare_inputs] in Hrun.
    apply bind_Ok in Hrun as ([] & st1 & Hstep & Hrun).
    destruct (prepare_input_step a st0 st1 Hfn Hset Hstep)
      as (xc & copies & _ & Hupd & Hset1 & Hused & _).
    destruct (IH st1 Hset1 Hrun) as (Hn & Hs & Hu).
    rewrite Hn, Hused, Hu, Hupd. cbn [length].
    split; [lia | auto].
Qed.

(** C2, amended. An instance starts with a topology path, the counter at
    0 and the interval 5, and [make_fn] gives no empty name. After [n]
    calls of [prepare_input] that returned, the counter is [n], and a
    rebuild is due exactly when [n] is a positive multiple of 5. For one
    more call, the call number [n + 1]:

    - when it returns, the counter is [n + 1]. If the rebuild was due, so
      on the calls number 6, 11, 16 and so on, the point charges are saved
      and the control file is written, the program is run in mode [topo],
      the topology it produced is stored, and this stored file is the one
      then copied into the working directory. If it was not due, the call
      ran nothing and copied the topology it started with;
    - when the rebuild is not due, it does not run the program, whether
      it returns or raises;
    - when the rebuild itself raises, the call raises the same and leaves
      the attributes of the instance, the counter among them, as they
      were: the call after it finds the rebuild due again. *)
Theorem topo_refresh_schedule (calls : list prepare_args) (a : prepare_args)
    (st0 st : State) :
  topo_used (self st0) = 0 ->
  topo_update (self st0) = Some 5 ->
  topo_set (self st0) = true ->
  (forall (name : string) (w : World), is_empty (make_fn name w) = false) ->
  prepare_inputs calls st0 = (Ok tt, st) ->
  let n := Z.of_nat (length calls) in
  let due := (0 <? n) && (n mod 5 =? 0) in
  let path := fst (prepare_path (world st)) in
  let saved :=
    saved_charges (pa_point_charges a) (snd (prepare_path (world st))) in
  let st' := snd (prepare_input_with a st) in
  topo_used (self st) = n
  /\ topo_due (self st) = due
  /\ (fst (prepare_input_with a st) = Ok tt ->
      topo_used (self st') = n + 1
      /\ exists xc copies,
           List.Forall no_run copies
           /\ if due then
                exists rq dir target,
                  rq_calc rq = "topo"
                  /\ topo (self st') = Some target
                  /\ events st'
                     = events st ++ saved
                       ++ [EvWrite (path_join path "xcontrol") xc; EvRun rq;
                           EvCopy (path_join dir "gfnff_topo") target;
                           EvCopy target (path_join path "gfnff_topo")]
                       ++ copies
              else
                exists t,
                  topo (self st) = Some t /\ topo (self st') = Some t
                  /\ events st'
                     = events st ++ saved
                       ++ [EvWrite (path_join path "xcontrol") xc;
                           EvCopy t (path_join path "gfnff_topo")]
                       ++ copies)
  /\ (due = false ->
      exists evs, events st' = events st ++ evs /\ List.Forall no_run evs)
  /\ (forall e : exn,
        fst (refresh_stage (pa_atoms a) (pa_coords a)
               (snd (control_stage (pa_point_charges a) st)))
        = Raise e ->
        fst (prepare_input_with a st) = Raise e
        /\ self st' = self st
        /\ topo_due (self st') = true).
Proof.
  intros Hused0 Hupd0 Hset0 Hfn Hcalls n due path saved st'.
  destruct (prepare_inputs_count calls st0 st Hfn Hset0 Hcalls)
    as (Hn & Hset & Hupd).
  rewrite Hused0, Z.add_0_l in Hn. fold n in Hn. rewrite Hupd0 in Hupd.
  assert (Hdue : topo_due (self st) = due).
  { unfold topo_due. rewrite Hn, Hupd. reflexivity. }
  split; [exact Hn|]. split; [exact Hdue|]. split; [|split].
  - intros Hok.
    assert (Hnext : prepare_input_with a st = (Ok tt, st')).
    { subst st'. rewrite <- Hok. apply surjective_pairing. }
    destruct (prepare_input_step a st st' Hfn Hset Hnext)
      as (xc & copies & Hcopies & _ & _ & Hstep & Hev).
    split; [rewrite Hstep, Hn; reflexivity|].
    exists xc, copies. split; [exact Hcopies|].
    rewrite <- Hdue. exact Hev.
  - intros Hnot. rewrite <- Hdue in Hnot.
    apply (prepare_input_not_due (pa_atoms a) (pa_coords a) (pa_calc_type a)
             (pa_point_charges a) st Hnot).
  - intros e Hraise. subst st'. unfold prepare_input_with.
    rewrite prepare_input_stages, bind_unfold.
    destruct (control_stage_state (pa_point_charges a) st)
      as (p & st1 & Hc & _ & Hs1 & _).
    rewrite Hc in Hraise |- *. cbn [snd] in Hraise.
    rewrite bind_unfold.
    assert (Hdue1 : topo_due (self st1) = true).
    { destruct (topo_due (self st1)) eqn:E; [reflexivity|].
      rewrite (refresh_not_due _ _ _ E) in Hraise. discriminate. }
    destruct (refresh_stage (pa_atoms a) (pa_coords a) st1)
      as [[[]|e1] st2] eqn:Hr; cbn [fst] in Hraise; [discriminate|].
    injection Hraise as ->. cbn [fst snd].
    apply refresh_raises in Hr. rewrite Hr, Hs1. rewrite Hs1 in Hdue1. auto.
Qed.
End TopoTheorem.

(** On the sample environment the fifth call runs nothing; the sixth call
    is the first to recreate the topology. *)
Lemma topo_not_rebuilt_on_5th_call :
  let st4 := snd (prepare_inputs (repeat sample_call 4) topo_state) in
  let r5 := prepare_input_with sample_call st4 in
  let r6 := prepare_input_with sample_call (snd r5) in
  fst r5 = Ok tt
  /\ topo_used (self st4) = 4
  /\ topo_used (self (snd r5)) = 5
  /\ run_modes (events (snd r5)) = []
  /\ fst r6 = Ok tt
  /\ run_modes (events (snd r6)) = ["topo"].
Proof. vm_compute. repeat split; reflexivity. Qed.

Lemma topo_refresh_schedule_witness :
  let st5 := snd (prepare_inputs (repeat sample_call 5) topo_state) in
  let st6 := snd (prepare_input_with sample_call st5) in
  let failed := prepare_input_with short_call st5 in
  topo_used (self st5) = 5 /\ topo_used (self st6) = 6
  /\ (exists rq, In (EvRun rq) (events st6) /\ rq_calc rq = "topo")
  /\ fst failed = Raise (Exn AssertionError "")
  /\ topo_used (self (snd failed)) = 5
  /\ topo_due (self (snd failed)) = true.
Proof.
  intros st5 st6 failed.
  destruct (topo_refresh_schedule (repeat sample_call 5) sample_call
              topo_state st5)
    as (H5 & _ & Hok & _ & _);
    [reflexivity | reflexivity | reflexivity | intros; reflexivity
    | vm_compute; reflexivity |].
  destruct (topo_refresh_schedule (repeat sample_call 5) short_call
              topo_state st5)
    as (_ & _ & _ & _ & Hfail);
    [reflexivity | reflexivity | reflexivity | intros; reflexivity
    | vm_compute; reflexivity |].
  destruct Hok as (H6 & xc & copies & _ & Hdue); [vm_compute; reflexivity|].
  destruct (Hfail (Exn AssertionError "")) as (Hr & Hs & Hd);
    [vm_compute; reflexivity|].
  split; [exact H5|]. split; [exact H6|]. split; [|split; [|split]].
  - destruct Hdue as (rq & dir & target & Hcalc & _ & Hev).
    exists rq. split; [|exact Hcalc].
    fold st6 in Hev. rewrite Hev. apply in_or_app. right. simpl. auto.
  - exact Hr.
  - fold failed in Hs. rewrite Hs. exact H5.
  - exact Hd.
Defined.

Section Operations2.
Context `{PyFormat} `{Collaborators}.

Lemma prepare_coords_bad (atoms : list string) (coords : list float) (st : State) :
  (length coords mod 3 <> 0)%nat ->
  prepare_coords atoms coords st
  = (Raise (Exn ValueError "cannot reshape array"), st).
Proof.
  intros Hmod. unfold prepare_coords, reshape3, scale. rewrite length_map.
  apply Nat.eqb_neq in Hmod. rewrite Hmod. reflexivity.
Qed.

Lemma refresh_bad_coords (atoms : list string) (coords : list float) (st : State) :
  (length coords mod 3 <> 0)%nat ->
  exists r, refresh_stage atoms coords st = (r, st).
Proof.
  intros Hmod. unfold refresh_stage. rewrite bind_unfold. cbn [get_self].
  destruct (topo_due (self st)); [|eexists; reflexivity].
  eexists. apply bind_Raise. unfold run_topo. apply bind_Raise.
  apply prepare_coords_bad, Hmod.
Qed.

Lemma prepare_input_bad_coords atoms coords calc_type pc (st : State) :
  (length coords mod 3 <> 0)%nat ->
  exists evs,
    events (snd (prepare_input atoms coords calc_type pc st)) = events st ++ evs
    /\ List.Forall no_run evs.
Proof.
  intros Hmod.
  destruct (control_stage_state pc st)
    as (path & st1 & Hc & _ & Hs1 & text & He1).
  rewrite prepare_input_stages, bind_unfold, Hc, bind_unfold.
  destruct (refresh_bad_coords atoms coords st1 Hmod) as [r ->].
  destruct r as [[]|e].
  - destruct (copy_restart_frame path st1) as ((evs & He & Hp) & _ & _).
    exists (saved_charges pc (snd (prepare_path (world st)))
            ++ EvWrite (path_join path "xcontrol") text :: evs).
    rewrite He, He1, <- !app_assoc. split; [reflexivity|].
    apply List.Forall_app. split; [apply saved_charges_no_run|].
    constructor; [reflexivity | exact Hp].
  - exists (saved_charges pc (snd (prepare_path (world st)))
            ++ [EvWrite (path_join path "xcontrol") text]). cbn [snd].
    split; [exact He1|].
    apply List.Forall_app. split; [apply saved_charges_no_run|].
    repeat constructor.
Qed.

(** X15. With a number of coordinates that is no multiple of three,
    [get_forces], [get_hessian] and [get_energy] raise, and the program
    was never run. *)
Theorem bad_coordinates_never_run atoms coords pc (st : State) :
  (length coords mod 3 <> 0)%nat ->
  (exists e evs,
     fst (get_forces atoms coords pc st) = Raise e
     /\ events (snd (get_forces atoms coords pc st)) = events st ++ evs
     /\ List.Forall no_run evs)
  /\ (exists e evs,
        fst (get_hessian atoms coords pc st) = Raise e
        /\ events (snd (get_hessian atoms coords pc st)) = events st ++ evs
        /\ List.Forall no_run evs)
  /\ (exists e evs,
        fst (get_energy atoms coords pc st) = Raise e
        /\ events (snd (get_energy atoms coords pc st)) = events st ++ evs
        /\ List.Forall no_run evs).
Proof.
  intros Hmod.
  assert (Hstage : forall calc_type (k : string -> M retval),
    exists e evs,
      fst ((prepare_input atoms coords calc_type pc;;
            inp ← prepare_coords atoms coords; k inp) st) = Raise e
      /\ events (snd ((prepare_input atoms coords calc_type pc;;
                       inp ← prepare_coords atoms coords; k inp) st))
         = events st ++ evs
      /\ List.Forall no_run evs).
  { intros calc_type k. rewrite bind_unfold.
    destruct (prepare_input_bad_coords atoms coords calc_type pc st Hmod)
      as (evs & He & Hp).
    destruct (prepare_input atoms coords calc_type pc st) as [[[]|e] st1];
      cbn [fst snd] in *.
    - rewrite (bind_Raise _ _ _ _ _ (prepare_coords_bad atoms coords st1 Hmod)).
      eexists. exists evs. auto.
    - exists e, evs. auto. }
  split; [apply Hstage|]. split; [apply Hstage|].
  unfold get_energy. rewrite bind_unfold.
  destruct (Hstage "forces" (fun inp =>
      x ← get_self;
      log_msg (executing_msg x (prepare_add_args x ++ ["--grad"]));;
      env ← get_pal_env;
      run {| rq_inp := inp; rq_calc := "grad";
             rq_add_args := Some (prepare_add_args x ++ ["--grad"]);
             rq_cmd := None; rq_env := env; rq_keep := None;
             rq_keep_log := None |})) as (e & evs & Hr & He & Hp).
  change (get_forces atoms coords pc st) with
    ((prepare_input atoms coords "forces" pc;;
      inp ← prepare_coords atoms coords;
      x ← get_self;
      log_msg (executing_msg x (prepare_add_args x ++ ["--grad"]));;
      env ← get_pal_env;
      run {| rq_inp := inp; rq_calc := "grad";
             rq_add_args := Some (prepare_add_args x ++ ["--grad"]);
             rq_cmd := None; rq_env := env; rq_keep := None;
             rq_keep_log := None |}) st).
  destruct ((prepare_input atoms coords "forces" pc;; _) st) as [r st1].
  cbn [fst snd] in *. subst r. exists e, evs. auto.
Qed.

Lemma parse_hessian_Ok (path : string) (st st' : State) (r : retval) :
  parse_hessian path st = (Ok r, st') ->
  exists energy n xs,
    r = hessian_results energy (rows_of n n xs) /\ length xs = (n * n)%nat.
Proof.
  unfold parse_hessian. intros Hp.
  apply bind_Ok in Hp as (text & st1 & _ & Hp).
  destruct (np_array (tail (split text))) as [xs|]; [|discriminate].
  unfold reshape2 in Hp.
  destruct (length xs =? _)%nat eqn:E; [|discriminate].
  apply Nat.eqb_eq in E.
  apply bind_Ok in Hp as (energy & st2 & _ & Hp).
  injection Hp as <- _. eauto.
Qed.

(** X16. Whatever [get_hessian] returns is an energy with a square
    matrix: as many rows as every row has entries. *)
Theorem get_hessian_square atoms coords pc (st st' : State) (r : retval) :
  get_hessian atoms coords pc st = (Ok r, st') ->
  exists (energy : float) (h : list (list float)) (n : nat),
    r = hessian_results energy h
    /\ length h = n
    /\ List.Forall (fun row => length row = n) h.
Proof.
  intros Hg. unfold get_hessian in Hg.
  apply bind_Ok in Hg as (_ & st1 & _ & Hg).
  apply bind_Ok in Hg as (inp & st2 & _ & Hg).
  apply bind_Ok in Hg as (x & st3 & _ & Hg).
  apply bind_Ok in Hg as (_ & st4 & _ & Hg).
  apply bind_Ok in Hg as (env & st5 & _ & Hg).
  unfold run in Hg.
  apply bind_Ok in Hg as (_ & st6 & _ & Hg).
  apply bind_Ok in Hg as (path & st7 & _ & Hg).
  unfold parser_funcs in Hg. cbn [rq_calc String.eqb Ascii.eqb Bool.eqb] in Hg.
  simpl in Hg.
  destruct (parse_hessian_Ok _ _ _ _ Hg) as (energy & n & xs & -> & Hlen).
  exists energy, (rows_of n n xs), n.
  split; [reflexivity|]. split; [apply rows_of_length|].
  apply rows_of_rows, Hlen.
Qed.
End Operations2.

Lemma get_hessian_square_witness :
  exists (energy : float) (h : list (list float)),
    fst (get_hessian ["H"; "H"] (repeat 0%float 6) None
           (hessian_state hessian_file_36))
    = Ok (hessian_results energy h)
    /\ length h = 6%nat
    /\ List.Forall (fun row => length row = 6%nat) h.
Proof.
  destruct (get_hessian_square ["H"; "H"] (repeat 0%float 6) None
              (hessian_state hessian_file_36)
              (snd (get_hessian ["H"; "H"] (repeat 0%float 6) None
                      (hessian_state hessian_file_36)))
              (hessian_results (-5.070544)%float
                 (rows_of 6 6 (repeat 0%float 36))))
    as (energy & h & n & Hr & Hn & Hrows); [vm_compute; reflexivity|].
  exists (-5.070544)%float, (rows_of 6 6 (repeat 0%float 36)).
  split; [vm_compute; reflexivity|].
  split; [reflexivity | repeat constructor].
Defined.

Section Operations3.
Context `{PyFormat} `{Collaborators}.

(** Every parser but the one of the topology run leaves the events and
    the calculator alone. *)
Lemma parser_quiet (calc path : string) (keep_log : option bool) :
  String.eqb calc "topo" = false ->
  adds no_event (parser_funcs calc path keep_log)
  /\ keeps_self (parser_funcs calc path keep_log).
Proof.
  intros Hc. unfold parser_funcs. rewrite Hc.
  unfold parse_gradient, parse_hessian, parse_opt, parse_md, parse_energy.
  split; frame.
Qed.

Lemma run_quiet (rq : run_request) (st : State) :
  String.eqb (rq_calc rq) "topo" = false ->
  events (snd (run rq st)) = events st ++ [EvRun rq]
  /\ self (snd (run rq st)) = self st.
Proof.
  intros Hc. unfold run. rewrite bind_unfold. cbn [emit].
  match goal with
  | |- context [?m ?s] =>
      match m with
      | lift_try _ ≫= _ =>
          assert (Ha : adds no_event m)
            by (apply adds_bind; [apply adds_lift_try|];
                intros p; apply parser_quiet, Hc);
          assert (Hk : keeps_self m)
            by (apply keeps_bind; [apply keeps_lift_try|];
                intros p; apply parser_quiet, Hc);
          rewrite (adds_no_event m s Ha), (Hk s)
      end
  end.
  split; reflexivity.
Qed.

(** X17. [run_opt] stages nothing. For coordinates in triples whose
    geometry text [make_xyz_str] returns, its only event is the run, in
    mode [opt], on that text, with the arguments of [prepare_add_args]
    followed by [--opt tight] and with [keep] and [keep_log] passed on;
    the instance is unchanged. When [make_xyz_str] raises, [run_opt]
    raises the same and changes nothing; when the coordinates do not come
    in triples it raises [ValueError] and changes nothing. *)
Theorem run_opt_stages_nothing (atoms : list string) (coords : list float)
    (keep keep_log : bool) (st : State) :
  ((length coords mod 3 = 0)%nat ->
   match make_xyz_str atoms
           (rows_of (length coords / 3) 3 (scale BOHR2ANG coords)) with
   | Raise e => run_opt atoms coords keep keep_log st = (Raise e, st)
   | Ok inp =>
       exists rq,
         events (snd (run_opt atoms coords keep keep_log st))
         = events st ++ [EvRun rq]
         /\ self (snd (run_opt atoms coords keep keep_log st)) = self st
         /\ rq_inp rq = inp
         /\ rq_calc rq = "opt"
         /\ rq_add_args rq
            = Some (prepare_add_args (self st) ++ ["--opt"; "tight"])
         /\ rq_keep rq = Some keep
         /\ rq_keep_log rq = Some keep_log
   end)
  /\ ((length coords mod 3 <> 0)%nat ->
      run_opt atoms coords keep keep_log st
      = (Raise (Exn ValueError "cannot reshape array"), st)).
Proof.
  split; intros Hmod.
  - unfold run_opt.
    rewrite bind_unfold, (prepare_coords_multiple atoms coords st Hmod).
    destruct (make_xyz_str atoms _) as [inp|e]; [|reflexivity].
    repeat (rewrite bind_unfold; simpl).
    match goal with
    | |- context [run ?rq ?s] =>
        exists rq; destruct (run_quiet rq s eq_refl) as [Hev Hself];
        rewrite Hev, Hself
    end.
    simpl. repeat split; reflexivity.
  - unfold run_opt. apply bind_Raise, prepare_coords_bad, Hmod.
Qed.

End Operations3.

Lemma no_space_single_line (s : string) :
  no_space s = true -> single_line s = true.
Proof.
  apply all_chars_impl. intros c Hc.
  destruct (Ascii.eqb_spec c NL) as [->|]; [discriminate Hc | reflexivity].
Qed.

Lemma str_of_int_single_line (n : Z) : single_line (str_of_int n) = true.
Proof.
  apply no_space_single_line. unfold str_of_int.
  destruct (Z.to_int n) as [d|d]; simpl.
  - apply uint_no_space.
  - apply uint_no_space.
Qed.

Section MdControl.
Context `{PyFormat}.

Lemma number_xval_text (dt : number) : xval_text (number_xval dt) = number_str dt.
Proof. destruct dt; reflexivity. Qed.

(** X19. The control file of a dynamics run without further options,
    line by line, when the texts of the time and of the step hold no
    newline: the keys in ascending order, the time divided by 1000 and
    the step as given. *)
Theorem md_control_file (restart : bool) (t : float) (dt : number) (dump : Z) :
  single_line (float_str (PrimFloat.div t 1000%float)) = true ->
  single_line (number_str dt) = true ->
  format_xcontrol
    (md_options (if restart then "true" else "false") t dt dump)
  = join_lines
      ["$md";
       "    dump=" +:+ str_of_int dump;
       "    hmass=1";
       "    nvt=false";
       "    restart=" +:+ (if restart then "true" else "false");
       "    shake=0";
       "    step=" +:+ number_str dt;
       "    time=" +:+ float_str (PrimFloat.div t 1000%float);
       "    velo=false";
       "$end"].
Proof.
  intros Ht Hdt. rewrite format_xcontrol_lines.
  - unfold sorted_options, md_options, xcontrol_lines, block_lines, entry_text.
    simpl. rewrite number_xval_text. reflexivity.
  - unfold options_single_line, md_options.
    repeat constructor; simpl; try reflexivity.
    + apply str_of_int_single_line.
    + destruct restart; reflexivity.
    + exact Ht.
    + rewrite number_xval_text. exact Hdt.
Qed.
End MdControl.

Lemma md_control_file_witness :
  format_xcontrol (md_options "true" 1000%float (NInt 2) 5)
  = join_lines
      ["$md"; "    dump=5"; "    hmass=1"; "    nvt=false";
       "    restart=true"; "    shake=0"; "    step=2"; "    time=1.0";
       "    velo=false"; "$end"].
Proof.
  rewrite (md_control_file true 1000%float (NInt 2) 5)
    by (vm_compute; reflexivity).
  reflexivity.
Defined.

Lemma replace_e_D_no_e (s : string) :
  all_chars (fun c => negb (Ascii.eqb c "e")) (replace_e_D s) = true.
Proof.
  induction s as [|c s IH]; simpl; [reflexivity|].
  rewrite IH. destruct (Ascii.eqb c "e") eqn:E; [reflexivity|].
  rewrite E. reflexivity.
Qed.

Section RestartText.
Context `{PyFormat} `{Collaborators}.

(** X20. The restart text starts with the line [ -1.0] and holds no
    letter [e]: every exponent is written with [D]. *)
Theorem mdrestart_text (c v : list (list float)) :
  (exists rest, get_mdrestart_str c v = " -1.0" +:+ String NL rest)
  /\ all_chars (fun ch => negb (Ascii.eqb ch "e")) (get_mdrestart_str c v)
     = true.
Proof.
  unfold get_mdrestart_str. split.
  - unfold indent, splitlines_keepends.
    destruct (replace_e_D (savetxt (concat_columns c v))) as [|c0 s];
      eexists; simpl; reflexivity.
  - apply all_chars_indent; [|reflexivity].
    rewrite !all_chars_app. simpl. apply replace_e_D_no_e.
Qed.
End RestartText.

Section LevelFlag.
Context `{PyFormat} `{Collaborators}.

(** X21. For an instance that [__init__] accepted, the arguments end in
    the flag of the level. For an [int] or [str] level this is one of
    [--gfn 0], [--gfn 1], [--gfn 2] and [--gfnff]. The membership test
    compares with [==], so a [bool] and a [float] equal to 0, 1 or 2 are
    accepted as well, and are formatted as they are: [--gfn True],
    [--gfn False], or [--gfn] with the text of the float. *)
Theorem init_level_flag (kw : kwargs) (x : XTB) :
  init kw = Ok x ->
  exists flag,
    prepare_add_args x = base_args x ++ etemp_args x ++ solvent_args x ++ flag
    /\ match kw_gfn kw with
       | GfnInt _ | GfnStr _ => In flag level_flags
       | GfnBool b => flag = ["--gfn"; if b then "True" else "False"]
       | GfnFloat f =>
           flag = "--gfn" :: split (float_str f)
           /\ (PrimFloat.eqb f 0%float = true \/ PrimFloat.eqb f 1%float = true
               \/ PrimFloat.eqb f 2%float = true)
       end.
Proof.
  intros Hinit.
  destruct (init_ok_inv kw x Hinit) as (_ & _ & _ & _ & _ & _ & _ & Hg & Hv).
  exists (gfn_args x). split.
  - unfold prepare_add_args. rewrite <- !app_assoc. reflexivity.
  - rewrite gfn_args_eq, Hg. unfold level_flags.
    destruct (kw_gfn kw) as [n|s|b|f]; simpl in Hv.
    + apply orb_prop in Hv as [Hv|Hv]; [apply orb_prop in Hv as [Hv|Hv]|];
        apply Z.eqb_eq in Hv; subst n; simpl; auto.
    + rewrite Hv. simpl. auto.
    + reflexivity.
    + split; [reflexivity|].
      apply orb_prop in Hv as [Hv|Hv]; [apply orb_prop in Hv as [Hv|Hv]|];
        auto.
Qed.

(** X22. For coordinates in triples: when staging the input fails,
    [get_forces] and [get_hessian] fail in the same way and state; when
    [make_xyz_str] then raises, they raise the same in the state that
    staging left, and the program is not run; on the geometry text it
    returns they run the program once more and last, in mode [grad]
    with [--grad], respectively [hess] with [--hess], after the arguments
    of [prepare_add_args], with the default command. *)
Theorem gradient_and_hessian_run_once (atoms : list string)
    (coords : list float) (pc : option (list (list float))) (st : State) :
  (length coords mod 3 = 0)%nat ->
  let geometry :=
    make_xyz_str atoms
      (rows_of (length coords / 3) 3 (scale BOHR2ANG coords)) in
  (let staged := prepare_input atoms coords "forces" pc st in
   match fst staged, geometry with
   | Raise e, _ => get_forces atoms coords pc st = (Raise e, snd staged)
   | Ok _, Raise e => get_forces atoms coords pc st = (Raise e, snd staged)
   | Ok _, Ok inp =>
       exists rq,
         events (snd (get_forces atoms coords pc st))
         = events (snd staged) ++ [EvRun rq]
         /\ self (snd (get_forces atoms coords pc st)) = self (snd staged)
         /\ rq_inp rq = inp
         /\ rq_calc rq = "grad"
         /\ rq_add_args rq
            = Some (prepare_add_args (self (snd staged)) ++ ["--grad"])
         /\ rq_cmd rq = None
   end)
  /\ (let staged := prepare_input atoms coords "hessian" pc st in
      match fst staged, geometry with
      | Raise e, _ => get_hessian atoms coords pc st = (Raise e, snd staged)
      | Ok _, Raise e => get_hessian atoms coords pc st = (Raise e, snd staged)
      | Ok _, Ok inp =>
          exists rq,
            events (snd (get_hessian atoms coords pc st))
            = events (snd staged) ++ [EvRun rq]
            /\ self (snd (get_hessian atoms coords pc st)) = self (snd staged)
            /\ rq_inp rq = inp
            /\ rq_calc rq = "hess"
            /\ rq_add_args rq
               = Some (prepare_add_args (self (snd staged)) ++ ["--hess"])
            /\ rq_cmd rq = None
      end).
Proof.
  intros Hmod geometry. subst geometry. split; intros staged; subst staged.
  - unfold get_forces. rewrite bind_unfold.
    destruct (prepare_input atoms coords "forces" pc st) as [[[]|e] st1];
      cbn [fst snd]; [|reflexivity].
    rewrite bind_unfold, (prepare_coords_multiple atoms coords st1 Hmod).
    destruct (make_xyz_str atoms _) as [inp|e]; [|reflexivity].
    repeat (rewrite bind_unfold; simpl).
    match goal with
    | |- context [run ?rq ?s] =>
        exists rq; destruct (run_quiet rq s eq_refl) as [Hev Hself];
        rewrite Hev, Hself
    end.
    simpl. repeat split; reflexivity.
  - unfold get_hessian. rewrite bind_unfold.
    destruct (prepare_input atoms coords "hessian" pc st) as [[[]|e] st1];
      cbn [fst snd]; [|reflexivity].
    rewrite bind_unfold, (prepare_coords_multiple atoms coords st1 Hmod).
    destruct (make_xyz_str atoms _) as [inp|e]; [|reflexivity].
    repeat (rewrite bind_unfold; simpl).
    match goal with
    | |- context [run ?rq ?s] =>
        exists rq; destruct (run_quiet rq s eq_refl) as [Hev Hself];
        rewrite Hev, Hself
    end.
    simpl. repeat split; reflexivity.
Qed.
End LevelFlag.

(** ** The further theorems on the sample environment *)

Lemma parse_opt_found_witness :
  parse_opt "run" false opt_state
  = (Ok (ROpt {| opt_geom :=
                   OneGeom (set_geom_energy empty_geometry (-5.070544)%float);
                 opt_log := None |}), opt_state)
  /\ parse_opt "run" true opt_state
     = (Raise (Exn FileNotFoundError "run/xtbopt.log"), opt_state).
Proof.
  destruct (parse_opt_found "run" empty_geometry (-5.070544)%float opt_state)
    as [Hplain Hlog];
    [vm_compute; eauto | reflexivity | vm_compute; reflexivity |].
  split; [exact Hplain|]. rewrite Hlog. reflexivity.
Defined.

Lemma format_xcontrol_update_order_witness :
  format_xcontrol (dict_update [("write", [("json", XBool false)])]
                     sample_options_a)
  = format_xcontrol (dict_update [("write", [("json", XBool false)])]
                       sample_options_b).
Proof.
  apply format_xcontrol_update_order.
  - split; [nodup_strings|]. repeat (constructor; [nodup_strings|]). constructor.
  - split; [nodup_strings|]. repeat (constructor; [nodup_strings|]). constructor.
  - split; [nodup_strings|]. repeat (constructor; [nodup_strings|]). constructor.
  - intros name. simpl.
    destruct (String.eqb_spec name "write") as [->|_]; simpl.
    + intros k. reflexivity.
    + destruct (String.eqb_spec name "md") as [->|_]; simpl; [|exact I].
      intros k. simpl.
      destruct (String.eqb_spec k "time") as [->|_]; [reflexivity|].
      destruct (String.eqb_spec k "dump") as [->|_]; [reflexivity|].
      destruct (String.eqb_spec k "nvt") as [->|_]; reflexivity.
Defined.

Lemma prepare_inputs_without_topology_witness :
  let st' := snd (prepare_inputs (repeat sample_call 3) md_state) in
  self st' = default_xtb
  /\ exists evs, events st' = evs /\ List.Forall no_run evs.
Proof.
  exact (prepare_inputs_without_topology (repeat sample_call 3) md_state
           eq_refl eq_refl).
Defined.

Lemma prepare_inputs_without_interval_witness :
  let st' := snd (prepare_inputs (repeat sample_call 3) md_state) in
  topo (self st') = None
  /\ topo_update (self st') = None
  /\ exists evs, events st' = evs /\ List.Forall no_run evs.
Proof.
  exact (prepare_inputs_without_interval (repeat sample_call 3) md_state
           (or_introl eq_refl)).
Defined.

Lemma prepare_input_missing_topology_witness :
  fst (prepare_input ["H"; "H"] (repeat 0%float 6) "forces" None
         missing_topo_state)
  = Raise (Exn FileNotFoundError "gfnff_topo").
Proof.
  destruct (prepare_input_missing_topology ["H"; "H"] (repeat 0%float 6)
              "forces" None "gfnff_topo" missing_topo_state)
    as [Hr _]; [reflexivity | reflexivity | reflexivity | reflexivity |].
  rewrite Hr. reflexivity.
Defined.

Lemma init_level_flag_witness :
  exists x,
    init true_level_kwargs = Ok x
    /\ prepare_add_args x
       = ["--input"; "xcontrol"; "--chrg"; "0"; "--uhf"; "0"; "--acc"; "1.0";
          "--iterations"; "250"; "--gfn"; "True"].
Proof.
  eexists. split; [reflexivity|].
  destruct (init_level_flag true_level_kwargs _ eq_refl)
    as (flag & Hargs & Hflag).
  simpl in Hflag. rewrite Hargs, Hflag. reflexivity.
Defined.

Lemma gradient_and_hessian_run_once_witness :
  (exists rq,
     events (snd (get_forces ["H"; "H"] (repeat 0%float 6) None md_state))
     = events (snd (prepare_input ["H"; "H"] (repeat 0%float 6) "forces" None
                      md_state)) ++ [EvRun rq]
     /\ rq_calc rq = "grad")
  /\ (exists rq,
        events (snd (get_hessian ["H"; "H"] (repeat 0%float 6) None md_state))
        = events (snd (prepare_input ["H"; "H"] (repeat 0%float 6) "hessian"
                         None md_state)) ++ [EvRun rq]
        /\ rq_calc rq = "hess")
  /\ get_forces ["H"] (repeat 0%float 6) None md_state
     = (Raise (Exn AssertionError ""),
        snd (prepare_input ["H"] (repeat 0%float 6) "forces" None md_state)).
Proof.
  destruct (gradient_and_hessian_run_once ["H"; "H"] (repeat 0%float 6) None
              md_state eq_refl) as [Hf Hh].
  destruct (gradient_and_hessian_run_once ["H"] (repeat 0%float 6) None
              md_state eq_refl) as [Hbad _].
  split; [|split].
  - destruct Hf as (rq & Hev & _ & _ & Hc & _). exists rq. auto.
  - destruct Hh as (rq & Hev & _ & _ & Hc & _). exists rq. auto.
  - exact Hbad.
Defined.

Lemma bad_coordinates_never_run_witness :
  exists e evs,
    fst (get_forces ["H"; "H"] (repeat 0%float 4) None md_state) = Raise e
    /\ events (snd (get_forces ["H"; "H"] (repeat 0%float 4) None md_state))
       = evs
    /\ List.Forall no_run evs.
Proof.
  destruct (bad_coordinates_never_run ["H"; "H"] (repeat 0%float 4) None
              md_state) as [(e & evs & Hr & He & Hp) _];
    [simpl; discriminate|].
  exists e, evs. auto.
Defined.
